(** * i915 TTM migration and VMA binding: a shallow embedding

    Embedding of the i915 buffer-migration path
    ([i915_gem_ttm_move.c]: [i915_ttm_move], [__i915_ttm_move],
    [i915_ttm_accel_move], the memcpy fallback work and its fence callback)
    and of the VMA code of [i915_vma.c] ([vma_create], [i915_vma_instance],
    [i915_vma_pin_ww], the unbind family, [i915_gem_valid_gtt_space],
    [i915_vma_insert]).

    Pointers returned by the kernel's [ERR_PTR] convention are modelled by
    [fptr]; every collaborator that lives outside these two files (memory
    allocation, fence waits, command submission, TTM helpers) is an input of
    the model: its outcome is read from an environment record, so that a
    theorem quantifying over the environment covers every outcome. *)

From Stdlib Require Import ZArith List Bool Lia.
Import ListNotations.
Open Scope Z_scope.

(** Error numbers, as the kernel returns them (negated). *)
Definition ENOENT : Z := 2.
Definition EINTR : Z := 4.
Definition E2BIG : Z := 7.
Definition EAGAIN : Z := 11.
Definition ENOMEM : Z := 12.
Definition EBUSY : Z := 16.
Definition ENODEV : Z := 19.
Definition EINVAL : Z := 22.
Definition ENOSPC : Z := 28.
Definition ERESTARTSYS : Z := 512.

(* ------------------------------------------------------------------------- *)
(** ** Buffer migration: [i915_gem_ttm_move.c] *)

Module Migrate.

(** The two selftest switches [fail_gpu_migration] and
    [fail_work_allocation]. *)
Record failure_modes := {
  fail_gpu_migration : bool;
  fail_work_allocation : bool
}.

Definition I915_PL_SYSTEM : Z := 0.
Definition I915_PL_LMEM0 : Z := 3.

(** A [struct ttm_resource]: only its memory type matters here. *)
Record ttm_resource := { mem_type : Z }.

(** Modelled from the spec: [i915_ttm_gtt_binds_lmem] and
    [i915_ttm_cpu_maps_iomem] (i915_gem_ttm.h, not in the excerpt): a
    device-local placement is bound as local memory by the GPU and mapped as
    io memory by the CPU; system memory is neither. *)
Definition i915_ttm_gtt_binds_lmem (r : ttm_resource) : bool :=
  negb (mem_type r =? I915_PL_SYSTEM).
Definition i915_ttm_cpu_maps_iomem (r : ttm_resource) : bool :=
  negb (mem_type r =? I915_PL_SYSTEM).

(** A [struct ttm_tt]: the flags the move path reads. *)
Record ttm_tt := {
  tt_populated : bool;          (* ttm_tt_is_populated *)
  tt_swapped : bool;            (* TTM_TT_FLAG_SWAPPED *)
  tt_zero_alloc : bool;         (* TTM_TT_FLAG_ZERO_ALLOC *)
  tt_cached : bool              (* ttm->caching == ttm_cached *)
}.

Definition populate (t : ttm_tt) : ttm_tt :=
  {| tt_populated := true; tt_swapped := false;
     tt_zero_alloc := tt_zero_alloc t; tt_cached := tt_cached t |}.

Definition I915_BO_FLAG_STRUCT_PAGE : Z := 1.
Definition I915_BO_FLAG_IOMEM : Z := 2.
Definition I915_GEM_DOMAIN_CPU : Z := 1.
Definition I915_GEM_DOMAIN_WC : Z := 128.
Definition I915_CACHE_NONE : Z := 0.
Definition I915_CACHE_LLC : Z := 1.

(** The GEM side of the object: the placement bookkeeping that
    [i915_ttm_move] updates in its epilogue.  Memory regions are named by
    their TTM memory type ([intel_region_to_ttm_type]). *)
Record gem_obj := {
  madv_willneed : bool;          (* obj->mm.madv == I915_MADV_WILLNEED *)
  purged : bool;
  mm_region : Z;                 (* obj->mm.region *)
  mm_placements : list Z;        (* obj->mm.placements[] *)
  mem_flags : Z;
  cache_level : Z;               (* set by set_cache_coherency *)
  read_domains : Z;
  write_domain : Z;
  cached_io_rsgt : option Z      (* obj->ttm.cached_io_rsgt *)
}.

(** The TTM buffer object, with the contents of its current placement. *)
Record bo := {
  bo_is_gem : bool;              (* i915_ttm_to_gem(bo) != NULL *)
  bo_resource : ttm_resource;
  bo_ttm : option ttm_tt;
  bo_kernel : bool;              (* bo->type == ttm_bo_type_kernel *)
  bo_obj : gem_obj;
  bo_data : list Z
}.

(** Outcomes of the collaborators outside the excerpt, for one call. *)
Record env := {
  e_notify_ret : Z;              (* i915_ttm_move_notify *)
  e_populate_ret : Z;            (* ttm_tt_populate *)
  e_dst_rsgt : Z;                (* i915_ttm_resource_get_st: id, or -errno *)
  e_prev_deps_ret : Z;           (* prev_deps *)
  e_migrate_context : bool;      (* to_gt(i915)->migrate.context != NULL *)
  e_wedged : bool;               (* intel_gt_is_wedged *)
  e_src_rsgt_err : Z;            (* source i915_ttm_resource_get_st *)
  e_submit_ret : Z;              (* intel_context_migrate_{clear,copy} *)
  e_fence_error : Z;             (* error the blit fence signals with *)
  e_fence_signaled : bool;       (* blit fence already signalled when the
                                    callback is added *)
  e_gpu_garbage : list Z;        (* destination after a failed blit *)
  e_kzalloc_ok : bool;           (* kzalloc of the memcpy work *)
  e_deps_sync_ret : Z;           (* i915_deps_sync *)
  e_accel_cleanup_ret : Z;       (* ttm_bo_move_accel_cleanup *)
  e_has_llc_or_snoop : bool      (* HAS_LLC(i915) || HAS_SNOOP(i915) *)
}.

(** Fences in the [ERR_PTR] convention. *)
Inductive fence := GpuFence | WorkFence.
Inductive fptr := FErr (e : Z) | FNull | FPtr (f : fence).

Definition ERR_PTR (e : Z) : fptr := if e =? 0 then FNull else FErr e.
Definition IS_ERR (p : fptr) : bool :=
  match p with FErr _ => true | _ => false end.
Definition PTR_ERR (p : fptr) : Z :=
  match p with FErr e => e | _ => 0 end.

(** Where the data that ends up in the destination was produced. *)
Inductive copy_path :=
| NoCpuCopy     (* no CPU copy: GPU result, or nothing at all *)
| IrqComplete   (* fallback armed, fence ok: __memcpy_irq_work *)
| WorkerCopy    (* fallback armed, fence error: __memcpy_work *)
| SyncCopy.     (* memcpy inside the caller *)

Definition i915_ttm_cache_level (e : env) (res : ttm_resource)
    (ttm : option ttm_tt) : Z :=
  if e_has_llc_or_snoop e && negb (i915_ttm_gtt_binds_lmem res) &&
     (match ttm with Some t => tt_cached t | None => false end)
  then I915_CACHE_LLC else I915_CACHE_NONE.

(** Modelled from the spec: [ttm_move_memcpy] (TTM, not in the excerpt):
    clears the destination, or copies the source into it, page by page
    over the whole object. *)
Definition ttm_move_memcpy (clear : bool) (src : list Z) : list Z :=
  if clear then repeat 0 (length src) else src.

(** [i915_ttm_accel_move]: the fence it returns, with the destination
    contents the blit leaves behind once that fence signals. *)
Definition i915_ttm_accel_move (fm : failure_modes) (e : env) (b : bo)
    (clear : bool) : fptr * list Z :=
  if negb (e_migrate_context e) || e_wedged e then
    (ERR_PTR (- EINVAL), e_gpu_garbage e)
  else
    let clear := clear || fail_gpu_migration fm in
    let blit := if e_fence_error e =? 0
                then ttm_move_memcpy clear (bo_data b)
                else e_gpu_garbage e in
    if clear then
      if bo_kernel b && negb (fail_gpu_migration fm) then
        (ERR_PTR (- EINVAL), e_gpu_garbage e)
      else if negb (e_submit_ret e =? 0) then
        (ERR_PTR (e_submit_ret e), e_gpu_garbage e)
      else (FPtr GpuFence, blit)
    else if negb (e_src_rsgt_err e =? 0) then
      (ERR_PTR (e_src_rsgt_err e), e_gpu_garbage e)
    else if negb (e_submit_ret e =? 0) then
      (ERR_PTR (e_submit_ret e), e_gpu_garbage e)
    else (FPtr GpuFence, blit).

(** Result of [__i915_ttm_move]: the returned fence, where the destination
    data was produced, the destination contents once every piece of work
    has completed, and whether a memcpy work item was allocated. *)
Record tmove := {
  tm_fence : fptr;
  tm_path : copy_path;
  tm_dst : list Z;
  tm_work : bool
}.

(** [__i915_ttm_move].  [has_deps] is [move_deps != NULL]. *)
Definition __i915_ttm_move (fm : failure_modes) (e : env) (b : bo)
    (clear : bool) (dst_mem : ttm_resource) (dst_init : list Z)
    (allow_accel : bool) (has_deps : bool) : tmove :=
  let cpu := ttm_move_memcpy clear (bo_data b) in
  let '(fence, gpu) :=
    if allow_accel then i915_ttm_accel_move fm e b clear
    else (ERR_PTR (- EINVAL), dst_init) in
  if allow_accel && negb (IS_ERR fence) &&
     negb (i915_ttm_gtt_binds_lmem dst_mem) &&
     negb (fail_gpu_migration fm || fail_work_allocation fm)
  then {| tm_fence := fence; tm_path := NoCpuCopy; tm_dst := gpu;
          tm_work := false |}
  else if negb (IS_ERR fence) then
    (* try to arm the error intercept *)
    let copy_work := negb (fail_work_allocation fm) && e_kzalloc_ok e in
    if copy_work then
      if negb (e_fence_signaled e) then
        (* dma_fence_add_callback succeeded: __memcpy_cb runs later *)
        if negb (e_fence_error e =? 0) || fail_gpu_migration fm then
          {| tm_fence := FPtr WorkFence; tm_path := WorkerCopy; tm_dst := cpu;
             tm_work := true |}
        else
          {| tm_fence := FPtr WorkFence; tm_path := IrqComplete; tm_dst := gpu;
             tm_work := true |}
      else
        (* -ENOENT: the blit fence has already signalled *)
        match ERR_PTR (if fail_gpu_migration fm then - EINVAL
                       else e_fence_error e) with
        | FErr _ => {| tm_fence := FNull; tm_path := SyncCopy; tm_dst := cpu;
                       tm_work := true |}
        | _ => {| tm_fence := FNull; tm_path := NoCpuCopy; tm_dst := gpu;
                  tm_work := true |}
        end
    else
      (* dma_fence_wait(dep) and read its error *)
      match ERR_PTR (if fail_gpu_migration fm then - EINVAL
                     else e_fence_error e) with
      | FErr _ => {| tm_fence := FNull; tm_path := SyncCopy; tm_dst := cpu;
                     tm_work := false |}
      | _ => {| tm_fence := FNull; tm_path := NoCpuCopy; tm_dst := gpu;
                tm_work := false |}
      end
  else if has_deps && negb (e_deps_sync_ret e =? 0) then
    {| tm_fence := ERR_PTR (e_deps_sync_ret e); tm_path := NoCpuCopy;
       tm_dst := gpu; tm_work := false |}
  else
    {| tm_fence := FNull; tm_path := SyncCopy; tm_dst := cpu;
       tm_work := false |}.

(** [i915_ttm_adjust_domains_after_move]. *)
Definition i915_ttm_adjust_domains_after_move (b : bo) : gem_obj :=
  let o := bo_obj b in
  let wc := i915_ttm_cpu_maps_iomem (bo_resource b) ||
            negb (match bo_ttm b with Some t => tt_cached t | None => false end) in
  let d := if wc then I915_GEM_DOMAIN_WC else I915_GEM_DOMAIN_CPU in
  {| madv_willneed := madv_willneed o; purged := purged o;
     mm_region := mm_region o; mm_placements := mm_placements o;
     mem_flags := mem_flags o; cache_level := cache_level o;
     read_domains := d; write_domain := d;
     cached_io_rsgt := cached_io_rsgt o |}.

Definition set_cached_io_rsgt (o : gem_obj) (r : option Z) : gem_obj :=
  {| madv_willneed := madv_willneed o; purged := purged o;
     mm_region := mm_region o; mm_placements := mm_placements o;
     mem_flags := mem_flags o; cache_level := cache_level o;
     read_domains := read_domains o; write_domain := write_domain o;
     cached_io_rsgt := r |}.

(** The placement loop of [i915_ttm_adjust_gem_after_move]: the first
    allowed placement of the new memory type, other than the current
    region. *)
Fixpoint find_placement (mt cur : Z) (pl : list Z) : option Z :=
  match pl with
  | [] => None
  | mr :: pl' => if (mr =? mt) && negb (mr =? cur) then Some mr
                 else find_placement mt cur pl'
  end.

(** [i915_ttm_adjust_gem_after_move]. *)
Definition i915_ttm_adjust_gem_after_move (e : env) (b : bo) : gem_obj :=
  let o := bo_obj b in
  let mt := mem_type (bo_resource b) in
  let region :=
    if negb (mm_region o =? mt) then
      match find_placement mt (mm_region o) (mm_placements o) with
      | Some mr => mr
      | None => mm_region o
      end
    else mm_region o in
  let flags := Z.land (mem_flags o)
                 (Z.lnot (Z.lor I915_BO_FLAG_STRUCT_PAGE I915_BO_FLAG_IOMEM)) in
  let flags := Z.lor flags (if i915_ttm_cpu_maps_iomem (bo_resource b)
                            then I915_BO_FLAG_IOMEM
                            else I915_BO_FLAG_STRUCT_PAGE) in
  {| madv_willneed := madv_willneed o; purged := purged o;
     mm_region := region; mm_placements := mm_placements o;
     mem_flags := flags;
     cache_level := i915_ttm_cache_level e (bo_resource b) (bo_ttm b);
     read_domains := read_domains o; write_domain := write_domain o;
     cached_io_rsgt := cached_io_rsgt o |}.

Definition with_obj (b : bo) (o : gem_obj) : bo :=
  {| bo_is_gem := bo_is_gem b; bo_resource := bo_resource b;
     bo_ttm := bo_ttm b; bo_kernel := bo_kernel b; bo_obj := o;
     bo_data := bo_data b |}.

Definition with_ttm (b : bo) (t : option ttm_tt) : bo :=
  {| bo_is_gem := bo_is_gem b; bo_resource := bo_resource b;
     bo_ttm := t; bo_kernel := bo_kernel b; bo_obj := bo_obj b;
     bo_data := bo_data b |}.

(** [ttm_bo_move_sync_cleanup] / [ttm_bo_move_accel_cleanup] /
    [ttm_bo_move_null]: the object now lives in [dst_mem], with the data
    the move left there. *)
Definition assign_mem (b : bo) (dst_mem : ttm_resource) (data : list Z) : bo :=
  {| bo_is_gem := bo_is_gem b; bo_resource := dst_mem;
     bo_ttm := bo_ttm b; bo_kernel := bo_kernel b; bo_obj := bo_obj b;
     bo_data := data |}.

(** Modelled from the spec: [i915_ttm_purge] (i915_gem_ttm.c, not in the
    excerpt) drops the backing store of a buffer that is not to be kept. *)
Definition i915_ttm_purge (o : gem_obj) : gem_obj :=
  {| madv_willneed := madv_willneed o; purged := true;
     mm_region := mm_region o; mm_placements := mm_placements o;
     mem_flags := mem_flags o; cache_level := cache_level o;
     read_domains := read_domains o; write_domain := write_domain o;
     cached_io_rsgt := cached_io_rsgt o |}.

(** Result of [i915_ttm_move]: return code, buffer object afterwards,
    destination contents once every piece of work has completed, where that
    data came from, whether a fallback work item was allocated and whether
    the accelerated path was entered. *)
Record move_result := {
  mr_ret : Z;
  mr_bo : bo;
  mr_dst : list Z;
  mr_path : copy_path;
  mr_work : bool;
  mr_accel : bool
}.

Definition mr_fail (r : Z) (b : bo) (dst_init : list Z) : move_result :=
  {| mr_ret := r; mr_bo := b; mr_dst := dst_init; mr_path := NoCpuCopy;
     mr_work := false; mr_accel := false |}.

(** The epilogue of [i915_ttm_move], after the data has been moved. *)
Definition move_epilogue (e : env) (b : bo) (dst_mem : ttm_resource)
    (dst_rsgt : Z) (data : list Z) : bo :=
  let b := assign_mem b dst_mem data in
  let b := with_obj b (i915_ttm_adjust_domains_after_move b) in
  let b := with_obj b (set_cached_io_rsgt (bo_obj b) None) in
  let b := if i915_ttm_gtt_binds_lmem dst_mem || i915_ttm_cpu_maps_iomem dst_mem
           then with_obj b (set_cached_io_rsgt (bo_obj b) (Some dst_rsgt))
           else b in
  with_obj b (i915_ttm_adjust_gem_after_move e b).

(** [i915_ttm_move].  [dst_use_tt] is [dst_man->use_tt]; [dst_init] the
    contents of the destination before the move. *)
Definition i915_ttm_move (fm : failure_modes) (e : env) (b : bo)
    (dst_mem : ttm_resource) (dst_use_tt : bool) (dst_init : list Z)
    : move_result :=
  if negb (bo_is_gem b) then
    {| mr_ret := 0; mr_bo := assign_mem b dst_mem dst_init;
       mr_dst := dst_init; mr_path := NoCpuCopy; mr_work := false;
       mr_accel := false |}
  else if negb (e_notify_ret e =? 0) then mr_fail (e_notify_ret e) b dst_init
  else if negb (madv_willneed (bo_obj b)) then
    (* purge, ttm_resource_free(bo, &dst_mem) *)
    mr_fail 0 (with_obj b (i915_ttm_purge (bo_obj b))) dst_init
  else
  let needs_populate :=
    match bo_ttm b with
    | Some t => dst_use_tt || tt_swapped t
    | None => false
    end in
  if needs_populate && negb (e_populate_ret e =? 0) then
    mr_fail (e_populate_ret e) b dst_init
  else
  let b := if needs_populate then with_ttm b (option_map populate (bo_ttm b))
           else b in
  if e_dst_rsgt e <? 0 then mr_fail (e_dst_rsgt e) b dst_init
  else
  let clear := negb (i915_ttm_cpu_maps_iomem (bo_resource b)) &&
               match bo_ttm b with
               | None => true
               | Some t => negb (tt_populated t)
               end in
  let skip := clear && match bo_ttm b with
                       | Some t => negb (tt_zero_alloc t)
                       | None => false
                       end in
  if skip then
    {| mr_ret := 0; mr_bo := move_epilogue e b dst_mem (e_dst_rsgt e) dst_init;
       mr_dst := dst_init; mr_path := NoCpuCopy; mr_work := false;
       mr_accel := false |}
  else if negb (e_prev_deps_ret e =? 0) then
    mr_fail (e_prev_deps_ret e) b dst_init
  else
  let t := __i915_ttm_move fm e b clear dst_mem dst_init true true in
  if IS_ERR (tm_fence t) then
    {| mr_ret := PTR_ERR (tm_fence t); mr_bo := b; mr_dst := tm_dst t;
       mr_path := tm_path t; mr_work := tm_work t; mr_accel := true |}
  else
    {| mr_ret := 0; mr_bo := move_epilogue e b dst_mem (e_dst_rsgt e) (tm_dst t);
       mr_dst := tm_dst t; mr_path := tm_path t; mr_work := tm_work t;
       mr_accel := true |}.

(** Concrete inputs used by the witnesses and counterexamples below. *)
Definition env_ok : env :=
  {| e_notify_ret := 0; e_populate_ret := 0; e_dst_rsgt := 7;
     e_prev_deps_ret := 0; e_migrate_context := true; e_wedged := false;
     e_src_rsgt_err := 0; e_submit_ret := 0; e_fence_error := 0;
     e_fence_signaled := false; e_gpu_garbage := [255; 255];
     e_kzalloc_ok := true; e_deps_sync_ret := 0; e_accel_cleanup_ret := 0;
     e_has_llc_or_snoop := true |}.

(** [env_ok] where the blit fence has already signalled when the fallback
    callback is added. *)
Definition env_signaled : env :=
  {| e_notify_ret := 0; e_populate_ret := 0; e_dst_rsgt := 7;
     e_prev_deps_ret := 0; e_migrate_context := true; e_wedged := false;
     e_src_rsgt_err := 0; e_submit_ret := 0; e_fence_error := 0;
     e_fence_signaled := true; e_gpu_garbage := [255; 255];
     e_kzalloc_ok := true; e_deps_sync_ret := 0; e_accel_cleanup_ret := 0;
     e_has_llc_or_snoop := true |}.

(** [env_ok] where [i915_ttm_move_notify] fails to unbind. *)
Definition env_notify_busy : env :=
  {| e_notify_ret := - EBUSY; e_populate_ret := 0; e_dst_rsgt := 7;
     e_prev_deps_ret := 0; e_migrate_context := true; e_wedged := false;
     e_src_rsgt_err := 0; e_submit_ret := 0; e_fence_error := 0;
     e_fence_signaled := false; e_gpu_garbage := [255; 255];
     e_kzalloc_ok := true; e_deps_sync_ret := 0; e_accel_cleanup_ret := 0;
     e_has_llc_or_snoop := true |}.

Definition no_faults : failure_modes :=
  {| fail_gpu_migration := false; fail_work_allocation := false |}.
Definition gpu_fault : failure_modes :=
  {| fail_gpu_migration := true; fail_work_allocation := false |}.
Definition both_faults : failure_modes :=
  {| fail_gpu_migration := true; fail_work_allocation := true |}.

Definition sys_mem : ttm_resource := {| mem_type := I915_PL_SYSTEM |}.
Definition lmem0 : ttm_resource := {| mem_type := I915_PL_LMEM0 |}.

Definition obj_sample (willneed : bool) : gem_obj :=
  {| madv_willneed := willneed; purged := false;
     mm_region := I915_PL_SYSTEM; mm_placements := [I915_PL_LMEM0; I915_PL_SYSTEM];
     mem_flags := I915_BO_FLAG_STRUCT_PAGE; cache_level := I915_CACHE_LLC;
     read_domains := I915_GEM_DOMAIN_CPU; write_domain := I915_GEM_DOMAIN_CPU;
     cached_io_rsgt := None |}.

(** A system-memory object holding the bytes [1; 2]; [populated] says
    whether its [ttm_tt] has pages. *)
Definition bo_sample (populated willneed : bool) : bo :=
  {| bo_is_gem := true; bo_resource := sys_mem;
     bo_ttm := Some {| tt_populated := populated; tt_swapped := false;
                       tt_zero_alloc := false; tt_cached := true |};
     bo_kernel := false; bo_obj := obj_sample willneed; bo_data := [1; 2] |}.

(** The placement bookkeeping the epilogue of [i915_ttm_move] rewrites. *)
Definition bookkeeping (b : bo) :=
  (mem_type (bo_resource b), mm_region (bo_obj b), mem_flags (bo_obj b),
   cache_level (bo_obj b), read_domains (bo_obj b), write_domain (bo_obj b),
   cached_io_rsgt (bo_obj b)).

(** A populated, cached [ttm_tt]. *)
Definition tt_sample : ttm_tt :=
  {| tt_populated := true; tt_swapped := false; tt_zero_alloc := false;
     tt_cached := true |}.

End Migrate.

(* ------------------------------------------------------------------------- *)
(** ** The per-object VMA index: [vma_create], [i915_vma_instance] *)

Module VmaTree.

Definition PAGE_SHIFT : Z := 12.
Definition U32_MAX : Z := 4294967295.

(** One plane of a rotated or remapped view. *)
Record plane := {
  pl_offset : Z; pl_width : Z; pl_height : Z; pl_stride : Z
}.

(** [struct i915_ggtt_view]: the view type and its parameters. *)
Inductive ggtt_view :=
| ViewNormal
| ViewPartial (offset size : Z)           (* in pages *)
| ViewRotated (planes : list plane)
| ViewRemapped (planes : list plane).

(** Modelled from the spec: [intel_rotation_info_size] and
    [intel_remapped_info_size] (not in the excerpt): the page count of a
    tiled view, from the dimensions (resp. strides) of its planes. *)
Definition intel_rotation_info_size (ps : list plane) : Z :=
  fold_right (fun p acc => pl_width p * pl_height p + acc) 0 ps.
Definition intel_remapped_info_size (ps : list plane) : Z :=
  fold_right (fun p acc => pl_stride p * pl_height p + acc) 0 ps.

(** The parameters the comparator looks at, as a flat list. *)
Definition plane_params (p : plane) : list Z :=
  [pl_offset p; pl_width p; pl_height p; pl_stride p].

Definition view_type_code (v : ggtt_view) : Z :=
  match v with
  | ViewNormal => 0 | ViewRotated _ => 1 | ViewPartial _ _ => 2
  | ViewRemapped _ => 3
  end.

Definition view_params (v : ggtt_view) : list Z :=
  match v with
  | ViewNormal => []
  | ViewPartial o s => [o; s]
  | ViewRotated ps | ViewRemapped ps => flat_map plane_params ps
  end.

(** A NULL view and a normal view denote the same mapping. *)
Definition view_of (view : option ggtt_view) : ggtt_view :=
  match view with Some v => v | None => ViewNormal end.

(** The key of the index: address space, then view type, then the view
    parameters. *)
Definition key := (Z * Z * list Z)%type.

Definition mk_key (vm : Z) (view : option ggtt_view) : key :=
  (vm, view_type_code (view_of view), view_params (view_of view)).

Fixpoint list_cmp (a b : list Z) : comparison :=
  match a, b with
  | [], [] => Eq
  | [], _ :: _ => Lt
  | _ :: _, [] => Gt
  | x :: a', y :: b' =>
      match Z.compare x y with Eq => list_cmp a' b' | c => c end
  end.

(** Modelled from the spec: [i915_vma_compare] (i915_vma.h, not in the
    excerpt) orders by address-space identity first, then by view type,
    then by the view's parameters. *)
Definition key_cmp (a b : key) : comparison :=
  let '(vma, ta, pa) := a in
  let '(vmb, tb, pb) := b in
  match Z.compare vma vmb with
  | Eq => match Z.compare ta tb with Eq => list_cmp pa pb | c => c end
  | c => c
  end.

(** An address space: its identity, [vm->total] and [i915_is_ggtt]. *)
Record address_space := { vm_id : Z; vm_total : Z; vm_is_ggtt : bool }.

(** A [struct i915_vma], with an identity standing for its address. *)
Record vma := {
  vma_id : nat;
  vma_vm : Z;
  vma_view : ggtt_view;
  vma_size : Z;
  vma_is_ggtt : bool;
  vma_fence_size : Z
}.

Definition vma_key (v : vma) : key := mk_key (vma_vm v) (Some (vma_view v)).

(** [obj->vma.tree]: an ordered binary tree.  [rb_insert_color] only
    recolours and rotates, which keeps the in-order sequence, so the tree is
    modelled without colours. *)
Inductive vma_tree :=
| Leaf
| Node (l : vma_tree) (v : vma) (r : vma_tree).

(** [obj->vma]: the tree and the list (GGTT VMAs first). *)
Record obj_vmas := { vtree : vma_tree; vlist : list vma }.

(** [i915_vma_lookup]. *)
Fixpoint i915_vma_lookup (t : vma_tree) (k : key) : option vma :=
  match t with
  | Leaf => None
  | Node l pos r =>
      match key_cmp (vma_key pos) k with
      | Eq => Some pos
      | Lt => i915_vma_lookup r k
      | Gt => i915_vma_lookup l k
      end
  end.

(** The insertion walk of [vma_create]: the matching VMA already in the
    tree, or the tree with [v] linked at the leaf the walk reaches. *)
Fixpoint vma_tree_link (t : vma_tree) (k : key) (v : vma) : vma + vma_tree :=
  match t with
  | Leaf => inr (Node Leaf v Leaf)
  | Node l pos r =>
      match key_cmp (vma_key pos) k with
      | Eq => inl pos
      | Lt => match vma_tree_link r k v with
              | inl p => inl p
              | inr r' => inr (Node l pos r')
              end
      | Gt => match vma_tree_link l k v with
              | inl p => inl p
              | inr l' => inr (Node l' pos r)
              end
      end
  end.

(** A VMA pointer or an error pointer. *)
Inductive vma_ptr := VErr (e : Z) | VOk (v : vma).

(** The object, as [vma_create] reads it: its size in bytes. *)
Record gem_object := { obj_size : Z }.

(** [vma->size] as [vma_create] computes it from the view. *)
Definition vma_view_size (obj : gem_object) (view : option ggtt_view) : Z :=
  match view with
  | Some (ViewPartial _ sz) => Z.shiftl sz PAGE_SHIFT
  | Some (ViewRotated ps) => Z.shiftl (intel_rotation_info_size ps) PAGE_SHIFT
  | Some (ViewRemapped ps) => Z.shiftl (intel_remapped_info_size ps) PAGE_SHIFT
  | _ => obj_size obj
  end.

(** [vma_create].  [alloc_ok] is the outcome of [i915_vma_alloc], [id] the
    identity of the new VMA, [fence_size] the value of
    [i915_gem_fence_size] for the object's tiling, computed and stored for
    a GGTT VMA only (any other keeps the 0 of its zeroed allocation). *)
Definition vma_create (alloc_ok : bool) (id : nat) (fence_size : Z)
    (obj : gem_object) (vm : address_space) (view : option ggtt_view)
    (s : obj_vmas) : vma_ptr * obj_vmas :=
  if negb alloc_ok then (VErr (- ENOMEM), s) else
  let size := vma_view_size obj view in
  let v := {| vma_id := id; vma_vm := vm_id vm; vma_view := view_of view;
              vma_size := size; vma_is_ggtt := vm_is_ggtt vm;
              vma_fence_size := if vm_is_ggtt vm then fence_size else 0 |} in
  if vm_total vm <? size then (VErr (- E2BIG), s)
  else if vm_is_ggtt vm &&
          ((U32_MAX <? size) || (fence_size <? size) ||
           (vm_total vm <? fence_size))
  then (VErr (- E2BIG), s)
  else
    match vma_tree_link (vtree s) (mk_key (vm_id vm) view) v with
    | inl pos => (VOk pos, s)
    | inr t' =>
        (VOk v, {| vtree := t';
                   vlist := if vma_is_ggtt v then v :: vlist s
                            else vlist s ++ [v] |})
    end.

(** [i915_vma_instance].  The lookup and the creation take [obj->vma.lock]
    separately: [s_lookup] is the index seen by the lookup, [s_create] the
    index seen by [vma_create], after any concurrent insertion. *)
Definition i915_vma_instance (alloc_ok : bool) (id : nat) (fence_size : Z)
    (obj : gem_object) (vm : address_space) (view : option ggtt_view)
    (s_lookup s_create : obj_vmas) : vma_ptr * obj_vmas :=
  match i915_vma_lookup (vtree s_lookup) (mk_key (vm_id vm) view) with
  | Some v => (VOk v, s_lookup)
  | None => vma_create alloc_ok id fence_size obj vm view s_create
  end.

(** Every VMA of a tree satisfies [P]. *)
Fixpoint ForallT (P : vma -> Prop) (t : vma_tree) : Prop :=
  match t with
  | Leaf => True
  | Node l v r => ForallT P l /\ P v /\ ForallT P r
  end.

Fixpoint InT (x : vma) (t : vma_tree) : Prop :=
  match t with
  | Leaf => False
  | Node l v r => InT x l \/ x = v \/ InT x r
  end.

(** The search-tree invariant of [obj->vma.tree] under [i915_vma_compare]. *)
Fixpoint vma_tree_ok (t : vma_tree) : Prop :=
  match t with
  | Leaf => True
  | Node l v r =>
      vma_tree_ok l /\ vma_tree_ok r /\
      ForallT (fun x => key_cmp (vma_key v) (vma_key x) = Gt) l /\
      ForallT (fun x => key_cmp (vma_key v) (vma_key x) = Lt) r
  end.

(** Sample inputs. *)
Definition ggtt0 : address_space :=
  {| vm_id := 1; vm_total := 65536; vm_is_ggtt := true |}.
Definition ppgtt0 : address_space :=
  {| vm_id := 2; vm_total := 1048576; vm_is_ggtt := false |}.
Definition obj0 : gem_object := {| obj_size := 8192 |}.
Definition no_vmas : obj_vmas := {| vtree := Leaf; vlist := [] |}.

End VmaTree.

(* ------------------------------------------------------------------------- *)
(** ** Placement, binding and unbinding of a VMA: [i915_vma_insert],
    [i915_vma_bind], [i915_vma_pin_ww] and the unbind family *)

Module Vma.

(** Layout of [vma->flags] (i915_vma_types.h): the low ten bits count the
    pins, the bits above them record the bindings and the error state. *)
Definition I915_VMA_PIN_MASK := 1023.
Definition I915_VMA_OVERFLOW := 512.
Definition I915_VMA_GLOBAL_BIND := 1024.
Definition I915_VMA_LOCAL_BIND := 2048.
Definition I915_VMA_BIND_MASK := Z.lor I915_VMA_GLOBAL_BIND I915_VMA_LOCAL_BIND.
Definition I915_VMA_ERROR := 4096.
Definition I915_VMA_CAN_FENCE := 16384.
Definition I915_VMA_GGTT_WRITE := 65536.
Definition I915_VMA_PAGES_BIAS := 24.
Definition I915_VMA_PAGES_ACTIVE := Z.lor (Z.shiftl 1 I915_VMA_PAGES_BIAS) 1.

(** The [PIN_*] flags (i915_gem_gtt.h); [PIN_GLOBAL] and [PIN_USER] are
    the bind bits, as the [BUILD_BUG_ON]s of [i915_vma_pin_ww] require. *)
Definition PIN_MAPPABLE := 8.
Definition PIN_ZONE_4G := 16.
Definition PIN_OFFSET_BIAS := 64.
Definition PIN_OFFSET_FIXED := 128.
Definition PIN_VALIDATE := 256.
Definition PIN_GLOBAL := I915_VMA_GLOBAL_BIND.
Definition PIN_USER := I915_VMA_LOCAL_BIND.
Definition I915_GTT_PAGE_SIZE := 4096.
Definition I915_GTT_PAGE_SIZE_64K := 65536.
Definition I915_GTT_PAGE_SIZE_2M := 2097152.
Definition PIN_OFFSET_MASK := Z.lnot (I915_GTT_PAGE_SIZE - 1).

Definition IS_ALIGNED (x a : Z) : bool := Z.land x (a - 1) =? 0.
Definition range_overflows (start size max : Z) : bool :=
  (start >=? max) || (size >? max - start).
Definition rounddown_pow_of_two (x : Z) : Z := Z.shiftl 1 (Z.log2 x).
Definition round_up (x y : Z) : Z := Z.lor (x - 1) (y - 1) + 1.
Definition upper_32_bits (x : Z) : Z := Z.shiftr (x mod 2 ^ 64) 32.

(** A [drm_mm_node]; [n_id] is the identity of the VMA embedding it. *)
Record drm_mm_node := { n_id : nat; n_start : Z; n_size : Z; n_color : Z }.

Definition n_end (n : drm_mm_node) : Z := n_start n + n_size n.

(** An address space: its range [0, vm_total), the drm_mm [node_list] in
    address order, and whether the drm_mm has a [color_adjust] hook. *)
Record address_space := {
  vm_total : Z;
  vm_mappable_end : Z;
  vm_is_ggtt : bool;
  vm_cache_coloring : bool;
  vm_bind_async_flags : Z;
  vm_allocate_va_range : bool;
  vm_nodes : list drm_mm_node }.

Definition set_nodes (vm : address_space) (l : list drm_mm_node) : address_space :=
  {| vm_total := vm_total vm; vm_mappable_end := vm_mappable_end vm;
     vm_is_ggtt := vm_is_ggtt vm; vm_cache_coloring := vm_cache_coloring vm;
     vm_bind_async_flags := vm_bind_async_flags vm;
     vm_allocate_va_range := vm_allocate_va_range vm; vm_nodes := l |}.

(** The state of a VMA: [vflags] is [vma->flags], [vnode] is [vma->node]
    ([None] when not allocated), [vpages_count] is [vma->pages_count] and
    [vresource] is [vma->resource]; the rest are fixed attributes. *)
Record vma := {
  vma_id : nat;
  vflags : Z;
  vnode : option drm_mm_node;
  vpages_count : Z;
  vresource : option nat;
  vsize : Z;
  vfence_size : Z;
  vfence_alignment : Z;
  vdisplay_alignment : Z;
  vpage_sizes_sg : Z;
  vobj_cache_level : Z;
  vclosed : bool }.

Definition set_vflags (v : vma) (f : Z) : vma :=
  {| vma_id := vma_id v; vflags := f; vnode := vnode v;
     vpages_count := vpages_count v; vresource := vresource v;
     vsize := vsize v; vfence_size := vfence_size v;
     vfence_alignment := vfence_alignment v;
     vdisplay_alignment := vdisplay_alignment v;
     vpage_sizes_sg := vpage_sizes_sg v; vobj_cache_level := vobj_cache_level v;
     vclosed := vclosed v |}.

Definition set_vnode (v : vma) (n : option drm_mm_node) : vma :=
  {| vma_id := vma_id v; vflags := vflags v; vnode := n;
     vpages_count := vpages_count v; vresource := vresource v;
     vsize := vsize v; vfence_size := vfence_size v;
     vfence_alignment := vfence_alignment v;
     vdisplay_alignment := vdisplay_alignment v;
     vpage_sizes_sg := vpage_sizes_sg v; vobj_cache_level := vobj_cache_level v;
     vclosed := vclosed v |}.

Definition set_pages_count (v : vma) (c : Z) : vma :=
  {| vma_id := vma_id v; vflags := vflags v; vnode := vnode v;
     vpages_count := c; vresource := vresource v;
     vsize := vsize v; vfence_size := vfence_size v;
     vfence_alignment := vfence_alignment v;
     vdisplay_alignment := vdisplay_alignment v;
     vpage_sizes_sg := vpage_sizes_sg v; vobj_cache_level := vobj_cache_level v;
     vclosed := vclosed v |}.

Definition set_resource (v : vma) (r : option nat) : vma :=
  {| vma_id := vma_id v; vflags := vflags v; vnode := vnode v;
     vpages_count := vpages_count v; vresource := r;
     vsize := vsize v; vfence_size := vfence_size v;
     vfence_alignment := vfence_alignment v;
     vdisplay_alignment := vdisplay_alignment v;
     vpage_sizes_sg := vpage_sizes_sg v; vobj_cache_level := vobj_cache_level v;
     vclosed := vclosed v |}.

Definition i915_vma_is_pinned (v : vma) : bool :=
  negb (Z.land (vflags v) I915_VMA_PIN_MASK =? 0).
Definition i915_vma_is_bound (v : vma) (where_ : Z) : bool :=
  negb (Z.land (vflags v) where_ =? 0).
Definition drm_mm_node_allocated (v : vma) : bool :=
  match vnode v with Some _ => true | None => false end.
Definition __i915_vma_pin (v : vma) : vma := set_vflags v (vflags v + 1).

(** *** The colour check of [i915_gem_valid_gtt_space] *)

(** [list_prev_entry] and [list_next_entry] of the node of VMA [id]:
    [None] stands for the drm_mm head node, which is never allocated. *)
Fixpoint neighbors (id : nat) (prev : option drm_mm_node) (l : list drm_mm_node)
  : option (option drm_mm_node * drm_mm_node * option drm_mm_node) :=
  match l with
  | [] => None
  | m :: r =>
      if Nat.eqb (n_id m) id then Some (prev, m, hd_error r)
      else neighbors id (Some m) r
  end.

Definition i915_node_color_differs (node : option drm_mm_node) (color : Z) : bool :=
  match node with
  | Some n => negb (n_color n =? color)
  | None => false
  end.

(** [drm_mm_hole_follows]: a hole separates [node] from the node after
    it, or from the end of the range when [node] is the last one. *)
Definition drm_mm_hole_follows (vm : address_space) (node : drm_mm_node)
    (next : option drm_mm_node) : bool :=
  n_end node <? match next with Some q => n_start q | None => vm_total vm end.

Definition i915_gem_valid_gtt_space (vm : address_space) (v : vma) (color : Z) : bool :=
  if negb (vm_cache_coloring vm) then true else
  match neighbors (vma_id v) None (vm_nodes vm) with
  | None => true
  | Some (prev, node, next) =>
      if i915_node_color_differs prev color &&
         negb (match prev with
               | Some p => drm_mm_hole_follows vm p (Some node)
               | None => true
               end)
      then false
      else if i915_node_color_differs next color &&
              negb (drm_mm_hole_follows vm node next)
      then false
      else true
  end.

(** *** Finding room in the address space *)

Fixpoint last_from (prev : option drm_mm_node) (l : list drm_mm_node) : option drm_mm_node :=
  match l with
  | [] => prev
  | m :: r => last_from (Some m) r
  end.

(** Modelled from the spec: the usable part of the hole between the first
    [k] nodes and the rest. In a cache-coloured address space a neighbour of
    a different colour gives up one page of the hole on its side, so that a
    hole always separates nodes of different colours. *)
Definition hole_at (vm : address_space) (color : Z) (k : nat) : Z * Z :=
  let pre := firstn k (vm_nodes vm) in
  let post := skipn k (vm_nodes vm) in
  let prev := last_from None pre in
  let next := hd_error post in
  let hs := match prev with Some p => n_end p | None => 0 end in
  let he := match next with Some q => n_start q | None => vm_total vm end in
  if vm_cache_coloring vm then
    (hs + (if i915_node_color_differs prev color then I915_GTT_PAGE_SIZE else 0),
     he - (if i915_node_color_differs next color then I915_GTT_PAGE_SIZE else 0))
  else (hs, he).

(** Modelled from the spec: [node] fits the [k]-th hole. *)
Definition fits_hole (vm : address_space) (k : nat) (node : drm_mm_node) : bool :=
  let (hs, he) := hole_at vm (n_color node) k in
  (hs <=? n_start node) && (n_end node <=? he).

Definition drm_mm_insert_at (vm : address_space) (k : nat) (node : drm_mm_node) : address_space :=
  set_nodes vm (firstn k (vm_nodes vm) ++ node :: skipn k (vm_nodes vm)).

(** [drm_mm_remove_node]. *)
Definition drm_mm_remove_node (vm : address_space) (id : nat) : address_space :=
  set_nodes vm (filter (fun m => negb (Nat.eqb (n_id m) id)) (vm_nodes vm)).

(** Modelled from the spec: [i915_gem_gtt_reserve] places [node] at its
    fixed offset, in the hole after the nodes that start below it, or fails
    with [-ENOSPC] (eviction is left to the callers' retry loops). *)
Definition i915_gem_gtt_reserve (vm : address_space) (node : drm_mm_node)
  : Z * address_space :=
  let k := length (filter (fun m => n_start m <? n_start node) (vm_nodes vm)) in
  if fits_hole vm k node then (0, drm_mm_insert_at vm k node) else (- ENOSPC, vm).

(** Modelled from the spec: the offset a node of [size] gets in the
    [k]-th hole within [start, end_), and the size of that hole. *)
Definition hole_candidate (vm : address_space) (id : nat) (size alignment color start end_ : Z)
    (k : nat) : option (drm_mm_node * Z) :=
  let (hs, he) := hole_at vm color k in
  let off := round_up (Z.max hs start) alignment in
  let node := {| n_id := id; n_start := off; n_size := size; n_color := color |} in
  if fits_hole vm k node && (start <=? off) && (off + size <=? end_)
  then Some (node, he - hs) else None.

(** Modelled from the spec: best fit, the smallest hole that takes the node
    (the first one among equals). *)
Fixpoint best_hole (vm : address_space) (id : nat) (size alignment color start end_ : Z)
    (ks : list nat) : option (nat * drm_mm_node * Z) :=
  match ks with
  | [] => None
  | k :: ks' =>
      let rest := best_hole vm id size alignment color start end_ ks' in
      match hole_candidate vm id size alignment color start end_ k with
      | None => rest
      | Some (node, hsz) =>
          match rest with
          | Some (_, _, hsz') => if hsz' <? hsz then rest else Some (k, node, hsz)
          | None => Some (k, node, hsz)
          end
      end
  end.

(** Modelled from the spec: [i915_gem_gtt_insert], a best-fit search over
    the holes of the address space, failing with [-ENOSPC]. *)
Definition i915_gem_gtt_insert (vm : address_space) (id : nat) (size alignment color start end_ : Z)
  : Z * address_space * option drm_mm_node :=
  match best_hole vm id size alignment color start end_
          (seq 0 (S (length (vm_nodes vm)))) with
  | Some (k, node, _) => (0, drm_mm_insert_at vm k node, Some node)
  | None => (- ENOSPC, vm, None)
  end.

(** [i915_vma_insert]; its [GEM_BUG_ON] assertions are not part of the
    model ([vma_insert_valid_gtt_space] shows the last one holds). *)
Definition i915_vma_insert (vm : address_space) (v : vma) (size alignment flags : Z)
  : Z * address_space * vma :=
  let size := Z.max size (vsize v) in
  let alignment := Z.max alignment (vdisplay_alignment v) in
  let mappable := negb (Z.land flags PIN_MAPPABLE =? 0) in
  let size := if mappable then Z.max size (vfence_size v) else size in
  let alignment := if mappable then Z.max alignment (vfence_alignment v) else alignment in
  let start := if negb (Z.land flags PIN_OFFSET_BIAS =? 0)
               then Z.land flags PIN_OFFSET_MASK else 0 in
  let end_ := vm_total vm in
  let end_ := if mappable then Z.min end_ (vm_mappable_end vm) else end_ in
  let end_ := if negb (Z.land flags PIN_ZONE_4G =? 0)
              then Z.min end_ (2 ^ 32 - I915_GTT_PAGE_SIZE) else end_ in
  if size >? end_ then (- ENOSPC, vm, v) else
  let color := if vm_cache_coloring vm then vobj_cache_level v else 0 in
  if negb (Z.land flags PIN_OFFSET_FIXED =? 0) then
    let offset := Z.land flags PIN_OFFSET_MASK in
    if negb (IS_ALIGNED offset alignment) || range_overflows offset size end_
    then (- EINVAL, vm, v) else
    let node := {| n_id := vma_id v; n_start := offset; n_size := size; n_color := color |} in
    let '(ret, vm') := i915_gem_gtt_reserve vm node in
    if negb (ret =? 0) then (ret, vm, v) else (0, vm', set_vnode v (Some node))
  else
    let '(alignment, size) :=
      if negb (upper_32_bits (end_ - 1) =? 0) && (vpage_sizes_sg v >? I915_GTT_PAGE_SIZE)
      then
        let page_alignment :=
          rounddown_pow_of_two (Z.lor (vpage_sizes_sg v) I915_GTT_PAGE_SIZE_2M) in
        (Z.max alignment page_alignment,
         if negb (Z.land (vpage_sizes_sg v) I915_GTT_PAGE_SIZE_64K =? 0)
         then round_up size I915_GTT_PAGE_SIZE_2M else size)
      else (alignment, size) in
    match i915_gem_gtt_insert vm (vma_id v) size alignment color start end_ with
    | (0, vm', Some node) => (0, vm', set_vnode v (Some node))
    | (ret, _, _) => (ret, vm, v)
    end.

(** [__i915_vma_set_map_and_fenceable]. *)
Definition __i915_vma_set_map_and_fenceable (vm : address_space) (v : vma) : vma :=
  match vnode v with
  | None => v
  | Some n =>
      let fenceable := (n_size n >=? vfence_size v) && IS_ALIGNED (n_start n) (vfence_alignment v) in
      let mappable := n_start n + vfence_size v <=? vm_mappable_end vm in
      if mappable && fenceable then set_vflags v (Z.lor (vflags v) I915_VMA_CAN_FENCE)
      else set_vflags v (Z.land (vflags v) (Z.lnot I915_VMA_CAN_FENCE))
  end.

(** [i915_vma_detach] followed by [drm_mm_remove_node(&vma->node)]. *)
Definition i915_vma_remove (vm : address_space) (v : vma) : address_space * vma :=
  (drm_mm_remove_node vm (vma_id v), set_vnode v None).

(** *** Pinning *)

(** The outcomes of the collaborators of [i915_vma_pin_ww]. *)
Record pin_env := {
  pe_get_pages_ret : Z;      (* i915_gem_object_pin_pages, __i915_vma_get_pages *)
  pe_moving : bool;          (* i915_gem_object_get_moving_fence gave a fence *)
  pe_lock_objects_ret : Z;   (* i915_vm_lock_objects *)
  pe_work_ok : bool;         (* i915_vma_work allocated *)
  pe_pt_stash_ret : Z;       (* i915_vm_alloc_pt_stash, i915_vm_map_pt_stash *)
  pe_vma_res : option nat;   (* i915_vma_resource_alloc; None: ERR_PTR(-ENOMEM) *)
  pe_mutex_ret : Z;          (* mutex_lock_interruptible_nested *)
  pe_active_ret : Z;         (* i915_active_acquire *)
  pe_bind_dep_ret : Z;       (* i915_vma_resource_bind_dep_await / _sync *)
  pe_wait_moving_ret : Z }.  (* i915_gem_object_wait_moving_fence *)

Definition try_qad_pin (v : vma) (flags : Z) : option vma :=
  let bound := vflags v in
  if negb (Z.land flags PIN_VALIDATE =? 0) then
    let flags := Z.land flags I915_VMA_BIND_MASK in
    if Z.land flags bound =? flags then Some v else None
  else
    let flags := Z.land flags I915_VMA_BIND_MASK in
    if negb (Z.land flags (Z.lnot bound) =? 0) then None
    else if negb (Z.land bound (Z.lor I915_VMA_OVERFLOW I915_VMA_ERROR) =? 0) then None
    else Some (set_vflags v (bound + 1)).

Definition i915_vma_get_pages (pe : pin_env) (v : vma) : Z * vma :=
  if negb (vpages_count v =? 0) then (0, set_pages_count v (vpages_count v + 1))
  else if negb (pe_get_pages_ret pe =? 0) then (pe_get_pages_ret pe, v)
  else (0, set_pages_count v (vpages_count v + 1)).

(** Both branches of [i915_vma_put_pages] drop one reference. *)
Definition i915_vma_put_pages (v : vma) : vma :=
  set_pages_count v (vpages_count v - 1).

(** [i915_vma_bind]; the [GEM_DEBUG_WARN_ON] checks, compiled out of
    non-debug builds, are left out. [work] says whether a work item was
    passed. *)
Definition i915_vma_bind (pe : pin_env) (vm : address_space) (v : vma) (flags : Z)
    (work : bool) (vma_res : option nat) : Z * vma :=
  let bind_flags := Z.land flags I915_VMA_BIND_MASK in
  let vma_flags := Z.land (vflags v) I915_VMA_BIND_MASK in
  let bind_flags := Z.land bind_flags (Z.lnot vma_flags) in
  if bind_flags =? 0 then (0, v) else
  let async := work && negb (Z.land bind_flags (vm_bind_async_flags vm) =? 0) in
  let ret := pe_bind_dep_ret pe in
  if negb (ret =? 0) then (ret, v) else
  let v := match vresource v, vma_res with
           | None, Some r => set_resource v (Some r)
           | _, _ => v
           end in
  if async then (0, set_vflags v (Z.lor (vflags v) bind_flags))
  else
    let ret := pe_wait_moving_ret pe in
    if negb (ret =? 0) then (ret, set_resource v None)
    else (0, set_vflags v (Z.lor (vflags v) bind_flags)).

Definition i915_vma_pin_ww (pe : pin_env) (vm : address_space) (v : vma)
    (size alignment flags : Z) : Z * address_space * vma :=
  match try_qad_pin v flags with
  | Some v' => (0, vm, v')
  | None =>
  let '(err, v) := i915_vma_get_pages pe v in
  if negb (err =? 0) then (err, vm, v) else
  let out (err : Z) (vm : address_space) (v : vma) := (err, vm, i915_vma_put_pages v) in
  let work := negb (Z.land flags (vm_bind_async_flags vm) =? 0) || pe_moving pe in
  if work && negb (pe_lock_objects_ret pe =? 0) then out (pe_lock_objects_ret pe) vm v else
  if work && negb (pe_work_ok pe) then out (- ENOMEM) vm v else
  if work && vm_allocate_va_range vm && negb (pe_pt_stash_ret pe =? 0)
  then out (pe_pt_stash_ret pe) vm v else
  match pe_vma_res pe with
  | None => out (- ENOMEM) vm v
  | Some vma_res =>
  if negb (pe_mutex_ret pe =? 0) then out (pe_mutex_ret pe) vm v else
  if vclosed v then out (- ENOENT) vm v else
  let bound := vflags v in
  if negb (Z.land bound I915_VMA_ERROR =? 0) then out (- ENOMEM) vm v else
  if Z.land (bound + 1) I915_VMA_PIN_MASK =? 0 then out (- EAGAIN) vm v else
  if Z.land (Z.land flags (Z.lnot bound)) I915_VMA_BIND_MASK =? 0 then
    out 0 vm (if Z.land flags PIN_VALIDATE =? 0 then __i915_vma_pin v else v)
  else
  if negb (pe_active_ret pe =? 0) then out (pe_active_ret pe) vm v else
  let '(err, vm, v) :=
    if Z.land bound I915_VMA_BIND_MASK =? 0 then
      let '(err, vm, v) := i915_vma_insert vm v size alignment flags in
      if negb (err =? 0) then (err, vm, v)
      else (0, vm, if vm_is_ggtt vm then __i915_vma_set_map_and_fenceable vm v else v)
    else (0, vm, v) in
  if negb (err =? 0) then out err vm v else
  let '(err, v) := i915_vma_bind pe vm v flags work (Some vma_res) in
  let v := if err =? 0 then
             let v := set_pages_count v (vpages_count v + I915_VMA_PAGES_ACTIVE) in
             if Z.land flags PIN_VALIDATE =? 0 then __i915_vma_pin v else v
           else v in
  let '(vm, v) := if negb (i915_vma_is_bound v I915_VMA_BIND_MASK)
                  then i915_vma_remove vm v else (vm, v) in
  out err vm v
  end
  end.

(** *** Unbinding *)

(** The outcomes of the collaborators of the unbind functions. *)
Record unbind_env := {
  ue_sync_ret : Z;            (* i915_vma_sync, the optimistic wait *)
  ue_sync_locked_ret : Z;     (* i915_vma_sync, under vm->mutex *)
  ue_mutex_ret : Z;           (* mutex_lock_interruptible_nested *)
  ue_trylock_ok : bool;       (* mutex_trylock *)
  ue_obj_has_rsgt : bool;     (* obj->mm.rsgt != NULL *)
  ue_reserve_shared_ret : Z;  (* dma_resv_reserve_shared *)
  ue_rsgt_is_resource : bool; (* &obj->mm.rsgt->table == vma->resource->bi.pages *)
  ue_await_active_ret : Z }.  (* i915_sw_fence_await_active *)

(** [__i915_vma_evict]: the resource is unbound, the bind, error and
    GGTT-write bits are cleared and the binding references to the pages
    dropped ([vma_unbind_pages]). *)
Definition __i915_vma_evict (v : vma) : vma :=
  let v := if i915_vma_is_bound v I915_VMA_CAN_FENCE
           then set_vflags v (Z.land (vflags v) (Z.lnot I915_VMA_CAN_FENCE)) else v in
  let v := set_resource v None in
  let v := set_vflags v (Z.land (vflags v)
             (Z.lnot (Z.lor I915_VMA_BIND_MASK (Z.lor I915_VMA_ERROR I915_VMA_GGTT_WRITE)))) in
  let count := Z.shiftr (vpages_count v) I915_VMA_PAGES_BIAS in
  set_pages_count v (vpages_count v - Z.lor count (Z.shiftl count I915_VMA_PAGES_BIAS)).

Definition __i915_vma_unbind (sync_ret : Z) (vm : address_space) (v : vma)
  : Z * address_space * vma :=
  if negb (drm_mm_node_allocated v) then (0, vm, v) else
  if i915_vma_is_pinned v then (- EAGAIN, vm, v) else
  if negb (sync_ret =? 0) then (sync_ret, vm, v) else
  let '(vm, v) := i915_vma_remove vm (__i915_vma_evict v) in
  (0, vm, v).

(** The [struct dma_fence *] returned by [__i915_vma_unbind_async]. *)
Inductive fence_ptr := UErr (e : Z) | UNull | UFence.

Definition __i915_vma_unbind_async (ue : unbind_env) (vm : address_space) (v : vma)
  : fence_ptr * address_space * vma :=
  if negb (drm_mm_node_allocated v) then (UNull, vm, v) else
  if i915_vma_is_pinned v || negb (ue_rsgt_is_resource ue) then (UErr (- EAGAIN), vm, v) else
  if ue_await_active_ret ue <? 0 then (UErr (- EBUSY), vm, v) else
  let '(vm, v) := i915_vma_remove vm (__i915_vma_evict v) in
  (UFence, vm, v).

Definition i915_vma_unbind (ue : unbind_env) (vm : address_space) (v : vma)
  : Z * address_space * vma :=
  let err := ue_sync_ret ue in
  if negb (err =? 0) then (err, vm, v) else
  if negb (drm_mm_node_allocated v) then (0, vm, v) else
  if i915_vma_is_pinned v then (- EAGAIN, vm, v) else
  let err := ue_mutex_ret ue in
  if negb (err =? 0) then (err, vm, v) else
  __i915_vma_unbind (ue_sync_locked_ret ue) vm v.

Definition i915_vma_unbind_async (ue : unbind_env) (trylock_vm : bool) (vm : address_space)
    (v : vma) : Z * address_space * vma :=
  if negb (drm_mm_node_allocated v) then (0, vm, v) else
  if i915_vma_is_pinned v then (- EAGAIN, vm, v) else
  if negb (ue_obj_has_rsgt ue) then (- EBUSY, vm, v) else
  if negb (ue_reserve_shared_ret ue =? 0) then (- EBUSY, vm, v) else
  if trylock_vm && negb (ue_trylock_ok ue) then (- EBUSY, vm, v) else
  if negb trylock_vm && negb (ue_mutex_ret ue =? 0) then (ue_mutex_ret ue, vm, v) else
  match __i915_vma_unbind_async ue vm v with
  | (UErr e, vm', v') => (e, vm', v')
  | (_, vm', v') => (0, vm', v')
  end.

(** *** Sample inputs *)

(** A cache-coloured 1 MiB GGTT holding one uncached node of VMA 7 at
    [0, 8192). *)
Definition node7 : drm_mm_node :=
  {| n_id := 7; n_start := 0; n_size := 8192; n_color := 0 |}.
Definition ggtt_col : address_space :=
  {| vm_total := 1048576; vm_mappable_end := 262144; vm_is_ggtt := true;
     vm_cache_coloring := true; vm_bind_async_flags := 0;
     vm_allocate_va_range := false; vm_nodes := [node7] |}.

(** VMA 1 of an LLC-cached object, 4 pages, with [flags] and [node]. *)
Definition vma1 (flags : Z) (node : option drm_mm_node) (pages : Z) : vma :=
  {| vma_id := 1; vflags := flags; vnode := node; vpages_count := pages;
     vresource := None; vsize := 16384; vfence_size := 16384;
     vfence_alignment := 16384; vdisplay_alignment := 4096;
     vpage_sizes_sg := 4096; vobj_cache_level := 1; vclosed := false |}.

(** The node of VMA 1, placed by [i915_vma_insert] in [ggtt_col], and the
    address space once it is there. *)
Definition node1 : drm_mm_node :=
  {| n_id := 1; n_start := 12288; n_size := 16384; n_color := 1 |}.
Definition ggtt_col_bound : address_space := set_nodes ggtt_col [node7; node1].

Definition pin_env_ok : pin_env :=
  {| pe_get_pages_ret := 0; pe_moving := false; pe_lock_objects_ret := 0;
     pe_work_ok := true; pe_pt_stash_ret := 0; pe_vma_res := Some 100%nat;
     pe_mutex_ret := 0; pe_active_ret := 0; pe_bind_dep_ret := 0;
     pe_wait_moving_ret := 0 |}.

(** As [pin_env_ok], but the wait for the moving fence is interrupted. *)
Definition pin_env_moving_intr : pin_env :=
  {| pe_get_pages_ret := 0; pe_moving := true; pe_lock_objects_ret := 0;
     pe_work_ok := true; pe_pt_stash_ret := 0; pe_vma_res := Some 100%nat;
     pe_mutex_ret := 0; pe_active_ret := 0; pe_bind_dep_ret := 0;
     pe_wait_moving_ret := - ERESTARTSYS |}.

Definition unbind_env_ok (sync_ret : Z) : unbind_env :=
  {| ue_sync_ret := sync_ret; ue_sync_locked_ret := 0; ue_mutex_ret := 0;
     ue_trylock_ok := true; ue_obj_has_rsgt := true; ue_reserve_shared_ret := 0;
     ue_rsgt_is_resource := true; ue_await_active_ret := 0 |}.

End Vma.


(* ------------------------------------------------------------------------- *)
(** ** Copying an object's backing store: [i915_gem_obj_copy_ttm] *)

Module MigrateCopy.
Import Migrate.

(** Outcomes of the collaborators [i915_gem_obj_copy_ttm] calls before
    the copy itself. *)
Record copy_env := {
  ce_reserve_shared_ret : Z;     (* dma_resv_reserve_shared(src resv) *)
  ce_add_dst_resv_ret : Z;       (* i915_deps_add_resv(dst resv) *)
  ce_add_src_resv_ret : Z        (* i915_deps_add_resv(src resv) *)
}.

(** Result of [i915_gem_obj_copy_ttm]: the return code, whether the copy
    fence was added to the two reservation objects, and the destination
    contents once every piece of work has completed. *)
Record copy_result := {
  cr_ret : Z;
  cr_fence_added : bool;
  cr_dst : list Z
}.

(** [i915_gem_obj_copy_ttm]: [src] is copied ([clear] is false) into the
    current placement of [dst], whose contents are [bo_data dst]. *)
Definition i915_gem_obj_copy_ttm (fm : failure_modes) (e : env) (ce : copy_env)
    (dst src : bo) (allow_accel : bool) : copy_result :=
  let fail r := {| cr_ret := r; cr_fence_added := false; cr_dst := bo_data dst |} in
  if negb (ce_reserve_shared_ret ce =? 0) then fail (ce_reserve_shared_ret ce) else
  if negb (ce_add_dst_resv_ret ce =? 0) then fail (ce_add_dst_resv_ret ce) else
  if negb (ce_add_src_resv_ret ce =? 0) then fail (ce_add_src_resv_ret ce) else
  let t := __i915_ttm_move fm e src false (bo_resource dst) (bo_data dst)
             allow_accel true in
  match tm_fence t with
  | FErr r => {| cr_ret := r; cr_fence_added := false; cr_dst := tm_dst t |}
  | FNull => {| cr_ret := 0; cr_fence_added := false; cr_dst := tm_dst t |}
  | FPtr _ => {| cr_ret := 0; cr_fence_added := true; cr_dst := tm_dst t |}
  end.

(** [env_ok] where the blit fence signals an error. *)
Definition env_fence_err : env :=
  {| e_notify_ret := 0; e_populate_ret := 0; e_dst_rsgt := 7;
     e_prev_deps_ret := 0; e_migrate_context := true; e_wedged := false;
     e_src_rsgt_err := 0; e_submit_ret := 0; e_fence_error := - EINVAL;
     e_fence_signaled := false; e_gpu_garbage := [255; 255];
     e_kzalloc_ok := true; e_deps_sync_ret := 0; e_accel_cleanup_ret := 0;
     e_has_llc_or_snoop := true |}.

Definition copy_env_ok : copy_env :=
  {| ce_reserve_shared_ret := 0; ce_add_dst_resv_ret := 0; ce_add_src_resv_ret := 0 |}.

(** A device-local object holding [0; 0]. *)
Definition bo_lmem_dst : bo :=
  {| bo_is_gem := true; bo_resource := lmem0; bo_ttm := None; bo_kernel := false;
     bo_obj := obj_sample true; bo_data := [0; 0] |}.

End MigrateCopy.

(* ------------------------------------------------------------------------- *)
(** ** Placement checks and release of a VMA: [i915_vma_misplaced],
    [i915_vma_release] *)

Module VmaPlace.
Import Vma.

(** [is_power_of_2] (log2.h). *)
Definition is_power_of_2 (n : Z) : bool :=
  negb (n =? 0) && (Z.land n (n - 1) =? 0).

Definition i915_vma_is_map_and_fenceable (v : vma) : bool :=
  negb (Z.land (vflags v) I915_VMA_CAN_FENCE =? 0).

(** [i915_vma_misplaced]; its [GEM_BUG_ON] is not part of the model. *)
Definition i915_vma_misplaced (v : vma) (size alignment flags : Z) : bool :=
  match vnode v with
  | None => false
  | Some n =>
      if negb (Z.land (vflags v) I915_VMA_ERROR =? 0) then true else
      if n_size n <? size then true else
      if negb (alignment =? 0) && negb (IS_ALIGNED (n_start n) alignment) then true else
      if negb (Z.land flags PIN_MAPPABLE =? 0) && negb (i915_vma_is_map_and_fenceable v)
      then true else
      if negb (Z.land flags PIN_OFFSET_BIAS =? 0) &&
         (n_start n <? Z.land flags PIN_OFFSET_MASK) then true else
      if negb (Z.land flags PIN_OFFSET_FIXED =? 0) &&
         negb (n_start n =? Z.land flags PIN_OFFSET_MASK) then true else
      false
  end.

End VmaPlace.

(* ------------------------------------------------------------------------- *)
(** ** The order of [obj->vma.list] *)

Module VmaTreeList.
Import VmaTree.

(** The order [vma_create] gives [obj->vma.list]: the GGTT VMAs first, then
    the ppGTT ones, which [for_each_ggtt_vma] relies on to stop early. *)
Fixpoint ggtt_first (l : list vma) : bool :=
  match l with
  | [] => true
  | x :: l' => if vma_is_ggtt x then ggtt_first l' else forallb (fun y => negb (vma_is_ggtt y)) l'
  end.

End VmaTreeList.

(* ------------------------------------------------------------------------- *)
(** ** Rotated views: [rotate_pages] *)

Module ViewPages.

(** [unsigned int] arithmetic. *)
Definition u32 (x : Z) : Z := x mod 2 ^ 32.

Definition I915_GTT_PAGE_SIZE : Z := 4096.

(** A scatterlist entry as [rotate_pages] fills it: its DMA address and its
    DMA length (the page length [sg_set_page] records is the same). *)
Record sg_entry := { sg_dma_address : Z; sg_dma_len : Z }.

(** The inner loop of [rotate_pages]: [rows] entries of one page each, read
    from [src_idx] upwards in the object by steps of [src_stride];
    [get_dma] is [i915_gem_object_get_dma_address]. *)
Fixpoint rotate_rows (get_dma : Z -> Z) (src_idx src_stride : Z) (rows : nat)
  : list sg_entry :=
  match rows with
  | O => []
  | S rows' =>
      {| sg_dma_address := get_dma src_idx; sg_dma_len := I915_GTT_PAGE_SIZE |}
      :: rotate_rows get_dma (u32 (src_idx - src_stride)) src_stride rows'
  end.

(** The outer loop of [rotate_pages], from [column] on for [cols] more
    columns: the column's pages, then one padding entry of [left] bytes
    unless [left] is 0. *)
Fixpoint rotate_columns (get_dma : Z -> Z) (offset height src_stride dst_stride : Z)
    (column : Z) (cols : nat) : list sg_entry :=
  match cols with
  | O => []
  | S cols' =>
      let src_idx := u32 (u32 (src_stride * u32 (height - 1)) + column + offset) in
      let left := u32 (u32 (dst_stride - height) * I915_GTT_PAGE_SIZE) in
      rotate_rows get_dma src_idx src_stride (Z.to_nat height) ++
      (if left =? 0 then [] else [{| sg_dma_address := 0; sg_dma_len := left |}]) ++
      rotate_columns get_dma offset height src_stride dst_stride (column + 1) cols'
  end.

(** [rotate_pages]: the entries it writes from [sg] on, in order (their
    number is what it adds to [st->nents]). *)
Definition rotate_pages (get_dma : Z -> Z) (offset width height src_stride dst_stride : Z)
  : list sg_entry :=
  rotate_columns get_dma offset height src_stride dst_stride 0 (Z.to_nat width).

End ViewPages.

(** ** Facts about the migration path *)

Module MigrateFacts.
Import Migrate.

Ltac split_ifs :=
  repeat match goal with
  | |- context [if ?c then _ else _] => destruct c eqn:?
  | |- context [match ?x with FErr _ => _ | FNull => _ | FPtr _ => _ end] =>
      destruct x eqn:?
  end.

Example move_sample_lmem :
  mr_dst (i915_ttm_move gpu_fault env_ok (bo_sample true true) lmem0 false [0; 0])
  = [1; 2].
Proof. reflexivity. Qed.

(** C2: whenever [i915_ttm_move] returns a nonzero error, the object's
    placement bookkeeping (memory type, owning region, mem_flags, cache
    coherency, read/write domains, cached io scatter-list) is unchanged:
    the epilogue only runs on the success path. *)
Theorem i915_ttm_move_error_keeps_placement
    (fm : failure_modes) (e : env) (b : bo) (dst_mem : ttm_resource)
    (dst_use_tt : bool) (dst_init : list Z) :
  mr_ret (i915_ttm_move fm e b dst_mem dst_use_tt dst_init) <> 0 ->
  bookkeeping (mr_bo (i915_ttm_move fm e b dst_mem dst_use_tt dst_init))
  = bookkeeping b.
Proof.
  unfold i915_ttm_move.
  destruct (bo_is_gem b); simpl; [|tauto].
  destruct (e_notify_ret e =? 0); simpl; [|reflexivity].
  destruct (madv_willneed (bo_obj b)); simpl; [|tauto].
  destruct (match bo_ttm b with Some t => dst_use_tt || tt_swapped t
            | None => false end);
  destruct (e_populate_ret e =? 0); simpl; try reflexivity;
  destruct (e_dst_rsgt e <? 0); simpl; try reflexivity;
  split_ifs; simpl; try reflexivity; tauto.
Qed.

(** Witness for C2: a move whose preparation step fails. *)
Lemma i915_ttm_move_error_keeps_placement_witness :
  mr_ret (i915_ttm_move no_faults env_notify_busy (bo_sample true true) lmem0
            false [0; 0]) <> 0 /\
  bookkeeping (mr_bo (i915_ttm_move no_faults env_notify_busy
                        (bo_sample true true) lmem0 false [0; 0]))
  = bookkeeping (bo_sample true true).
Proof.
  split.
  - vm_compute. discriminate.
  - apply i915_ttm_move_error_keeps_placement. vm_compute. discriminate.
Defined.

(** C1, as stated, fails: with [fail_gpu_migration] set, a populated object
    whose blit fence has already signalled when the fallback callback is
    added gets its CPU copy synchronously inside [i915_ttm_move], not on the
    deferred worker. *)
Lemma move_gpu_fault_worker_counterexample :
  ~ (mr_ret (i915_ttm_move gpu_fault env_signaled (bo_sample true true) lmem0
               false [0; 0]) = 0 /\
     mr_path (i915_ttm_move gpu_fault env_signaled (bo_sample true true) lmem0
                false [0; 0]) = WorkerCopy /\
     mr_dst (i915_ttm_move gpu_fault env_signaled (bo_sample true true) lmem0
               false [0; 0]) = [1; 2]).
Proof. vm_compute. intros [_ [H _]]. discriminate. Qed.

(** C1 (amended): with [fail_gpu_migration] set and [fail_work_allocation]
    clear, a move of a populated, kept object whose collaborators succeed
    returns success and leaves the destination equal to the source once its
    work completes; the CPU copy never completes on the interrupt path: it
    runs on the deferred worker exactly when the blit was submitted, the
    work item was allocated and its callback armed on a still-pending fence,
    and synchronously inside the move otherwise. *)
Theorem move_gpu_fault_copies_via_cpu
    (fm : failure_modes) (e : env) (b : bo) (t : ttm_tt)
    (dst_mem : ttm_resource) (dst_use_tt : bool) (dst_init : list Z) :
  fail_gpu_migration fm = true -> fail_work_allocation fm = false ->
  bo_is_gem b = true -> madv_willneed (bo_obj b) = true ->
  bo_ttm b = Some t -> tt_populated t = true ->
  e_notify_ret e = 0 -> e_populate_ret e = 0 -> 0 <= e_dst_rsgt e ->
  e_prev_deps_ret e = 0 -> e_deps_sync_ret e = 0 ->
  let r := i915_ttm_move fm e b dst_mem dst_use_tt dst_init in
  mr_ret r = 0 /\ mr_dst r = bo_data b /\ mr_path r <> IrqComplete /\
  (mr_path r = WorkerCopy \/ mr_path r = SyncCopy) /\
  (mr_path r = WorkerCopy <->
   e_migrate_context e = true /\ e_wedged e = false /\ e_submit_ret e = 0 /\
   e_kzalloc_ok e = true /\ e_fence_signaled e = false).
Proof.
  intros Hg Hw Hgem Hwill Ht Hpop Hn Hp Hd Hpd Hds r. subst r.
  unfold i915_ttm_move, __i915_ttm_move, i915_ttm_accel_move, ERR_PTR.
  rewrite Hgem, Hwill, Hn, Hp, Hpd, Hds, Ht, Hg, Hw. simpl.
  destruct (e_dst_rsgt e <? 0) eqn:Hlt; [lia|]. simpl.
  unfold i915_ttm_cpu_maps_iomem, ttm_move_memcpy.
  destruct (dst_use_tt || tt_swapped t); simpl; rewrite ?Ht; simpl;
  rewrite ?Hpop; simpl;
  destruct (negb (mem_type (bo_resource b) =? I915_PL_SYSTEM)); simpl;
  destruct (e_migrate_context e), (e_wedged e), (e_kzalloc_ok e),
           (e_fence_signaled e), (bo_kernel b); simpl;
  destruct (Z.eqb_spec (e_submit_ret e) 0) as [Hs|Hs]; simpl;
  rewrite ?Bool.andb_false_r; simpl;
  destruct (e_fence_error e =? 0); simpl;
  intuition (try discriminate; try congruence).
Qed.

(** Witness for C1: the sample object moved to local memory. *)
Lemma move_gpu_fault_copies_via_cpu_witness :
  let r := i915_ttm_move gpu_fault env_ok (bo_sample true true) lmem0 false
             [0; 0] in
  mr_ret r = 0 /\ mr_dst r = [1; 2] /\ mr_path r <> IrqComplete /\
  (mr_path r = WorkerCopy \/ mr_path r = SyncCopy) /\
  (mr_path r = WorkerCopy <->
   e_migrate_context env_ok = true /\ e_wedged env_ok = false /\
   e_submit_ret env_ok = 0 /\ e_kzalloc_ok env_ok = true /\
   e_fence_signaled env_ok = false).
Proof.
  apply (move_gpu_fault_copies_via_cpu gpu_fault env_ok (bo_sample true true)
           tt_sample lmem0 false [0; 0]);
  try reflexivity; vm_compute; discriminate.
Defined.

(** C5, as stated, fails: with no fault switch set, a successful blit to a
    system-memory destination arms no fallback work at all. *)
Lemma fallback_always_armed_counterexample :
  fst (i915_ttm_accel_move no_faults env_ok (bo_sample true true) false)
    = FPtr GpuFence /\
  mr_accel (i915_ttm_move no_faults env_ok (bo_sample true true) sys_mem true
              [0; 0]) = true /\
  mr_work (i915_ttm_move no_faults env_ok (bo_sample true true) sys_mem true
             [0; 0]) = false.
Proof. vm_compute. repeat split. Qed.

(** C5 (amended): after a successful blit submission, with no fault switch
    set, [__i915_ttm_move] returns the blit fence unchanged and arms no
    fallback when the destination is not local memory; when it is local
    memory and the work item is allocated and armed on a pending fence, the
    continuation only signals (interrupt path, blit data kept) if the fence
    succeeds, and runs the CPU memcpy/clear on the worker if it fails. *)
Theorem fallback_armed_for_lmem_only
    (fm : failure_modes) (e : env) (b : bo) (clear : bool)
    (dst_mem : ttm_resource) (dst_init : list Z) (has_deps : bool) :
  fst (i915_ttm_accel_move fm e b clear) = FPtr GpuFence ->
  fail_gpu_migration fm = false -> fail_work_allocation fm = false ->
  let t := __i915_ttm_move fm e b clear dst_mem dst_init true has_deps in
  (i915_ttm_gtt_binds_lmem dst_mem = false ->
   tm_fence t = FPtr GpuFence /\ tm_work t = false /\ tm_path t = NoCpuCopy /\
   tm_dst t = snd (i915_ttm_accel_move fm e b clear)) /\
  (i915_ttm_gtt_binds_lmem dst_mem = true ->
   e_kzalloc_ok e = true -> e_fence_signaled e = false ->
   tm_fence t = FPtr WorkFence /\ tm_work t = true /\
   (e_fence_error e = 0 -> tm_path t = IrqComplete /\
                           tm_dst t = snd (i915_ttm_accel_move fm e b clear)) /\
   (e_fence_error e <> 0 -> tm_path t = WorkerCopy /\
                            tm_dst t = ttm_move_memcpy clear (bo_data b))).
Proof.
  intros Hacc Hg Hw t. subst t. unfold __i915_ttm_move.
  destruct (i915_ttm_accel_move fm e b clear) as [f gpu].
  simpl in Hacc. subst f. rewrite Hg, Hw. simpl.
  split.
  - intros Hl. rewrite Hl. simpl. repeat split.
  - intros Hl Hk Hs. rewrite Hl, Hk, Hs. simpl.
    destruct (Z.eqb_spec (e_fence_error e) 0); simpl;
    intuition congruence.
Qed.

(** Witness for C5: a blit to local memory with a pending fence. *)
Lemma fallback_armed_for_lmem_only_witness :
  fst (i915_ttm_accel_move no_faults env_ok (bo_sample true true) false)
    = FPtr GpuFence /\
  tm_work (__i915_ttm_move no_faults env_ok (bo_sample true true) false lmem0
             [0; 0] true true) = true.
Proof.
  split; [reflexivity|].
  apply (fallback_armed_for_lmem_only no_faults env_ok (bo_sample true true)
           false lmem0 [0; 0] true); reflexivity.
Defined.

(** C6, as stated, fails: with both fault switches set, an unpopulated
    system-memory object without [TTM_TT_FLAG_ZERO_ALLOC] moved to local
    memory skips the copy step: no CPU copy runs at all. *)
Lemma both_faults_sync_copy_counterexample :
  ~ (mr_ret (i915_ttm_move both_faults env_ok (bo_sample false true) lmem0
               false [0; 0]) = 0 /\
     mr_work (i915_ttm_move both_faults env_ok (bo_sample false true) lmem0
                false [0; 0]) = false /\
     mr_path (i915_ttm_move both_faults env_ok (bo_sample false true) lmem0
                false [0; 0]) = SyncCopy).
Proof. vm_compute. intros [_ [_ H]]. discriminate. Qed.

(** C6 (amended): with both fault switches set and the collaborators
    succeeding, a move of a kept object never allocates a fallback work item
    and returns success; either it skips the copy step altogether (an
    unpopulated source that needs no zeroing) or it enters the accelerated
    path and then runs the CPU copy/clear synchronously inside the move. *)
Theorem both_faults_sync_copy
    (e : env) (b : bo) (dst_mem : ttm_resource) (dst_use_tt : bool)
    (dst_init : list Z) :
  bo_is_gem b = true -> madv_willneed (bo_obj b) = true ->
  e_notify_ret e = 0 -> e_populate_ret e = 0 -> 0 <= e_dst_rsgt e ->
  e_prev_deps_ret e = 0 -> e_deps_sync_ret e = 0 ->
  let r := i915_ttm_move both_faults e b dst_mem dst_use_tt dst_init in
  mr_ret r = 0 /\ mr_work r = false /\
  ((mr_accel r = true /\ mr_path r = SyncCopy) \/
   (mr_accel r = false /\ mr_path r = NoCpuCopy /\ mr_dst r = dst_init)).
Proof.
  intros Hgem Hwill Hn Hp Hd Hpd Hds r. subst r.
  unfold i915_ttm_move, __i915_ttm_move, i915_ttm_accel_move, ERR_PTR.
  rewrite Hgem, Hwill, Hn, Hp, Hpd, Hds. simpl.
  destruct (e_dst_rsgt e <? 0) eqn:Hlt; [lia|].
  rewrite !Bool.andb_false_r. simpl.
  split_ifs; simpl in *; rewrite ?Bool.andb_false_r in *; try discriminate;
  intuition (try discriminate; try congruence).
Qed.

(** Witness for C6: the sample populated object moved to local memory. *)
Lemma both_faults_sync_copy_witness :
  let r := i915_ttm_move both_faults env_ok (bo_sample true true) lmem0 false
             [0; 0] in
  mr_ret r = 0 /\ mr_work r = false /\
  ((mr_accel r = true /\ mr_path r = SyncCopy) \/
   (mr_accel r = false /\ mr_path r = NoCpuCopy /\ mr_dst r = [0; 0])).
Proof.
  apply both_faults_sync_copy; try reflexivity. vm_compute. discriminate.
Defined.




End MigrateFacts.

(* ------------------------------------------------------------------------- *)
(** ** Facts about the VMA index *)

Module VmaTreeFacts.
Import VmaTree.

#[local] Arguments key_cmp : simpl never.

Lemma list_cmp_refl (a : list Z) : list_cmp a a = Eq.
Proof. induction a as [|x a IH]; simpl; [reflexivity|]. now rewrite Z.compare_refl. Qed.

Lemma list_cmp_eq (a b : list Z) : list_cmp a b = Eq -> a = b.
Proof.
  revert b; induction a as [|x a IH]; intros [|y b]; simpl; try discriminate;
  auto.
  destruct (Z.compare x y) eqn:E; try discriminate.
  apply Z.compare_eq in E. intros H. subst. f_equal. auto.
Qed.

Lemma key_cmp_refl (k : key) : key_cmp k k = Eq.
Proof.
  destruct k as [[vm t] p]. unfold key_cmp. rewrite !Z.compare_refl. apply list_cmp_refl.
Qed.

Lemma key_cmp_eq (a b : key) : key_cmp a b = Eq -> a = b.
Proof.
  destruct a as [[vma ta] pa], b as [[vmb tb] pb]. unfold key_cmp.
  destruct (Z.compare vma vmb) eqn:E1; try discriminate.
  destruct (Z.compare ta tb) eqn:E2; try discriminate.
  intros H. apply Z.compare_eq in E1, E2. apply list_cmp_eq in H. now subst.
Qed.

Lemma ForallT_InT (P : vma -> Prop) (t : vma_tree) :
  ForallT P t <-> (forall x, InT x t -> P x).
Proof.
  induction t as [|l IHl v r IHr]; simpl.
  - tauto.
  - rewrite IHl, IHr. split.
    + intros [Hl [Hv Hr]] x [H|[H|H]]; subst; auto.
    + intros H. repeat split; auto.
Qed.

(** The insertion walk and the lookup walk follow the same path. *)
Lemma link_lookup (t : vma_tree) (k : key) (v : vma) :
  i915_vma_lookup t k =
  match vma_tree_link t k v with inl p => Some p | inr _ => None end.
Proof.
  induction t as [|l IHl pos r IHr]; simpl; [reflexivity|].
  destruct (key_cmp (vma_key pos) k).
  - reflexivity.
  - rewrite IHr. now destruct (vma_tree_link r k v).
  - rewrite IHl. now destruct (vma_tree_link l k v).
Qed.

Lemma lookup_sound (t : vma_tree) (k : key) (x : vma) :
  i915_vma_lookup t k = Some x -> InT x t /\ vma_key x = k.
Proof.
  induction t as [|l IHl pos r IHr]; simpl; [discriminate|].
  destruct (key_cmp (vma_key pos) k) eqn:E.
  - intros H. injection H as <-. split; [auto|]. now apply key_cmp_eq.
  - intros H. destruct (IHr H). tauto.
  - intros H. destruct (IHl H). tauto.
Qed.

Lemma lookup_complete (t : vma_tree) (x : vma) :
  vma_tree_ok t -> InT x t -> i915_vma_lookup t (vma_key x) = Some x.
Proof.
  induction t as [|l IHl pos r IHr]; simpl; [tauto|].
  intros [Hl [Hr [Fl Fr]]] [H|[H|H]].
  - rewrite ForallT_InT in Fl. rewrite (Fl x H). auto.
  - subst. now rewrite key_cmp_refl.
  - rewrite ForallT_InT in Fr. rewrite (Fr x H). auto.
Qed.

(** In a well-formed index, two VMAs with the same key are the same VMA. *)
Lemma tree_ok_unique (t : vma_tree) (x y : vma) :
  vma_tree_ok t -> InT x t -> InT y t -> vma_key x = vma_key y -> x = y.
Proof.
  intros Hok Hx Hy Hk.
  pose proof (lookup_complete t x Hok Hx) as Ex.
  pose proof (lookup_complete t y Hok Hy) as Ey.
  rewrite Hk, Ey in Ex. congruence.
Qed.

Lemma link_found (t : vma_tree) (k : key) (v p : vma) :
  vma_tree_link t k v = inl p -> InT p t /\ vma_key p = k.
Proof.
  intros H. apply lookup_sound. rewrite (link_lookup t k v), H. reflexivity.
Qed.

Lemma link_members (t t' : vma_tree) (k : key) (v : vma) :
  vma_tree_link t k v = inr t' -> forall x, InT x t' <-> InT x t \/ x = v.
Proof.
  revert t'; induction t as [|l IHl pos r IHr]; simpl; intros t' H x.
  - injection H as <-. simpl. tauto.
  - destruct (key_cmp (vma_key pos) k).
    + discriminate.
    + destruct (vma_tree_link r k v) as [p|r'] eqn:E; [discriminate|].
      injection H as <-. simpl. rewrite (IHr r' eq_refl x). tauto.
    + destruct (vma_tree_link l k v) as [p|l'] eqn:E; [discriminate|].
      injection H as <-. simpl. rewrite (IHl l' eq_refl x). tauto.
Qed.

Lemma ForallT_link (P : vma -> Prop) (t t' : vma_tree) (k : key) (v : vma) :
  vma_tree_link t k v = inr t' -> ForallT P t -> P v -> ForallT P t'.
Proof.
  intros H. rewrite !ForallT_InT. intros Ht Hv x Hx.
  apply (link_members t t' k v H) in Hx. destruct Hx; subst; auto.
Qed.

(** Linking a VMA whose key is the walk's key keeps the index ordered. *)
Lemma link_tree_ok (t t' : vma_tree) (v : vma) :
  vma_tree_ok t -> vma_tree_link t (vma_key v) v = inr t' -> vma_tree_ok t'.
Proof.
  revert t'; induction t as [|l IHl pos r IHr]; simpl; intros t' Hok H.
  - injection H as <-. simpl. tauto.
  - destruct Hok as [Hl [Hr [Fl Fr]]].
    destruct (key_cmp (vma_key pos) (vma_key v)) eqn:Ec.
    + discriminate.
    + destruct (vma_tree_link r (vma_key v) v) as [p|r'] eqn:E; [discriminate|].
      injection H as <-. simpl. repeat split; auto.
      apply (ForallT_link _ r r' (vma_key v) v E Fr Ec).
    + destruct (vma_tree_link l (vma_key v) v) as [p|l'] eqn:E; [discriminate|].
      injection H as <-. simpl. repeat split; auto.
      apply (ForallT_link _ l l' (vma_key v) v E Fl Ec).
Qed.

Lemma mk_key_view_of (vm : Z) (view : option ggtt_view) :
  mk_key vm (Some (view_of view)) = mk_key vm view.
Proof. destruct view; reflexivity. Qed.

(** What [vma_create] does to a well-formed index. *)
Lemma vma_create_spec (alloc_ok : bool) (id : nat) (fence_size : Z)
    (obj : gem_object) (vm : address_space) (view : option ggtt_view)
    (s : obj_vmas) :
  vma_tree_ok (vtree s) ->
  let k := mk_key (vm_id vm) view in
  vma_tree_ok (vtree (snd (vma_create alloc_ok id fence_size obj vm view s))) /\
  (forall v, fst (vma_create alloc_ok id fence_size obj vm view s) = VOk v ->
     i915_vma_lookup
       (vtree (snd (vma_create alloc_ok id fence_size obj vm view s))) k
     = Some v) /\
  (forall w, i915_vma_lookup (vtree s) k = Some w ->
     snd (vma_create alloc_ok id fence_size obj vm view s) = s /\
     (fst (vma_create alloc_ok id fence_size obj vm view s) = VOk w \/
      exists e, fst (vma_create alloc_ok id fence_size obj vm view s) = VErr e)).
Proof.
  intros Hok k. subst k. unfold vma_create.
  destruct alloc_ok; simpl; [|repeat split; eauto; discriminate].
  destruct (vm_total vm <? vma_view_size obj view); simpl;
    [repeat split; eauto; discriminate|].
  destruct (vm_is_ggtt vm && _); simpl; [repeat split; eauto; discriminate|].
  set (v := {| vma_id := id; vma_vm := vm_id vm; vma_view := view_of view;
               vma_size := vma_view_size obj view; vma_is_ggtt := vm_is_ggtt vm;
               vma_fence_size := if vm_is_ggtt vm then fence_size else 0 |}).
  assert (Hk : vma_key v = mk_key (vm_id vm) view)
    by (unfold vma_key; simpl; apply mk_key_view_of).
  destruct (vma_tree_link (vtree s) (mk_key (vm_id vm) view) v) as [p|t'] eqn:E;
    simpl.
  - destruct (link_found _ _ _ _ E) as [Hin Hpk].
    split; [exact Hok|split].
    + intros v' H. injection H as <-. rewrite <- Hpk.
      now apply lookup_complete.
    + intros w Hw. split; [reflexivity|]. left.
      rewrite (link_lookup _ _ v), E in Hw. congruence.
  - rewrite <- Hk in E. split; [|split].
    + exact (link_tree_ok _ _ _ Hok E).
    + intros v' H. injection H as <-. rewrite <- Hk.
      apply lookup_complete; [exact (link_tree_ok _ _ _ Hok E)|].
      apply (link_members _ _ _ _ E). now right.
    + intros w Hw. rewrite (link_lookup _ _ v), <- Hk, E in Hw. discriminate.
Qed.

(** [vma_create] finding a VMA under its key: it returns that VMA, unless
    the allocation of its own instance or one of the size checks that come
    before the tree walk already failed. *)
Lemma vma_create_found (alloc_ok : bool) (id : nat) (fence_size : Z)
    (obj : gem_object) (vm : address_space) (view : option ggtt_view)
    (s : obj_vmas) (w : vma) :
  i915_vma_lookup (vtree s) (mk_key (vm_id vm) view) = Some w ->
  (alloc_ok = false ->
   fst (vma_create alloc_ok id fence_size obj vm view s) = VErr (- ENOMEM)) /\
  (alloc_ok = true -> vma_view_size obj view <= vm_total vm ->
   (vm_is_ggtt vm = true -> vma_view_size obj view <= U32_MAX /\
      vma_view_size obj view <= fence_size <= vm_total vm) ->
   fst (vma_create alloc_ok id fence_size obj vm view s) = VOk w).
Proof.
  intros Hw. split; [intros ->; reflexivity|].
  intros -> Hs Hg. unfold vma_create. cbn [negb].
  destruct (Z.ltb_spec (vm_total vm) (vma_view_size obj view)) as [Hlt|_]; [lia|].
  destruct (vm_is_ggtt vm) eqn:Eg; cbn [andb].
  - destruct (Hg eq_refl) as [H1 [H2 H3]].
    destruct (Z.ltb_spec U32_MAX (vma_view_size obj view)); [lia|].
    destruct (Z.ltb_spec fence_size (vma_view_size obj view)); [lia|].
    destruct (Z.ltb_spec (vm_total vm) fence_size); [lia|]. cbn [orb].
    all: match goal with |- context [vma_tree_link ?t ?k ?v] =>
           rewrite (link_lookup t k v) in Hw; destruct (vma_tree_link t k v) end;
      cbn [fst]; congruence.
  - match goal with |- context [vma_tree_link ?t ?k ?v] =>
      rewrite (link_lookup t k v) in Hw; destruct (vma_tree_link t k v) end;
      cbn [fst]; congruence.
Qed.

(** C3, as stated, fails: a creation that loses the race does not always
    return the winner. [vma_create] allocates its own instance before it
    walks the tree, so when that allocation fails it returns [-ENOMEM]
    although the index already holds a VMA for the key. *)
Lemma vma_instance_race_enomem_counterexample :
  let s1 := snd (vma_create true 1 8192 obj0 ggtt0 None no_vmas) in
  fst (vma_create true 1 8192 obj0 ggtt0 None no_vmas) <> VErr (- ENOMEM) /\
  i915_vma_lookup (vtree no_vmas) (mk_key (vm_id ggtt0) None) = None /\
  i915_vma_lookup (vtree s1) (mk_key (vm_id ggtt0) None)
  = match fst (vma_create true 1 8192 obj0 ggtt0 None no_vmas) with
    | VOk w => Some w | VErr _ => None end /\
  fst (i915_vma_instance false 2 8192 obj0 ggtt0 None no_vmas s1) = VErr (- ENOMEM).
Proof. vm_compute. repeat split; discriminate. Qed.

(** C3 (amended): [i915_vma_instance] keeps at most one VMA per (address
    space, view) key in the object's index, and every VMA it returns is the
    one the index holds for that key. A creation that finds a VMA inserted
    concurrently under the same key leaves the index as it was. It returns
    that winner when its own allocation succeeded and the view passed the
    size checks that precede the tree walk (the checks the winner, created
    for the same object, address space and view, passed too); when its
    allocation failed it returns [-ENOMEM]. *)
Theorem vma_instance_singleton (alloc_ok : bool) (id : nat) (fence_size : Z)
    (obj : gem_object) (vm : address_space) (view : option ggtt_view)
    (s_lookup s_create : obj_vmas) :
  vma_tree_ok (vtree s_lookup) -> vma_tree_ok (vtree s_create) ->
  let k := mk_key (vm_id vm) view in
  let res := i915_vma_instance alloc_ok id fence_size obj vm view
               s_lookup s_create in
  vma_tree_ok (vtree (snd res)) /\
  (forall x y, InT x (vtree (snd res)) -> InT y (vtree (snd res)) ->
     vma_key x = vma_key y -> x = y) /\
  (forall v, fst res = VOk v -> i915_vma_lookup (vtree (snd res)) k = Some v) /\
  (i915_vma_lookup (vtree s_lookup) k = None ->
   forall w, i915_vma_lookup (vtree s_create) k = Some w ->
   snd res = s_create /\
   (alloc_ok = false -> fst res = VErr (- ENOMEM)) /\
   (alloc_ok = true -> vma_view_size obj view <= vm_total vm ->
    (vm_is_ggtt vm = true -> vma_view_size obj view <= U32_MAX /\
       vma_view_size obj view <= fence_size <= vm_total vm) ->
    fst res = VOk w)).
Proof.
  intros H1 H2 k res. subst k res. unfold i915_vma_instance.
  destruct (i915_vma_lookup (vtree s_lookup) (mk_key (vm_id vm) view)) as [v|]
    eqn:E; simpl.
  - split; [exact H1|split; [|split]].
    + intros x y Hx Hy. exact (tree_ok_unique _ x y H1 Hx Hy).
    + intros v' H. injection H as <-. exact E.
    + discriminate.
  - destruct (vma_create_spec alloc_ok id fence_size obj vm view s_create H2)
      as [Hok [Hres Hwin]].
    split; [exact Hok|split; [|split]].
    + intros x y Hx Hy. exact (tree_ok_unique _ x y Hok Hx Hy).
    + exact Hres.
    + intros _ w Hw. split; [exact (proj1 (Hwin w Hw))|].
      exact (vma_create_found alloc_ok id fence_size obj vm view s_create w Hw).
Qed.

(** Witness for C3: a second instance call on a fresh object, after a
    concurrent creation of the same GGTT VMA, returns that VMA. *)
Lemma vma_instance_singleton_witness :
  let s1 := snd (vma_create true 1 8192 obj0 ggtt0 None no_vmas) in
  vma_tree_ok (vtree no_vmas) /\ vma_tree_ok (vtree s1) /\
  fst (i915_vma_instance true 2 8192 obj0 ggtt0 None no_vmas s1)
  = fst (vma_create true 1 8192 obj0 ggtt0 None no_vmas).
Proof.
  split; [exact I|]. split; [vm_compute; tauto|].
  destruct (vma_instance_singleton true 2 8192 obj0 ggtt0 None no_vmas
              (snd (vma_create true 1 8192 obj0 ggtt0 None no_vmas)) I)
    as [_ [_ [_ H]]]; [vm_compute; tauto|].
  destruct (H eq_refl _ eq_refl) as [_ [_ Hw]].
  rewrite (Hw eq_refl ltac:(vm_compute; discriminate)
             ltac:(intros _; vm_compute; repeat split; discriminate)).
  reflexivity.
Defined.

(** C10, as stated, fails: when the allocation of the new VMA fails, an
    oversized view makes [i915_vma_instance] return [-ENOMEM], not
    [-E2BIG]: the allocation comes before the size check. *)
Lemma vma_instance_e2big_counterexample :
  vma_view_size obj0 (Some (ViewPartial 0 64)) > vm_total ggtt0 /\
  fst (i915_vma_instance false 1 0 obj0 ggtt0 (Some (ViewPartial 0 64))
         no_vmas no_vmas) = VErr (- ENOMEM).
Proof. split; reflexivity. Qed.

(** C10 (amended): when [i915_vma_instance] has to create the VMA and the
    view's size exceeds the address space, the call fails with [-E2BIG]
    (or [-ENOMEM] if allocating the new VMA already failed) and the index
    is left exactly as it was. *)
Theorem vma_instance_too_big (alloc_ok : bool) (id : nat) (fence_size : Z)
    (obj : gem_object) (vm : address_space) (view : option ggtt_view)
    (s_lookup s_create : obj_vmas) :
  i915_vma_lookup (vtree s_lookup) (mk_key (vm_id vm) view) = None ->
  vm_total vm < vma_view_size obj view ->
  i915_vma_instance alloc_ok id fence_size obj vm view s_lookup s_create
  = (VErr (if alloc_ok then - E2BIG else - ENOMEM), s_create).
Proof.
  intros Hl Hs. unfold i915_vma_instance, vma_create. rewrite Hl.
  destruct alloc_ok; simpl; [|reflexivity].
  replace (vm_total vm <? vma_view_size obj view) with true
    by (symmetry; apply Z.ltb_lt; exact Hs).
  reflexivity.
Qed.

(** Witness for C10: a 64-page partial view of an 8 KiB object in a
    64 KiB GGTT. *)
Lemma vma_instance_too_big_witness :
  i915_vma_instance true 1 0 obj0 ggtt0 (Some (ViewPartial 0 64)) no_vmas
    no_vmas = (VErr (- E2BIG), no_vmas).
Proof. apply vma_instance_too_big; reflexivity. Defined.

End VmaTreeFacts.


(** ** Facts about placement, binding and unbinding *)

Module VmaFacts.
Import Vma.

(** *** Helpers *)

Lemma In_firstn_l (x : drm_mm_node) (k : nat) (l : list drm_mm_node) :
  In x (firstn k l) -> In x l.
Proof.
  revert l; induction k as [|k IH]; intros [|a l]; simpl; try tauto.
  intros [H|H]; [now left | right; now apply IH].
Qed.

Lemma fresh_firstn (id : nat) (k : nat) (l : list drm_mm_node) :
  ~ In id (map n_id l) -> ~ In id (map n_id (firstn k l)).
Proof.
  intros Hf Hin; apply Hf.
  apply in_map_iff in Hin as [x [<- Hx]].
  apply in_map, (In_firstn_l _ k), Hx.
Qed.

Lemma neighbors_app (id : nat) (prev : option drm_mm_node) (pre post : list drm_mm_node)
    (n : drm_mm_node) :
  ~ In id (map n_id pre) -> n_id n = id ->
  neighbors id prev (pre ++ n :: post) = Some (last_from prev pre, n, hd_error post).
Proof.
  revert prev; induction pre as [|m pre IH]; intros prev Hf Hn; simpl.
  - now rewrite Hn, Nat.eqb_refl.
  - destruct (Nat.eqb_spec (n_id m) id) as [E|E].
    + exfalso; apply Hf; left; exact E.
    + apply IH; [intros H; apply Hf; now right | exact Hn].
Qed.



(** A node that fits its hole passes [i915_gem_valid_gtt_space] once
    linked there. *)
Lemma fits_hole_valid (vm : address_space) (k : nat) (node : drm_mm_node) (v : vma) :
  fits_hole vm k node = true ->
  n_id node = vma_id v ->
  ~ In (vma_id v) (map n_id (vm_nodes vm)) ->
  neighbors (vma_id v) None (vm_nodes (drm_mm_insert_at vm k node))
    = Some (last_from None (firstn k (vm_nodes vm)), node, hd_error (skipn k (vm_nodes vm)))
  /\ i915_gem_valid_gtt_space (drm_mm_insert_at vm k node) v (n_color node) = true.
Proof.
  intros Hfit Hid Hf.
  assert (Hn : neighbors (vma_id v) None (vm_nodes (drm_mm_insert_at vm k node))
    = Some (last_from None (firstn k (vm_nodes vm)), node, hd_error (skipn k (vm_nodes vm)))).
  { unfold drm_mm_insert_at; simpl.
    apply neighbors_app; [now apply fresh_firstn | exact Hid]. }
  split; [exact Hn|].
  unfold i915_gem_valid_gtt_space; rewrite Hn; simpl.
  unfold fits_hole, hole_at in Hfit.
  destruct (vm_cache_coloring vm) eqn:Hc; simpl; [|reflexivity].
  destruct (last_from None (firstn k (vm_nodes vm))) as [p|] eqn:Hp;
  destruct (hd_error (skipn k (vm_nodes vm))) as [q|] eqn:Hq;
  unfold i915_node_color_differs, drm_mm_hole_follows in *;
  repeat match goal with
         | H : context [if ?c then _ else _] |- _ => destruct c eqn:?
         | |- context [if ?c then _ else _] => destruct c eqn:?
         end;
  simpl in *; unfold I915_GTT_PAGE_SIZE in *;
  repeat match goal with
         | H : (_ && _)%bool = true |- _ => apply andb_prop in H as [? ?]
         | H : negb _ = true |- _ => apply Bool.negb_true_iff in H
         | H : negb _ = false |- _ => apply Bool.negb_false_iff in H
         | H : (_ <=? _) = true |- _ => apply Z.leb_le in H
         | H : (_ <? _) = false |- _ => apply Z.ltb_ge in H
         end;
  unfold n_end in *; try reflexivity; try discriminate; try lia.
Qed.

Lemma best_hole_sound (vm : address_space) (id : nat) (size alignment color start end_ : Z)
    (ks : list nat) (k : nat) (node : drm_mm_node) (h : Z) :
  best_hole vm id size alignment color start end_ ks = Some (k, node, h) ->
  hole_candidate vm id size alignment color start end_ k = Some (node, h).
Proof.
  induction ks as [|k' ks IH]; simpl; [discriminate|].
  destruct (hole_candidate vm id size alignment color start end_ k') as [[n' h']|] eqn:Hc;
    [|exact IH].
  destruct (best_hole vm id size alignment color start end_ ks) as [[[k2 n2] h2]|] eqn:Hb.
  - destruct (h2 <? h'); [exact IH|intros E; injection E as <- <- <-; exact Hc].
  - intros E; injection E as <- <- <-; exact Hc.
Qed.

Lemma hole_candidate_fits (vm : address_space) (id : nat) (size alignment color start end_ : Z)
    (k : nat) (node : drm_mm_node) (h : Z) :
  hole_candidate vm id size alignment color start end_ k = Some (node, h) ->
  fits_hole vm k node = true /\ n_id node = id /\ n_color node = color.
Proof.
  unfold hole_candidate.
  destruct (hole_at vm color k) as [hs he] eqn:Hh.
  match goal with |- context [if ?c then _ else _] => destruct c eqn:Hc end;
    [|discriminate].
  intros E; injection E as <- _.
  apply andb_prop in Hc as [Hc _]; apply andb_prop in Hc as [Hc _].
  simpl; auto.
Qed.

(** What a successful [i915_vma_insert] does: it links a node of the
    VMA, with the colour of the address space, into a hole it fits. *)
Lemma vma_insert_success (vm : address_space) (v : vma) (size alignment flags : Z)
    (vm' : address_space) (v' : vma) :
  i915_vma_insert vm v size alignment flags = (0, vm', v') ->
  exists k node,
    vm' = drm_mm_insert_at vm k node /\ v' = set_vnode v (Some node) /\
    n_id node = vma_id v /\
    n_color node = (if vm_cache_coloring vm then vobj_cache_level v else 0) /\
    fits_hole vm k node = true.
Proof.
  unfold i915_vma_insert, i915_gem_gtt_reserve, i915_gem_gtt_insert, ENOSPC, EINVAL.
  set (color := if vm_cache_coloring vm then vobj_cache_level v else 0).
  repeat match goal with
         | |- context [best_hole ?a ?b ?c ?d ?e ?f ?g ?h] =>
             destruct (best_hole a b c d e f g h) as [[[? ?] ?]|] eqn:?
         | |- context [if ?c then _ else _] => destruct c eqn:?
         end; simpl;
    intros E; injection E; intros; try lia; subst.
  all: try match goal with
           | Hb : best_hole _ _ _ _ _ _ _ _ = Some _ |- _ =>
               apply best_hole_sound, hole_candidate_fits in Hb as [? [? ?]]
           end.
  all: do 2 eexists; split; [reflexivity|]; split; [reflexivity|];
       repeat split; eauto.
Qed.


(** *** Claims *)

(** C7: every successful [i915_vma_insert] into an address space where the
    VMA's node is not yet linked leaves the node in the node list between
    neighbours that, in a cache-coloured address space, share its colour or
    are separated from it by a hole; so [i915_gem_valid_gtt_space] holds with
    the colour the insertion used. *)
Theorem vma_insert_valid_gtt_space (vm : address_space) (v : vma)
    (size alignment flags : Z) (vm' : address_space) (v' : vma)
    (Hfresh : ~ In (vma_id v) (map n_id (vm_nodes vm)))
    (Hins : i915_vma_insert vm v size alignment flags = (0, vm', v')) :
  let color := if vm_cache_coloring vm then vobj_cache_level v else 0 in
  exists prev node next,
    vnode v' = Some node /\
    neighbors (vma_id v') None (vm_nodes vm') = Some (prev, node, next) /\
    (vm_cache_coloring vm' = true ->
       (i915_node_color_differs prev color = true ->
          exists p, prev = Some p /\ n_end p < n_start node) /\
       (i915_node_color_differs next color = true ->
          drm_mm_hole_follows vm' node next = true)) /\
    i915_gem_valid_gtt_space vm' v' color = true.
Proof.
  intros color.
  apply vma_insert_success in Hins as (k & node & -> & -> & Hid & Hcol & Hfit).
  destruct (fits_hole_valid vm k node (set_vnode v (Some node)) Hfit Hid Hfresh)
    as [Hn Hv].
  fold color in Hcol; rewrite Hcol in Hv.
  do 3 eexists; split; [reflexivity|]; split; [exact Hn|]; split; [|exact Hv].
  intros Hc; revert Hv; unfold i915_gem_valid_gtt_space; rewrite Hn, Hc; simpl.
  generalize (last_from None (firstn k (vm_nodes vm))) as prev.
  generalize (hd_error (skipn k (vm_nodes vm))) as next.
  intros next prev Hv; split; intros Hd; rewrite Hd in Hv; simpl in Hv.
  - destruct prev as [p|]; [|discriminate].
    destruct (drm_mm_hole_follows _ p _) eqn:Hp; simpl in Hv; [|discriminate].
    exists p; split; [reflexivity|].
    unfold drm_mm_hole_follows in Hp; now apply Z.ltb_lt in Hp.
  - destruct (_ && _)%bool; [discriminate|].
    destruct (drm_mm_hole_follows _ node next); [reflexivity|discriminate].
Qed.

(** Witness for C7: VMA 1 of an LLC-cached object goes into [ggtt_col]
    after the uncached node of VMA 7, one guard page away from it. *)
Lemma vma_insert_valid_gtt_space_witness :
  let r := i915_vma_insert ggtt_col (vma1 0 None 0) 0 0 PIN_GLOBAL in
  fst (fst r) = 0 /\ vnode (snd r) = Some node1 /\
  i915_gem_valid_gtt_space (snd (fst r)) (snd r) 1 = true.
Proof.
  intros r.
  split; [vm_compute; reflexivity|]; split; [vm_compute; reflexivity|].
  destruct (vma_insert_valid_gtt_space ggtt_col (vma1 0 None 0) 0 0 PIN_GLOBAL
              (snd (fst r)) (snd r)) as (prev & node & next & _ & _ & _ & Hv).
  - simpl; intros [H|[]]; discriminate.
  - vm_compute; reflexivity.
  - exact Hv.
Defined.

(** Counterexample to C4: the optimistic wait of [i915_vma_unbind] comes
    before the pin check, so an interrupted wait makes the call on a pinned
    VMA fail with [-EINTR], not [-EAGAIN]. *)
Lemma unbind_pinned_counterexample :
  let v := vma1 (Z.lor I915_VMA_GLOBAL_BIND 1) (Some node1) I915_VMA_PAGES_ACTIVE in
  i915_vma_is_pinned v = true /\ drm_mm_node_allocated v = true /\
  i915_vma_unbind (unbind_env_ok (- EINTR)) ggtt_col_bound v = (- EINTR, ggtt_col_bound, v) /\
  - EINTR <> - EAGAIN.
Proof.
  intros v; split; [reflexivity|]; split; [reflexivity|]; split.
  - vm_compute; reflexivity.
  - unfold EINTR, EAGAIN; lia.
Qed.

(** C4 (amended): a pinned VMA whose node is allocated is never unbound.
    [__i915_vma_unbind] (whatever its wait returns), [__i915_vma_unbind_async]
    and [i915_vma_unbind_async] fail with [-EAGAIN]; [i915_vma_unbind] fails
    with [-EAGAIN], or with the error of its optimistic [i915_vma_sync] when
    that wait, made before the pin check, fails. The address space and the
    VMA (bind bits, node, pages, resource) are left as they were. *)
Theorem unbind_pinned_busy (ue : unbind_env) (trylock_vm : bool)
    (vm : address_space) (v : vma)
    (Hnode : drm_mm_node_allocated v = true)
    (Hpin : i915_vma_is_pinned v = true) :
  (forall sync_ret, __i915_vma_unbind sync_ret vm v = (- EAGAIN, vm, v)) /\
  __i915_vma_unbind_async ue vm v = (UErr (- EAGAIN), vm, v) /\
  i915_vma_unbind_async ue trylock_vm vm v = (- EAGAIN, vm, v) /\
  i915_vma_unbind ue vm v =
    (if ue_sync_ret ue =? 0 then - EAGAIN else ue_sync_ret ue, vm, v).
Proof.
  unfold __i915_vma_unbind, __i915_vma_unbind_async, i915_vma_unbind_async,
    i915_vma_unbind.
  rewrite Hnode, Hpin; simpl.
  split; [reflexivity|]; split; [reflexivity|]; split; [reflexivity|].
  destruct (ue_sync_ret ue =? 0); reflexivity.
Qed.

(** Witness for C4: VMA 1 bound and pinned once in [ggtt_col_bound]. *)
Lemma unbind_pinned_busy_witness :
  let v := vma1 (Z.lor I915_VMA_GLOBAL_BIND 1) (Some node1) I915_VMA_PAGES_ACTIVE in
  i915_vma_unbind (unbind_env_ok 0) ggtt_col_bound v = (- EAGAIN, ggtt_col_bound, v) /\
  i915_vma_unbind_async (unbind_env_ok 0) true ggtt_col_bound v = (- EAGAIN, ggtt_col_bound, v).
Proof.
  intros v.
  destruct (unbind_pinned_busy (unbind_env_ok 0) true ggtt_col_bound v)
    as (_ & _ & Ha & Hu); [reflexivity | reflexivity |].
  split; [exact Hu | exact Ha].
Defined.

Lemma get_pages_spec (pe : pin_env) (v w : vma) (e : Z) :
  i915_vma_get_pages pe v = (e, w) ->
  (e <> 0 -> w = v) /\ (e = 0 -> w = set_pages_count v (vpages_count v + 1)).
Proof.
  unfold i915_vma_get_pages.
  destruct (vpages_count v =? 0) eqn:Hc; simpl;
    [destruct (pe_get_pages_ret pe =? 0) eqn:He; simpl|];
    intros E; injection E as <- <-; split; intros; try lia; auto.
Qed.




Lemma map_and_fenceable_obs (vm : address_space) (v : vma) :
  let w := __i915_vma_set_map_and_fenceable vm v in
  Z.land (vflags w) (Z.lnot I915_VMA_CAN_FENCE) = Z.land (vflags v) (Z.lnot I915_VMA_CAN_FENCE) /\
  vnode w = vnode v /\ vpages_count w = vpages_count v /\ vma_id w = vma_id v.
Proof.
  unfold __i915_vma_set_map_and_fenceable.
  destruct (vnode v) as [n|] eqn:Hn; [|repeat split; auto].
  destruct (_ && _)%bool; cbn [vflags vnode vpages_count vma_id set_vflags];
    (split; [|repeat split; auto]).
  - rewrite Z.land_lor_distr_l, Z.land_lnot_diag, Z.lor_0_r; reflexivity.
  - rewrite <- Z.land_assoc, Z.land_diag; reflexivity.
Qed.



Ltac step_H H :=
  repeat (cbv beta iota zeta delta [negb andb orb] in H;
    match type of H with
    | context [if ?c then _ else _] =>
        let E := fresh "E" in destruct c eqn:E
    | context [match ?x with Some _ => _ | None => _ end] =>
        let E := fresh "E" in destruct x eqn:E
    | context [i915_vma_insert ?a ?b ?c ?d ?e] =>
        let E := fresh "Hi" in destruct (i915_vma_insert a b c d e) as [[? ?] ?] eqn:E
    | context [i915_vma_bind ?a ?b ?c ?d ?e ?f] =>
        let E := fresh "Hb" in destruct (i915_vma_bind a b c d e f) as [? ?] eqn:E
    end).



(** C8 (a defect of the code): a failed pin does not leave the VMA's
    observable state unchanged. Adding a user binding to a VMA already bound
    in the GGTT reuses the VMA's resource in [i915_vma_bind]; when the wait
    for the moving fence is then interrupted, the error path frees that
    resource and sets [vma->resource] to NULL, although the VMA stays bound
    on its node. A later unbind of the still-bound VMA goes through
    [__i915_vma_evict], which dereferences [vma->resource]. *)
Example pin_ww_rebind_error_drops_resource :
  let v := set_resource (vma1 I915_VMA_GLOBAL_BIND (Some node1) I915_VMA_PAGES_ACTIVE) (Some 5%nat) in
  let r := i915_vma_pin_ww pin_env_moving_intr ggtt_col_bound v 0 0 PIN_USER in
  fst (fst r) = - ERESTARTSYS /\ vflags (snd r) = I915_VMA_GLOBAL_BIND /\
  vnode (snd r) = Some node1 /\ vresource v = Some 5%nat /\ vresource (snd r) = None.
Proof. vm_compute; repeat split. Qed.

End VmaFacts.

(* ------------------------------------------------------------------------- *)
(** ** Further properties of the migration path *)

Module MigrateExtraFacts.
Import Migrate MigrateCopy.

Lemma ERR_PTR_cases (x : Z) : (x = 0 /\ ERR_PTR x = FNull) \/ (x <> 0 /\ ERR_PTR x = FErr x).
Proof. unfold ERR_PTR; destruct (Z.eqb_spec x 0); auto. Qed.

Lemma ttm_move_err_nonzero (fm : failure_modes) (e : env) (b : bo) (clear : bool)
    (dst_mem : ttm_resource) (dst_init : list Z) (allow_accel has_deps : bool) :
  PTR_ERR (tm_fence (__i915_ttm_move fm e b clear dst_mem dst_init allow_accel has_deps)) = 0 ->
  IS_ERR (tm_fence (__i915_ttm_move fm e b clear dst_mem dst_init allow_accel has_deps)) = true ->
  False.
Proof.
  unfold __i915_ttm_move, i915_ttm_accel_move;
  repeat match goal with
  | |- context [ERR_PTR ?x] => destruct (ERR_PTR_cases x) as [[? ->]|[? ->]]
  | |- context [if ?c then _ else _] => destruct c eqn:?
  | |- context [let '(_, _) := ?p in _] => destruct p eqn:?
  end; simpl; intros; try discriminate; try congruence.
Qed.

(** Whenever the destination is device-local memory, a fault switch is set
    or acceleration is not allowed, a [__i915_ttm_move] that does not fail
    leaves in the destination the CPU copy (or clear) of the source. *)
Lemma ttm_move_cpu_result (fm : failure_modes) (e : env) (b : bo) (clear : bool)
    (dst_mem : ttm_resource) (dst_init : list Z) (allow_accel has_deps : bool) :
  i915_ttm_gtt_binds_lmem dst_mem = true \/ fail_gpu_migration fm = true \/
  fail_work_allocation fm = true \/ allow_accel = false ->
  IS_ERR (tm_fence (__i915_ttm_move fm e b clear dst_mem dst_init allow_accel has_deps)) = false ->
  tm_dst (__i915_ttm_move fm e b clear dst_mem dst_init allow_accel has_deps)
  = ttm_move_memcpy clear (bo_data b).
Proof.
  intros Hc. unfold __i915_ttm_move, i915_ttm_accel_move.
  destruct (fail_gpu_migration fm) eqn:Hg, (fail_work_allocation fm) eqn:Hw,
    allow_accel, (i915_ttm_gtt_binds_lmem dst_mem);
    try (exfalso; intuition discriminate);
  simpl; rewrite ?orb_true_r, ?orb_false_r;
  repeat match goal with
  | |- context [ERR_PTR ?x] => destruct (ERR_PTR_cases x) as [[? ->]|[? ->]]
  | |- context [if ?c then _ else _] => destruct c eqn:?
  end; simpl; intros; try discriminate; try reflexivity;
  repeat match goal with
  | H : (_ =? _) = true |- _ => apply Z.eqb_eq in H
  | H : (_ =? _) = false |- _ => apply Z.eqb_neq in H
  end; try congruence; try lia.
Qed.

(** The memcpy fallback of [__i915_ttm_move] guards every move into
    device-local memory: whenever the call does not return an error pointer,
    the destination ends up with the CPU copy (or clear) of the source,
    whatever the GPU blit produced, and the same holds when a fault switch
    is set or acceleration is not allowed. *)
Theorem __i915_ttm_move_lmem_result (fm : failure_modes) (e : env) (b : bo) (clear : bool)
    (dst_mem : ttm_resource) (dst_init : list Z) (allow_accel has_deps : bool)
    (Hdst : i915_ttm_gtt_binds_lmem dst_mem = true \/ fail_gpu_migration fm = true \/
            fail_work_allocation fm = true \/ allow_accel = false)
    (Hok : IS_ERR (tm_fence (__i915_ttm_move fm e b clear dst_mem dst_init
                                              allow_accel has_deps)) = false) :
  tm_dst (__i915_ttm_move fm e b clear dst_mem dst_init allow_accel has_deps)
  = ttm_move_memcpy clear (bo_data b).
Proof. exact (ttm_move_cpu_result fm e b clear dst_mem dst_init allow_accel has_deps Hdst Hok). Qed.

Lemma __i915_ttm_move_lmem_result_witness :
  tm_dst (__i915_ttm_move no_faults env_fence_err (bo_sample true true) false lmem0
            [0; 0] true true)
  = [1; 2].
Proof.
  apply (__i915_ttm_move_lmem_result no_faults env_fence_err (bo_sample true true) false
           lmem0 [0; 0] true true).
  - left; reflexivity.
  - vm_compute; reflexivity.
Defined.

(** A successful [i915_ttm_move] into device-local memory that runs the copy
    step leaves the destination with the source's contents, or with zeros
    when the source is system memory without populated pages (after the
    population the move does itself), whatever the GPU blit did. *)
Theorem i915_ttm_move_lmem_result (fm : failure_modes) (e : env) (b : bo)
    (dst_mem : ttm_resource) (dst_use_tt : bool) (dst_init : list Z)
    (Hdst : i915_ttm_gtt_binds_lmem dst_mem = true)
    (Hret : mr_ret (i915_ttm_move fm e b dst_mem dst_use_tt dst_init) = 0)
    (Hacc : mr_accel (i915_ttm_move fm e b dst_mem dst_use_tt dst_init) = true) :
  mr_dst (i915_ttm_move fm e b dst_mem dst_use_tt dst_init)
  = ttm_move_memcpy
      (negb (i915_ttm_cpu_maps_iomem (bo_resource b)) &&
       match bo_ttm b with
       | None => true
       | Some t => negb (tt_populated t || dst_use_tt || tt_swapped t)
       end) (bo_data b).
Proof.
  revert Hret Hacc. unfold i915_ttm_move.
  destruct (bo_is_gem b); cbn [negb]; [|discriminate].
  destruct (e_notify_ret e =? 0); cbn [negb]; [|discriminate].
  destruct (madv_willneed (bo_obj b)); cbn [negb]; [|discriminate].
  destruct (bo_ttm b) as [t|] eqn:Ht.
  1: destruct (dst_use_tt || tt_swapped t) eqn:Hp;
     [destruct (e_populate_ret e =? 0); cbn [negb andb]; [|discriminate]|].
  all: cbn [andb negb]; destruct (e_dst_rsgt e <? 0); [discriminate|].
  all: cbn [with_ttm bo_ttm bo_resource option_map populate tt_populated tt_zero_alloc];
       rewrite ?Ht, ?andb_false_r; cbn [andb negb].
  all: try match goal with |- context [if ?c then _ else _] =>
         match c with
         | context [tt_zero_alloc] => destruct c; [discriminate|]
         end
       end.
  all: destruct (e_prev_deps_ret e =? 0); cbn [negb]; [|discriminate].
  all: match goal with |- context [__i915_ttm_move ?fm ?e ?b' ?c ?d ?i ?a ?h] =>
         let Hf := fresh "Hf" in
         destruct (IS_ERR (tm_fence (__i915_ttm_move fm e b' c d i a h))) eqn:Hf;
           cbn [mr_ret mr_dst mr_accel];
         [ intros Hz _; exfalso; exact (ttm_move_err_nonzero fm e b' c d i a h Hz Hf)
         | intros _ _; rewrite (ttm_move_cpu_result fm e b' c d i a h (or_introl Hdst) Hf) ]
       end.
  all: cbn [with_ttm bo_data bo_resource]; f_equal.
  all: try (destruct dst_use_tt, (tt_swapped t), (tt_populated t); simpl in *;
            try discriminate; rewrite ?andb_false_r, ?andb_true_r; reflexivity).
  all: rewrite ?andb_true_r; reflexivity.
Qed.


(** Witness: the blit into local memory fails, the fallback copies. *)
Lemma i915_ttm_move_lmem_result_witness :
  mr_dst (i915_ttm_move no_faults env_fence_err (bo_sample true true) lmem0 false [0; 0])
  = [1; 2].
Proof.
  rewrite (i915_ttm_move_lmem_result no_faults env_fence_err (bo_sample true true) lmem0
             false [0; 0]); [reflexivity | reflexivity | vm_compute; reflexivity
                             | vm_compute; reflexivity].
Defined.

Lemma copy_ttm_fence_cases (fm : failure_modes) (e : env) (b : bo) (dst_mem : ttm_resource)
    (dst_init : list Z) (allow_accel : bool) :
  allow_accel = false ->
  forall f, tm_fence (__i915_ttm_move fm e b false dst_mem dst_init allow_accel true) <> FPtr f.
Proof.
  intros -> f. unfold __i915_ttm_move; simpl.
  repeat match goal with
  | |- context [ERR_PTR ?x] => destruct (ERR_PTR_cases x) as [[? ->]|[? ->]]
  | |- context [if ?c then _ else _] => destruct c eqn:?
  end; simpl; discriminate.
Qed.

(** A successful [i915_gem_obj_copy_ttm] into a device-local object, or with
    a fault switch set or acceleration not allowed, leaves the destination
    with the source's contents; without acceleration the copy is done
    synchronously and no fence is added to the reservation objects. *)
Theorem i915_gem_obj_copy_ttm_result (fm : failure_modes) (e : env) (ce : copy_env)
    (dst src : bo) (allow_accel : bool)
    (Hdst : i915_ttm_gtt_binds_lmem (bo_resource dst) = true \/
            fail_gpu_migration fm = true \/ fail_work_allocation fm = true \/
            allow_accel = false)
    (Hret : cr_ret (i915_gem_obj_copy_ttm fm e ce dst src allow_accel) = 0) :
  cr_dst (i915_gem_obj_copy_ttm fm e ce dst src allow_accel) = bo_data src /\
  (allow_accel = false -> cr_fence_added (i915_gem_obj_copy_ttm fm e ce dst src allow_accel) = false).
Proof.
  revert Hret. unfold i915_gem_obj_copy_ttm.
  destruct (Z.eqb_spec (ce_reserve_shared_ret ce) 0); cbn [negb cr_ret]; [|congruence].
  destruct (Z.eqb_spec (ce_add_dst_resv_ret ce) 0); cbn [negb cr_ret]; [|congruence].
  destruct (Z.eqb_spec (ce_add_src_resv_ret ce) 0); cbn [negb cr_ret]; [|congruence].
  pose proof (ttm_move_cpu_result fm e src false (bo_resource dst) (bo_data dst)
                allow_accel true Hdst) as Hc.
  pose proof (ttm_move_err_nonzero fm e src false (bo_resource dst) (bo_data dst)
                allow_accel true) as Hz.
  pose proof (copy_ttm_fence_cases fm e src (bo_resource dst) (bo_data dst)
                allow_accel) as Hp.
  destruct (tm_fence (__i915_ttm_move fm e src false (bo_resource dst) (bo_data dst)
                        allow_accel true)) as [r| |f]; cbn [cr_ret cr_dst cr_fence_added];
    intros Hr.
  - exfalso; apply Hz; [exact Hr|reflexivity].
  - split; [rewrite Hc; reflexivity|reflexivity].
  - split; [rewrite Hc; reflexivity|].
    intros Ha; exfalso; exact (Hp Ha f eq_refl).
Qed.

Lemma i915_gem_obj_copy_ttm_result_witness :
  cr_dst (i915_gem_obj_copy_ttm no_faults env_fence_err copy_env_ok bo_lmem_dst
            (bo_sample true true) true) = [1; 2].
Proof.
  apply (i915_gem_obj_copy_ttm_result no_faults env_fence_err copy_env_ok bo_lmem_dst
           (bo_sample true true) true).
  - left; reflexivity.
  - vm_compute; reflexivity.
Defined.

Lemma find_placement_some (mt cur : Z) (pl : list Z) (mr : Z) :
  find_placement mt cur pl = Some mr -> mr = mt /\ In mt pl.
Proof.
  induction pl as [|x pl IH]; simpl; [discriminate|].
  destruct (Z.eqb_spec x mt), (Z.eqb_spec x cur); simpl;
    try (intros H; injection H; intros; subst; tauto);
    intros H; destruct (IH H); tauto.
Qed.

Lemma find_placement_none (mt cur : Z) (pl : list Z) :
  cur <> mt -> In mt pl -> find_placement mt cur pl <> None.
Proof.
  intros Hc; induction pl as [|x pl IH]; simpl; [tauto|].
  intros [->|Hin].
  - rewrite Z.eqb_refl; destruct (Z.eqb_spec mt cur); [congruence|]; simpl; discriminate.
  - destruct ((x =? mt) && negb (x =? cur)); [discriminate|auto].
Qed.

Lemma adjust_gem_region (e : env) (b : bo) :
  let mt := mem_type (bo_resource b) in
  (In mt (mm_placements (bo_obj b)) -> mm_region (i915_ttm_adjust_gem_after_move e b) = mt) /\
  (~ In mt (mm_placements (bo_obj b)) ->
   mm_region (i915_ttm_adjust_gem_after_move e b) = mm_region (bo_obj b)).
Proof.
  intros mt; unfold i915_ttm_adjust_gem_after_move; cbn [mm_region]; fold mt.
  destruct (Z.eqb_spec (mm_region (bo_obj b)) mt) as [Heq|Hne]; cbn [negb].
  - split; intros; auto.
  - destruct (find_placement mt (mm_region (bo_obj b)) (mm_placements (bo_obj b))) as [mr|] eqn:Hf.
    + apply find_placement_some in Hf; destruct Hf as [-> Hin]. split; [auto|].
      intros Hn; exfalso; exact (Hn Hin).
    + split; [|auto]. intros Hin; exfalso.
      exact (find_placement_none _ _ _ Hne Hin Hf).
Qed.


Lemma move_epilogue_spec (e : env) (b : bo) (dst_mem : ttm_resource) (r : Z)
    (data : list Z) :
  let b' := move_epilogue e b dst_mem r data in
  bo_resource b' = dst_mem /\ bo_ttm b' = bo_ttm b /\ bo_data b' = data /\
  read_domains (bo_obj b') = write_domain (bo_obj b') /\
  read_domains (bo_obj b') =
    (if i915_ttm_cpu_maps_iomem dst_mem ||
        negb (match bo_ttm b with Some t => tt_cached t | None => false end)
     then I915_GEM_DOMAIN_WC else I915_GEM_DOMAIN_CPU) /\
  cached_io_rsgt (bo_obj b') =
    (if i915_ttm_gtt_binds_lmem dst_mem || i915_ttm_cpu_maps_iomem dst_mem
     then Some r else None) /\
  (In (mem_type dst_mem) (mm_placements (bo_obj b)) ->
   mm_region (bo_obj b') = mem_type dst_mem) /\
  (~ In (mem_type dst_mem) (mm_placements (bo_obj b)) ->
   mm_region (bo_obj b') = mm_region (bo_obj b)).
Proof.
  unfold move_epilogue.
  set (b1 := with_obj (with_obj (assign_mem b dst_mem data)
              (i915_ttm_adjust_domains_after_move (assign_mem b dst_mem data)))
              (set_cached_io_rsgt (bo_obj (with_obj (assign_mem b dst_mem data)
                 (i915_ttm_adjust_domains_after_move (assign_mem b dst_mem data)))) None)).
  set (b2 := if i915_ttm_gtt_binds_lmem dst_mem || i915_ttm_cpu_maps_iomem dst_mem
             then with_obj b1 (set_cached_io_rsgt (bo_obj b1) (Some r)) else b1).
  assert (Hb2 : bo_resource b2 = dst_mem /\ bo_ttm b2 = bo_ttm b /\ bo_data b2 = data /\
                mm_region (bo_obj b2) = mm_region (bo_obj b) /\
                mm_placements (bo_obj b2) = mm_placements (bo_obj b) /\
                read_domains (bo_obj b2) = write_domain (bo_obj b2) /\
                read_domains (bo_obj b2) =
                  (if i915_ttm_cpu_maps_iomem dst_mem ||
                      negb (match bo_ttm b with Some t => tt_cached t | None => false end)
                   then I915_GEM_DOMAIN_WC else I915_GEM_DOMAIN_CPU) /\
                cached_io_rsgt (bo_obj b2) =
                  (if i915_ttm_gtt_binds_lmem dst_mem || i915_ttm_cpu_maps_iomem dst_mem
                   then Some r else None)).
  { subst b2 b1; destruct (_ || _); cbn; repeat split; reflexivity. }
  clearbody b2. destruct Hb2 as (H1 & H2 & H3 & H4 & H5 & H6 & H7 & H8).
  pose proof (adjust_gem_region e b2) as [HR1 HR2].
  cbn [with_obj bo_resource bo_ttm bo_data bo_obj].
  rewrite H1 in HR1, HR2; rewrite H5 in HR1, HR2.
  assert (Ha : read_domains (i915_ttm_adjust_gem_after_move e b2) = read_domains (bo_obj b2) /\
               write_domain (i915_ttm_adjust_gem_after_move e b2) = write_domain (bo_obj b2) /\
               cached_io_rsgt (i915_ttm_adjust_gem_after_move e b2) = cached_io_rsgt (bo_obj b2))
    by (repeat split; reflexivity).
  destruct Ha as (-> & -> & ->).
  refine (conj H1 (conj H2 (conj H3 (conj H6 (conj H7 (conj H8 (conj HR1 _))))))).
  intros Hn; rewrite (HR2 Hn); exact H4.
Qed.

(** After a successful [i915_ttm_move] of a GEM object that is to be kept,
    the buffer lives in the destination resource; its read and write domains
    are both WC when the destination is CPU-mapped as io memory or its pages
    are not cached, CPU otherwise; the cached io scatterlist is the
    destination's when the destination is local or io memory and none
    otherwise; and its region becomes the destination's memory type when that
    is one of its allowed placements, and is unchanged otherwise. *)
Theorem i915_ttm_move_success_placement (fm : failure_modes) (e : env) (b : bo)
    (dst_mem : ttm_resource) (dst_use_tt : bool) (dst_init : list Z)
    (Hgem : bo_is_gem b = true) (Hwill : madv_willneed (bo_obj b) = true)
    (Hret : mr_ret (i915_ttm_move fm e b dst_mem dst_use_tt dst_init) = 0) :
  let b' := mr_bo (i915_ttm_move fm e b dst_mem dst_use_tt dst_init) in
  bo_resource b' = dst_mem /\
  read_domains (bo_obj b') = write_domain (bo_obj b') /\
  read_domains (bo_obj b') =
    (if i915_ttm_cpu_maps_iomem dst_mem ||
        negb (match bo_ttm b with Some t => tt_cached t | None => false end)
     then I915_GEM_DOMAIN_WC else I915_GEM_DOMAIN_CPU) /\
  cached_io_rsgt (bo_obj b') =
    (if i915_ttm_gtt_binds_lmem dst_mem || i915_ttm_cpu_maps_iomem dst_mem
     then Some (e_dst_rsgt e) else None) /\
  (In (mem_type dst_mem) (mm_placements (bo_obj b)) ->
   mm_region (bo_obj b') = mem_type dst_mem) /\
  (~ In (mem_type dst_mem) (mm_placements (bo_obj b)) ->
   mm_region (bo_obj b') = mm_region (bo_obj b)).
Proof.
  revert Hret. unfold i915_ttm_move. rewrite Hgem, Hwill. cbn [negb].
  destruct (Z.eqb_spec (e_notify_ret e) 0) as [_|Hn]; cbn [negb mr_ret mr_fail];
    [|intros; congruence].
  assert (Hcached : forall b1 : bo, bo_obj b1 = bo_obj b ->
    match bo_ttm b1 with Some t => tt_cached t | None => false end =
    match bo_ttm b with Some t => tt_cached t | None => false end ->
    forall r d, let b' := move_epilogue e b1 dst_mem r d in
    bo_resource b' = dst_mem /\
    read_domains (bo_obj b') = write_domain (bo_obj b') /\
    read_domains (bo_obj b') =
      (if i915_ttm_cpu_maps_iomem dst_mem ||
          negb (match bo_ttm b with Some t => tt_cached t | None => false end)
       then I915_GEM_DOMAIN_WC else I915_GEM_DOMAIN_CPU) /\
    cached_io_rsgt (bo_obj b') =
      (if i915_ttm_gtt_binds_lmem dst_mem || i915_ttm_cpu_maps_iomem dst_mem
       then Some r else None) /\
    (In (mem_type dst_mem) (mm_placements (bo_obj b)) ->
     mm_region (bo_obj b') = mem_type dst_mem) /\
    (~ In (mem_type dst_mem) (mm_placements (bo_obj b)) ->
     mm_region (bo_obj b') = mm_region (bo_obj b))).
  { intros b1 Ho Hc r d b'.
    destruct (move_epilogue_spec e b1 dst_mem r d) as (H1 & _ & _ & H4 & H5 & H6 & H7 & H8).
    rewrite Hc, Ho in *. tauto. }
  set (b1 := if match bo_ttm b with Some t => dst_use_tt || tt_swapped t | None => false end
             then with_ttm b (option_map populate (bo_ttm b)) else b).
  assert (Hb1o : bo_obj b1 = bo_obj b).
  { clear Hcached; subst b1; destruct (bo_ttm b) as [t|] eqn:Ht; cbn; rewrite ?Ht;
      [|reflexivity].
    destruct (dst_use_tt || tt_swapped t); cbn; rewrite ?Ht; reflexivity. }
  assert (Hb1c : match bo_ttm b1 with Some t => tt_cached t | None => false end =
                 match bo_ttm b with Some t => tt_cached t | None => false end).
  { clear Hcached; subst b1; destruct (bo_ttm b) as [t|] eqn:Ht; cbn; rewrite ?Ht;
      [|reflexivity].
    destruct (dst_use_tt || tt_swapped t); cbn; rewrite ?Ht; reflexivity. }
  clearbody b1.
  destruct (match bo_ttm b with Some t => dst_use_tt || tt_swapped t | None => false end
            && negb (e_populate_ret e =? 0)) eqn:Hp; cbn [mr_ret mr_fail].
  { intros Hz; exfalso; apply andb_prop in Hp; destruct Hp as [_ Hp].
    rewrite Hz in Hp; discriminate. }
  destruct (e_dst_rsgt e <? 0) eqn:Hr; cbn [mr_ret mr_fail].
  { intros Hz; exfalso; rewrite Hz in Hr; discriminate. }
  match goal with |- mr_ret (if ?c then _ else _) = 0 -> _ => destruct c end;
    cbn [mr_ret mr_bo].
  { intros _; apply Hcached; assumption. }
  destruct (negb (e_prev_deps_ret e =? 0)) eqn:Hd; cbn [mr_ret mr_fail].
  { intros Hz; exfalso; rewrite Hz in Hd; discriminate. }
  match goal with |- mr_ret (if IS_ERR ?x then _ else _) = 0 -> _ =>
    destruct (IS_ERR x) eqn:Hf end; cbn [mr_ret mr_bo].
  - intros Hz; exfalso; eapply ttm_move_err_nonzero; eassumption.
  - intros _; apply Hcached; assumption.
Qed.

(** Witness: a move into local memory that falls back to the CPU copy. *)
Lemma i915_ttm_move_success_placement_witness :
  bo_resource (mr_bo (i915_ttm_move no_faults env_fence_err (bo_sample true true) lmem0
                        false [0; 0])) = lmem0.
Proof.
  pose proof (i915_ttm_move_success_placement no_faults env_fence_err (bo_sample true true)
                lmem0 false [0; 0] eq_refl eq_refl ltac:(vm_compute; reflexivity)) as H.
  exact (proj1 H).
Defined.

End MigrateExtraFacts.

(* ------------------------------------------------------------------------- *)
(** ** Further properties of the VMA index *)

Module VmaTreeExtraFacts.
Import VmaTree VmaTreeFacts VmaTreeList.

Lemma ggtt_first_app (l : list vma) (v : vma) :
  vma_is_ggtt v = false -> ggtt_first l = true -> ggtt_first (l ++ [v]) = true.
Proof.
  intros Hv. induction l as [|x l IH]; simpl.
  - rewrite Hv; reflexivity.
  - destruct (vma_is_ggtt x); [exact IH|].
    rewrite forallb_app; simpl; rewrite Hv; intros ->; reflexivity.
Qed.

(** [vma_create] keeps [obj->vma.tree] and [obj->vma.list] holding the same
    VMAs, and keeps the GGTT VMAs at the front of the list. *)
Theorem vma_create_list_tree (alloc_ok : bool) (id : nat) (fence_size : Z)
    (obj : gem_object) (vm : address_space) (view : option ggtt_view) (s : obj_vmas)
    (Hsame : forall x, InT x (vtree s) <-> In x (vlist s))
    (Hord : ggtt_first (vlist s) = true) :
  let s' := snd (vma_create alloc_ok id fence_size obj vm view s) in
  (forall x, InT x (vtree s') <-> In x (vlist s')) /\ ggtt_first (vlist s') = true.
Proof.
  intros s'. subst s'. unfold vma_create.
  destruct alloc_ok; cbn [negb]; [|split; assumption].
  destruct (vm_total vm <? vma_view_size obj view); [split; assumption|].
  destruct (vm_is_ggtt vm && _); [split; assumption|].
  match goal with |- context [vma_tree_link (vtree s) ?k ?v] =>
    destruct (vma_tree_link (vtree s) k v) as [p|t'] eqn:E end;
    cbn [snd vtree vlist]; [split; assumption|].
  split.
  - intros x. rewrite (link_members _ _ _ _ E x), Hsame.
    cbn [vma_is_ggtt]. destruct (vm_is_ggtt vm).
    + cbn [In]. intuition congruence.
    + rewrite in_app_iff. cbn [In]. intuition congruence.
  - cbn [vma_is_ggtt]. destruct (vm_is_ggtt vm) eqn:Hg.
    + cbn [ggtt_first vma_is_ggtt]. exact Hord.
    + apply ggtt_first_app; [reflexivity | exact Hord].
Qed.

Lemma vma_create_list_tree_witness :
  let s1 := snd (vma_create true 1 8192 obj0 ppgtt0 None no_vmas) in
  let s2 := snd (vma_create true 2 8192 obj0 ggtt0 None s1) in
  map vma_id (vlist s2) = [2%nat; 1%nat] /\
  (forall x, InT x (vtree s2) <-> In x (vlist s2)) /\ ggtt_first (vlist s2) = true.
Proof.
  intros s1 s2.
  assert (H1 := vma_create_list_tree true 1 8192 obj0 ppgtt0 None no_vmas
                  (fun x => conj (fun H => H) (fun H => H)) eq_refl).
  cbv zeta in H1. fold s1 in H1. destruct H1 as [H1a H1b].
  destruct (vma_create_list_tree true 2 8192 obj0 ggtt0 None s1 H1a H1b) as [H2a H2b].
  split; [vm_compute; reflexivity | split; [exact H2a | exact H2b]].
Defined.

End VmaTreeExtraFacts.

(* ------------------------------------------------------------------------- *)
(** ** Further properties of pinning, placement and unbinding *)

Module VmaExtraFacts.
Import Vma VmaPlace VmaFacts.

Lemma land_lor_other (x b m : Z) :
  Z.land b m = 0 -> Z.land (Z.lor x b) m = Z.land x m.
Proof. intros H; rewrite Z.land_lor_distr_l, H, Z.lor_0_r; reflexivity. Qed.

Lemma land_lnot_other (x c m : Z) :
  Z.land c m = 0 -> Z.land (Z.land x (Z.lnot c)) m = Z.land x m.
Proof.
  intros H; rewrite <- Z.land_assoc; f_equal.
  apply Z.bits_inj'; intros i Hi.
  assert (Hb := f_equal (fun z => Z.testbit z i) H); cbn beta in Hb.
  rewrite Z.land_spec, Z.bits_0 in Hb.
  rewrite Z.land_spec, Z.lnot_spec by exact Hi.
  destruct (Z.testbit c i), (Z.testbit m i); simpl in *; congruence.
Qed.

Lemma land_lor_self (x b : Z) : Z.land (Z.lor x b) b = b.
Proof.
  apply Z.bits_inj'; intros i Hi; rewrite Z.land_spec, Z.lor_spec.
  destruct (Z.testbit x i), (Z.testbit b i); reflexivity.
Qed.

Lemma land_bind_request (x f b : Z) :
  Z.land (Z.lor x (Z.land (Z.land f b) (Z.lnot (Z.land x b)))) (Z.land f b) = Z.land f b.
Proof.
  apply Z.bits_inj'; intros i Hi.
  rewrite !Z.land_spec, Z.lor_spec, !Z.land_spec, Z.lnot_spec, Z.land_spec by exact Hi.
  destruct (Z.testbit x i), (Z.testbit f i), (Z.testbit b i); reflexivity.
Qed.

Lemma land_bind_nonzero (x f b : Z) :
  Z.land (Z.land f (Z.lnot x)) b <> 0 ->
  Z.land (Z.lor x (Z.land (Z.land f b) (Z.lnot (Z.land x b)))) b <> 0.
Proof.
  intros H E; apply H; apply Z.bits_inj'; intros i Hi.
  assert (Hb := f_equal (fun z => Z.testbit z i) E); cbn beta in Hb.
  rewrite Z.bits_0 in *.
  rewrite !Z.land_spec, Z.lor_spec, !Z.land_spec, Z.lnot_spec, Z.land_spec in Hb by exact Hi.
  rewrite !Z.land_spec, Z.lnot_spec by exact Hi.
  destruct (Z.testbit x i), (Z.testbit f i), (Z.testbit b i); simpl in *; congruence.
Qed.

Lemma land_1023_mod (x : Z) : Z.land x I915_VMA_PIN_MASK = x mod 1024.
Proof. change I915_VMA_PIN_MASK with (Z.ones 10); rewrite Z.land_ones by lia; reflexivity. Qed.

Lemma pin_no_carry_low (x : Z) :
  Z.land x I915_VMA_PIN_MASK <> I915_VMA_PIN_MASK ->
  Z.land (x + 1) I915_VMA_PIN_MASK = Z.land x I915_VMA_PIN_MASK + 1.
Proof.
  rewrite !land_1023_mod; unfold I915_VMA_PIN_MASK; intros H.
  pose proof (Z.mod_pos_bound x 1024 ltac:(lia)).
  rewrite Z.add_mod by lia.
  rewrite (Z.mod_small 1 1024) by lia.
  apply Z.mod_small; lia.
Qed.

Lemma pin_no_carry_high (x m : Z) :
  Z.land x I915_VMA_PIN_MASK <> I915_VMA_PIN_MASK -> Z.land m I915_VMA_PIN_MASK = 0 ->
  Z.land (x + 1) m = Z.land x m.
Proof.
  intros H Hm.
  assert (Hd : (x + 1) / 1024 = x / 1024).
  { rewrite land_1023_mod in H; unfold I915_VMA_PIN_MASK in H.
    pose proof (Z.mod_pos_bound x 1024 ltac:(lia)).
    rewrite (Z.div_mod x 1024) at 1 by lia.
    rewrite <- Z.add_assoc, Z.mul_comm, Z.div_add_l by lia.
    rewrite (Z.div_small (x mod 1024 + 1) 1024) by lia. lia. }
  apply Z.bits_inj'; intros i Hi; rewrite !Z.land_spec.
  destruct (Z.lt_ge_cases i 10) as [Hl|Hl].
  - assert (Hb := f_equal (fun z => Z.testbit z i) Hm); cbn beta in Hb.
    rewrite Z.land_spec, Z.bits_0 in Hb.
    change I915_VMA_PIN_MASK with (Z.ones 10) in Hb.
    rewrite Z.testbit_ones_nonneg in Hb by lia.
    replace (i <? 10) with true in Hb by (symmetry; apply Z.ltb_lt; lia).
    rewrite andb_true_r in Hb; rewrite Hb, !andb_false_r; reflexivity.
  - f_equal.
    replace i with ((i - 10) + 10) by lia.
    rewrite <- !Z.shiftr_spec by lia.
    rewrite !Z.shiftr_div_pow2 by lia.
    change (2 ^ 10) with 1024; rewrite Hd; reflexivity.
Qed.

Lemma overflow_clear_no_wrap (x : Z) :
  Z.land x I915_VMA_OVERFLOW = 0 -> Z.land x I915_VMA_PIN_MASK <> I915_VMA_PIN_MASK.
Proof.
  intros H E.
  assert (E2 : Z.land (Z.land x I915_VMA_PIN_MASK) I915_VMA_OVERFLOW = I915_VMA_OVERFLOW)
    by (rewrite E; reflexivity).
  rewrite <- Z.land_assoc in E2; change (Z.land I915_VMA_PIN_MASK I915_VMA_OVERFLOW)
    with I915_VMA_OVERFLOW in E2.
  rewrite H in E2; discriminate.
Qed.

Lemma is_power_of_2_spec (n : Z) :
  is_power_of_2 n = true -> 0 < n /\ n = 2 ^ Z.log2 n.
Proof.
  unfold is_power_of_2; intros H; apply andb_prop in H as [H1 H2].
  apply negb_true_iff, Z.eqb_neq in H1; apply Z.eqb_eq in H2.
  assert (Hpos : 0 < n).
  { destruct (Z.lt_ge_cases n 0) as [Hn|Hn]; [|lia].
    exfalso. assert (Hneg : Z.land n (n - 1) < 0)
      by (apply Z.land_neg; split; lia).
    lia. }
  split; [exact Hpos|].
  set (k := Z.log2 n).
  pose proof (Z.log2_spec n Hpos) as [Hlo Hhi]; fold k in Hlo, Hhi.
  destruct (Z.eq_dec n (2 ^ k)) as [E|Hne]; [exact E|exfalso].
  assert (Hk : 0 <= k) by apply Z.log2_nonneg.
  assert (Hbit : forall m, 2 ^ k <= m < 2 ^ (k + 1) -> Z.testbit m k = true).
  { intros m Hm. rewrite Z.testbit_eqb by exact Hk.
    rewrite Z.pow_add_r, Z.pow_1_r in Hm by lia.
    assert (m / 2 ^ k = 1).
    { symmetry; apply (Z.div_unique m (2 ^ k) 1 (m - 2 ^ k)); [left; lia | lia]. }
    rewrite H; reflexivity. }
  assert (Hb := f_equal (fun z => Z.testbit z k) H2); cbn beta in Hb.
  rewrite Z.land_spec, Z.bits_0, (Hbit n), (Hbit (n - 1)) in Hb by lia.
  discriminate.
Qed.

Lemma aligned_pow2 (x a : Z) :
  is_power_of_2 a = true -> IS_ALIGNED x a = true <-> x mod a = 0.
Proof.
  intros Ha; apply is_power_of_2_spec in Ha as [Hpos Ha].
  unfold IS_ALIGNED.
  assert (Ho : a - 1 = Z.ones (Z.log2 a)) by (rewrite Z.ones_equiv; lia).
  rewrite Ho, Z.land_ones by apply Z.log2_nonneg; rewrite <- Ha.
  apply Z.eqb_eq.
Qed.

Lemma round_up_aligned (x a : Z) :
  is_power_of_2 a = true -> IS_ALIGNED (round_up x a) a = true.
Proof.
  intros Ha; apply (aligned_pow2 _ _ Ha).
  apply is_power_of_2_spec in Ha as [Hpos Ha].
  unfold round_up.
  set (k := Z.log2 a) in *.
  assert (Hk : 0 <= k) by apply Z.log2_nonneg.
  assert (Ho : a - 1 = Z.ones k) by (rewrite Z.ones_equiv; lia).
  rewrite Ho.
  assert (Hm : Z.lor (x - 1) (Z.ones k) mod a = a - 1).
  { rewrite Ha, <- Z.land_ones by exact Hk.
    rewrite Z.land_lor_distr_l, Z.land_diag.
    apply Z.bits_inj'; intros i Hi; rewrite Z.lor_spec, Z.land_spec.
    rewrite <- Ha, Ho. destruct (Z.testbit (x - 1) i), (Z.testbit (Z.ones k) i); reflexivity. }
  rewrite <- Z.add_mod_idemp_l, Hm by lia.
  replace (a - 1 + 1) with a by lia. apply Z.mod_same; lia.
Qed.

Lemma round_up_ge (x y : Z) : 0 < y -> x <= round_up x y.
Proof.
  intros Hy; unfold round_up.
  set (a := x - 1); set (b := y - 1).
  assert (Hb : 0 <= b) by lia.
  assert (E : Z.lor a b = a + Z.ldiff b a).
  { rewrite Z.add_nocarry_lxor.
    - apply Z.bits_inj'; intros i Hi; rewrite Z.lor_spec, Z.lxor_spec, Z.ldiff_spec.
      destruct (Z.testbit a i), (Z.testbit b i); reflexivity.
    - apply Z.bits_inj'; intros i Hi; rewrite Z.land_spec, Z.ldiff_spec, Z.bits_0.
      destruct (Z.testbit a i), (Z.testbit b i); reflexivity. }
  assert (0 <= Z.ldiff b a).
  { rewrite Z.ldiff_land. apply Z.land_nonneg; left; exact Hb. }
  lia.
Qed.

Lemma aligned_weaken (x a b : Z) :
  is_power_of_2 a = true -> is_power_of_2 b = true -> a <= b ->
  IS_ALIGNED x b = true -> IS_ALIGNED x a = true.
Proof.
  intros Ha Hb Hab.
  rewrite (aligned_pow2 x a Ha), (aligned_pow2 x b Hb).
  apply is_power_of_2_spec in Ha as [Hpa Ha]; apply is_power_of_2_spec in Hb as [Hpb Hb].
  intros Hx.
  assert (Hl : Z.log2 a <= Z.log2 b) by (apply Z.log2_le_mono; exact Hab).
  assert (Hd : (a | b)).
  { exists (2 ^ (Z.log2 b - Z.log2 a)).
    assert (0 <= Z.log2 a) by apply Z.log2_nonneg.
    rewrite Hb at 1.
    replace (Z.log2 b) with ((Z.log2 b - Z.log2 a) + Z.log2 a) at 1 by lia.
    rewrite Z.pow_add_r, <- Ha by lia. reflexivity. }
  apply Z.mod_divide in Hx; [|lia]. apply Z.mod_divide; [lia|].
  eapply Z.divide_trans; eassumption.
Qed.

Lemma is_power_of_2_pow (k : Z) : 0 <= k -> is_power_of_2 (2 ^ k) = true.
Proof.
  intros Hk; unfold is_power_of_2.
  assert (0 < 2 ^ k) by (apply Z.pow_pos_nonneg; lia).
  replace (2 ^ k - 1) with (Z.ones k) by (rewrite Z.ones_equiv; lia).
  rewrite Z.land_ones, Z.mod_same by lia.
  destruct (Z.eqb_spec (2 ^ k) 0); [lia|reflexivity].
Qed.

Lemma is_power_of_2_max (a b : Z) :
  is_power_of_2 a = true -> is_power_of_2 b = true -> is_power_of_2 (Z.max a b) = true.
Proof. intros Ha Hb; destruct (Z.max_spec a b) as [[_ ->]|[_ ->]]; assumption. Qed.

Lemma rounddown_pow_of_two_pow2 (x : Z) : is_power_of_2 (rounddown_pow_of_two x) = true.
Proof.
  unfold rounddown_pow_of_two. rewrite Z.shiftl_1_l.
  apply is_power_of_2_pow, Z.log2_nonneg.
Qed.

Lemma vma_insert_node_props (vm : address_space) (v : vma) (size alignment flags : Z)
    (vm' : address_space) (v' : vma)
    (Hal : alignment = 0 \/ is_power_of_2 alignment = true)
    (Hd : is_power_of_2 (vdisplay_alignment v) = true)
    (Hf : Z.land flags PIN_MAPPABLE <> 0 -> is_power_of_2 (vfence_alignment v) = true)
    (H : i915_vma_insert vm v size alignment flags = (0, vm', v')) :
  exists node, v' = set_vnode v (Some node) /\
    Z.max size (vsize v) <= n_size node /\
    (Z.land flags PIN_MAPPABLE <> 0 -> vfence_size v <= n_size node) /\
    n_end node <= vm_total vm /\
    (Z.land flags PIN_MAPPABLE <> 0 -> n_end node <= vm_mappable_end vm) /\
    (Z.land flags PIN_ZONE_4G <> 0 -> n_end node <= 2 ^ 32 - I915_GTT_PAGE_SIZE) /\
    (Z.land flags PIN_OFFSET_BIAS <> 0 -> Z.land flags PIN_OFFSET_MASK <= n_start node) /\
    (Z.land flags PIN_OFFSET_FIXED <> 0 -> n_start node = Z.land flags PIN_OFFSET_MASK) /\
    (alignment <> 0 -> IS_ALIGNED (n_start node) alignment = true) /\
    IS_ALIGNED (n_start node) (vdisplay_alignment v) = true /\
    (Z.land flags PIN_MAPPABLE <> 0 -> IS_ALIGNED (n_start node) (vfence_alignment v) = true).
Proof.
  unfold i915_vma_insert, i915_gem_gtt_reserve, i915_gem_gtt_insert in H.
  cbv zeta in H.
  set (mappable := negb (Z.land flags PIN_MAPPABLE =? 0)) in H.
  assert (Hmap : mappable = true <-> Z.land flags PIN_MAPPABLE <> 0).
  { subst mappable; destruct (Z.eqb_spec (Z.land flags PIN_MAPPABLE) 0); simpl;
      split; congruence. }
  set (S0 := if mappable then Z.max (Z.max size (vsize v)) (vfence_size v)
             else Z.max size (vsize v)) in H.
  set (A0 := if mappable then Z.max (Z.max alignment (vdisplay_alignment v)) (vfence_alignment v)
             else Z.max alignment (vdisplay_alignment v)) in H.
  set (st := if negb (Z.land flags PIN_OFFSET_BIAS =? 0) then Z.land flags PIN_OFFSET_MASK
             else 0) in H.
  set (E1 := if mappable then Z.min (vm_total vm) (vm_mappable_end vm) else vm_total vm) in H.
  set (E0 := if negb (Z.land flags PIN_ZONE_4G =? 0) then Z.min E1 (2 ^ 32 - I915_GTT_PAGE_SIZE)
             else E1) in H.
  set (color := if vm_cache_coloring vm then vobj_cache_level v else 0) in H.
  assert (HS0 : Z.max size (vsize v) <= S0 /\
                (Z.land flags PIN_MAPPABLE <> 0 -> vfence_size v <= S0)).
  { subst S0; destruct mappable; split; intros; try lia;
      exfalso; apply (proj2 Hmap) in H0; discriminate. }
  assert (HA0 : is_power_of_2 A0 = true /\ alignment <= A0 /\ vdisplay_alignment v <= A0 /\
                (Z.land flags PIN_MAPPABLE <> 0 -> vfence_alignment v <= A0)).
  { assert (Hm1 : is_power_of_2 (Z.max alignment (vdisplay_alignment v)) = true).
    { destruct Hal as [->|Hal].
      - rewrite Z.max_r; [exact Hd|]. apply is_power_of_2_spec in Hd; lia.
      - apply is_power_of_2_max; assumption. }
    subst A0; destruct mappable eqn:Em.
    - specialize (Hf (proj1 Hmap eq_refl)).
      split; [apply is_power_of_2_max; assumption|]. repeat split; intros; lia.
    - split; [exact Hm1|]. repeat split; intros; try lia;
      exfalso; apply (proj2 Hmap) in H0; discriminate. }
  assert (HE0 : E0 <= vm_total vm /\
                (Z.land flags PIN_MAPPABLE <> 0 -> E0 <= vm_mappable_end vm) /\
                (Z.land flags PIN_ZONE_4G <> 0 -> E0 <= 2 ^ 32 - I915_GTT_PAGE_SIZE)).
  { assert (E1 <= vm_total vm /\ (Z.land flags PIN_MAPPABLE <> 0 -> E1 <= vm_mappable_end vm)).
    { subst E1; destruct mappable; split; intros; try lia;
      exfalso; apply (proj2 Hmap) in H; discriminate. }
    subst E0; destruct (Z.eqb_spec (Z.land flags PIN_ZONE_4G) 0); simpl;
      repeat split; intros; try lia; congruence. }
  assert (Hst : Z.land flags PIN_OFFSET_BIAS <> 0 -> st = Z.land flags PIN_OFFSET_MASK).
  { subst st; destruct (Z.eqb_spec (Z.land flags PIN_OFFSET_BIAS) 0); simpl; congruence. }
  assert (Hal_all : forall x A, is_power_of_2 A = true -> A0 <= A -> IS_ALIGNED x A = true ->
            (alignment <> 0 -> IS_ALIGNED x alignment = true) /\
            IS_ALIGNED x (vdisplay_alignment v) = true /\
            (Z.land flags PIN_MAPPABLE <> 0 -> IS_ALIGNED x (vfence_alignment v) = true)).
  { intros x A HA HAA Hx. destruct HA0 as (_ & H1 & H2 & H3).
    split; [|split].
    - intros Hne; destruct Hal as [|Hal]; [contradiction|].
      apply (aligned_weaken x alignment A); auto; lia.
    - apply (aligned_weaken x _ A); auto; lia.
    - intros Hm; apply (aligned_weaken x _ A); auto. specialize (H3 Hm); lia. }
  clearbody S0 A0 st E1 E0 color.
  destruct (S0 >? E0) eqn:Hbig; [injection H; intros; unfold ENOSPC in *; lia|].
  rewrite Z.gtb_ltb, Z.ltb_ge in Hbig.
  destruct (Z.eqb_spec (Z.land flags PIN_OFFSET_FIXED) 0) as [Hfx|Hfx]; cbn [negb] in H.
  2: {
    destruct (negb (IS_ALIGNED (Z.land flags PIN_OFFSET_MASK) A0) ||
              range_overflows (Z.land flags PIN_OFFSET_MASK) S0 E0) eqn:Hc;
      [injection H; intros; unfold EINVAL in *; lia|].
    apply orb_false_iff in Hc as [Hc1 Hc2]; apply negb_false_iff in Hc1.
    unfold range_overflows in Hc2; apply orb_false_iff in Hc2 as [Hc2 Hc3].
    rewrite Z.geb_leb, Z.leb_gt in Hc2; rewrite Z.gtb_ltb, Z.ltb_ge in Hc3.
    destruct (fits_hole _ _ _); cbn [negb] in H;
      [|injection H; intros; unfold ENOSPC in *; lia].
    injection H as _ <-.
    eexists; split; [reflexivity|]; unfold n_end; cbn [n_start n_size].
    destruct HS0 as [HS1 HS2]; destruct HE0 as (HE1 & HE2 & HE3).
    destruct (Hal_all (Z.land flags PIN_OFFSET_MASK) A0 (proj1 HA0) (Z.le_refl _) Hc1)
      as (Ha1 & Ha2 & Ha3).
    repeat match goal with |- _ /\ _ => split end; auto; try lia;
      intros Hx; first [ auto | lia | specialize (HS2 Hx); lia | specialize (HE2 Hx); lia
            | specialize (HE3 Hx); lia | rewrite (Hst Hx); lia ]. }
  destruct (negb (upper_32_bits (E0 - 1) =? 0) && (vpage_sizes_sg v >? I915_GTT_PAGE_SIZE));
    cbv beta iota in H.
  all: match type of H with
       | context [best_hole _ _ ?S1 ?A1 _ _ _ ?ks] =>
           assert (HA1 : is_power_of_2 A1 = true /\ A0 <= A1)
             by (first [ split; [apply is_power_of_2_max; [exact (proj1 HA0)
                                  | apply rounddown_pow_of_two_pow2] | lia]
                       | split; [exact (proj1 HA0) | lia] ]);
           assert (HS1' : S0 <= S1)
             by (first [ lia
                       | match goal with |- context [if ?c then _ else _] => destruct c end;
                         [apply round_up_ge; unfold I915_GTT_PAGE_SIZE_2M; lia | lia] ]);
           destruct (best_hole vm (vma_id v) S1 A1 color st E0 ks) as [[[k node] h]|] eqn:Hb;
           [|cbv beta iota in H; injection H; intros; unfold ENOSPC in *; lia];
           cbv beta iota in H; injection H as _ <-;
           apply best_hole_sound in Hb; unfold hole_candidate in Hb;
           destruct (hole_at vm color k) as [hs he];
           destruct (fits_hole _ _ _ && _ && _) eqn:Hc; [|discriminate];
           injection Hb as <- _;
           apply andb_prop in Hc as [Hc Hc3]; apply andb_prop in Hc as [_ Hc2];
           apply Z.leb_le in Hc2; apply Z.leb_le in Hc3;
           destruct (Hal_all _ _ (proj1 HA1) (proj2 HA1) (round_up_aligned (Z.max hs st) A1 (proj1 HA1)))
             as (Ha1 & Ha2 & Ha3)
       end.
  all: eexists; split; [reflexivity|]; unfold n_end; cbn [n_start n_size] in *.
  all: destruct HS0 as [HS1 HS2]; destruct HE0 as (HE1 & HE2 & HE3).
  all: repeat match goal with |- _ /\ _ => split end; auto; try lia;
      intros Hx; first [ auto | lia | specialize (HS2 Hx); lia | specialize (HE2 Hx); lia
            | specialize (HE3 Hx); lia | rewrite (Hst Hx) in *; lia | contradiction ].
Qed.



Lemma pin_wrap_check (x : Z) :
  Z.land (x + 1) I915_VMA_PIN_MASK <> 0 -> Z.land x I915_VMA_PIN_MASK <> I915_VMA_PIN_MASK.
Proof.
  rewrite !land_1023_mod; unfold I915_VMA_PIN_MASK; intros H E; apply H.
  rewrite <- Z.add_mod_idemp_l, E by lia; reflexivity.
Qed.

Lemma bind_bits_from_lnot (x f : Z) :
  Z.land (Z.land f I915_VMA_BIND_MASK) (Z.lnot x) = 0 ->
  Z.land x (Z.land f I915_VMA_BIND_MASK) = Z.land f I915_VMA_BIND_MASK.
Proof.
  intros H; apply Z.bits_inj'; intros i Hi.
  assert (Hb := f_equal (fun z => Z.testbit z i) H); cbn beta in Hb.
  rewrite Z.bits_0, !Z.land_spec, Z.lnot_spec in Hb by exact Hi.
  rewrite !Z.land_spec.
  destruct (Z.testbit x i), (Z.testbit f i), (Z.testbit I915_VMA_BIND_MASK i);
    simpl in *; congruence.
Qed.

Lemma bind_bits_from_lnot' (x f : Z) :
  Z.land (Z.land f (Z.lnot x)) I915_VMA_BIND_MASK = 0 ->
  Z.land x (Z.land f I915_VMA_BIND_MASK) = Z.land f I915_VMA_BIND_MASK.
Proof.
  intros H; apply bind_bits_from_lnot.
  rewrite <- H, <- !Z.land_assoc; f_equal; apply Z.land_comm.
Qed.

Lemma same_but_cf (x y m : Z) :
  Z.land x (Z.lnot I915_VMA_CAN_FENCE) = Z.land y (Z.lnot I915_VMA_CAN_FENCE) ->
  Z.land I915_VMA_CAN_FENCE m = 0 -> Z.land x m = Z.land y m.
Proof.
  intros H Hm.
  rewrite <- (land_lnot_other x I915_VMA_CAN_FENCE m Hm),
    <- (land_lnot_other y I915_VMA_CAN_FENCE m Hm), H.
  reflexivity.
Qed.

Lemma request_same_bind (f x y : Z) :
  Z.land x I915_VMA_BIND_MASK = Z.land y I915_VMA_BIND_MASK ->
  Z.land (Z.land f (Z.lnot x)) I915_VMA_BIND_MASK =
  Z.land (Z.land f (Z.lnot y)) I915_VMA_BIND_MASK.
Proof.
  intros H; apply Z.bits_inj'; intros i Hi.
  assert (Hb := f_equal (fun z => Z.testbit z i) H); cbn beta in Hb.
  rewrite !Z.land_spec in Hb. rewrite !Z.land_spec, !Z.lnot_spec by exact Hi.
  destruct (Z.testbit x i), (Z.testbit y i), (Z.testbit f i),
    (Z.testbit I915_VMA_BIND_MASK i); simpl in *; congruence.
Qed.

Lemma bind_request_outside (f y m : Z) :
  Z.land I915_VMA_BIND_MASK m = 0 ->
  Z.land (Z.land (Z.land f I915_VMA_BIND_MASK) y) m = 0.
Proof.
  intros H. apply Z.bits_inj'; intros n _.
  pose proof (f_equal (fun z => Z.testbit z n) H) as E; cbv beta in E.
  rewrite !Z.land_spec, Z.bits_0 in *.
  destruct (Z.testbit f n), (Z.testbit I915_VMA_BIND_MASK n), (Z.testbit y n), (Z.testbit m n);
    simpl in *; congruence.
Qed.

Lemma bind_success (pe : pin_env) (vm : address_space) (v w : vma) (flags : Z)
    (work : bool) (res : option nat) :
  i915_vma_bind pe vm v flags work res = (0, w) ->
  vflags w = Z.lor (vflags v) (Z.land (Z.land flags I915_VMA_BIND_MASK)
                                 (Z.lnot (Z.land (vflags v) I915_VMA_BIND_MASK))) /\
  vnode w = vnode v /\ vpages_count w = vpages_count v.
Proof.
  unfold i915_vma_bind.
  destruct (Z.eqb_spec (Z.land (Z.land flags I915_VMA_BIND_MASK)
              (Z.lnot (Z.land (vflags v) I915_VMA_BIND_MASK))) 0) as [E|E].
  { intros H; injection H as <-. rewrite E, Z.lor_0_r; auto. }
  repeat match goal with
         | |- context [match ?x with Some _ => _ | None => _ end] => destruct x
         | |- context [if ?c then _ else _] => destruct c eqn:?
         end; cbn; intros H; injection H; intros; subst; try lia; auto.
Qed.

Lemma pin_ww_success_shape (pe : pin_env) (vm : address_space) (v : vma)
    (size alignment flags : Z) (vm' : address_space) (v' : vma)
    (H : i915_vma_pin_ww pe vm v size alignment flags = (0, vm', v')) :
  (vm' = vm /\ vnode v' = vnode v /\ vpages_count v' = vpages_count v /\
   Z.land (vflags v) (Z.land flags I915_VMA_BIND_MASK) = Z.land flags I915_VMA_BIND_MASK /\
   vflags v' = (if Z.land flags PIN_VALIDATE =? 0 then vflags v + 1 else vflags v) /\
   (Z.land flags PIN_VALIDATE = 0 ->
    Z.land (vflags v) I915_VMA_ERROR = 0 /\
    Z.land (vflags v) I915_VMA_PIN_MASK <> I915_VMA_PIN_MASK))
  \/
  (Z.land (vflags v) I915_VMA_ERROR = 0 /\
   Z.land (vflags v) I915_VMA_PIN_MASK <> I915_VMA_PIN_MASK /\
   Z.land (Z.land flags (Z.lnot (vflags v))) I915_VMA_BIND_MASK <> 0 /\
   exists w,
     ((Z.land (vflags v) I915_VMA_BIND_MASK = 0 /\
       exists u, i915_vma_insert vm (set_pages_count v (vpages_count v + 1)) size alignment flags
                   = (0, vm', u) /\
                 w = (if vm_is_ggtt vm' then __i915_vma_set_map_and_fenceable vm' u else u)) \/
      (Z.land (vflags v) I915_VMA_BIND_MASK <> 0 /\ vm' = vm /\
       vflags w = vflags v /\ vnode w = vnode v)) /\
     vnode v' = vnode w /\
     Z.land (vflags w) (Z.lnot I915_VMA_CAN_FENCE) = Z.land (vflags v) (Z.lnot I915_VMA_CAN_FENCE) /\
     vpages_count v' = vpages_count v + I915_VMA_PAGES_ACTIVE /\
     vflags v' =
       (if Z.land flags PIN_VALIDATE =? 0
        then Z.lor (vflags w) (Z.land (Z.land flags I915_VMA_BIND_MASK)
                                 (Z.lnot (Z.land (vflags w) I915_VMA_BIND_MASK))) + 1
        else Z.lor (vflags w) (Z.land (Z.land flags I915_VMA_BIND_MASK)
                                 (Z.lnot (Z.land (vflags w) I915_VMA_BIND_MASK))))).
Proof.
  unfold i915_vma_pin_ww in H.
  destruct (try_qad_pin v flags) as [w|] eqn:Hq.
  { injection H as <- <-. left. unfold try_qad_pin in Hq.
    destruct (Z.eqb_spec (Z.land flags PIN_VALIDATE) 0) as [Hv|Hv]; cbn [negb] in Hq.
    - destruct (Z.eqb_spec (Z.land (Z.land flags I915_VMA_BIND_MASK) (Z.lnot (vflags v))) 0)
        as [Hb|Hb]; cbn [negb] in Hq; [|discriminate].
      destruct (Z.eqb_spec (Z.land (vflags v) (Z.lor I915_VMA_OVERFLOW I915_VMA_ERROR)) 0)
        as [Ho|Ho]; cbn [negb] in Hq; [|discriminate].
      injection Hq as <-. cbn [vflags vnode vpages_count set_vflags].
      assert (Hoe : Z.land (vflags v) I915_VMA_OVERFLOW = 0 /\ Z.land (vflags v) I915_VMA_ERROR = 0).
      { rewrite Z.land_lor_distr_r in Ho. apply Z.lor_eq_0_iff in Ho. exact Ho. }
      refine (conj eq_refl (conj eq_refl (conj eq_refl (conj _ (conj _ _))))).
      + apply bind_bits_from_lnot; exact Hb.
      + try rewrite Hv; reflexivity.
      + intros _; split; [tauto|apply overflow_clear_no_wrap; tauto].
    - destruct (Z.eqb_spec (Z.land (Z.land flags I915_VMA_BIND_MASK) (vflags v))
                  (Z.land flags I915_VMA_BIND_MASK)) as [Hb|Hb]; [|discriminate].
      injection Hq as <-.
      refine (conj eq_refl (conj eq_refl (conj eq_refl (conj _ (conj _ _))))).
      + rewrite Z.land_comm; exact Hb.
      + reflexivity.
      + intros; contradiction. }
  destruct (i915_vma_get_pages pe v) as [e1 v1] eqn:Hg.
  apply get_pages_spec in Hg as [Hg1 Hg2].
  cbv beta iota zeta in H.
  destruct (Z.eqb_spec e1 0) as [He1|He1].
  2: { cbv delta [negb] iota in H; injection H; intros; contradiction. }
  specialize (Hg2 He1); subst e1 v1; cbv delta [negb] iota in H.
  destruct (Z.eqb_spec (Z.land flags PIN_VALIDATE) 0) as [Hv|Hv].
  all: step_H H.
  all: injection H; intros; subst vm' v'.
  all: repeat match goal with
       | E : (if ?c then _ else _) = _ |- _ => destruct c eqn:?; try discriminate E
       | E : (_ =? _) = true |- _ => apply Z.eqb_eq in E
       | E : (_ =? _) = false |- _ => apply Z.eqb_neq in E
       end.
  all: subst; try contradiction; try discriminate.
  all: try (unfold ENOMEM, EAGAIN, ENOENT in *; lia).
  all: cbn [vflags vnode vpages_count set_pages_count i915_vma_put_pages __i915_vma_pin
            set_vflags set_vnode] in *.
  all: try (left; refine (conj eq_refl (conj eq_refl (conj _ (conj _ (conj _ _)))));
            [lia | apply bind_bits_from_lnot'; assumption | lia
            | intros; split; [assumption | apply pin_wrap_check; assumption]]).
  all: match goal with
       | Hb : i915_vma_bind _ _ _ _ _ _ = (0, _) |- _ =>
           apply bind_success in Hb as (Hbf & Hbn & Hbp)
       end.
  all: match goal with
       | Hbf : vflags ?v1 = Z.lor (vflags ?w) _ |- _ =>
           assert (Hw : Z.land (vflags w) (Z.lnot I915_VMA_CAN_FENCE) =
                          Z.land (vflags v) (Z.lnot I915_VMA_CAN_FENCE) /\
                        vpages_count w = vpages_count v + 1)
       end.
  all: try (split; reflexivity).
  all: try (match goal with
            | Hi : i915_vma_insert _ _ _ _ _ = (0, _, ?u) |-
                Z.land (vflags ?w) _ = _ /\ _ =>
                let Hs := fresh "Hs" in
                pose proof (vma_insert_success _ _ _ _ _ _ _ Hi) as (? & ? & _ & Hs & _);
                first [ destruct (map_and_fenceable_obs a u) as (Hm1 & _ & Hm3 & _);
                        rewrite Hm1, Hm3 | idtac ];
                rewrite Hs; split; reflexivity
            end).
  all: match goal with
       | Hbf : vflags ?v1 = Z.lor (vflags ?w) _, Hw : _ /\ _,
         Hreq : Z.land (Z.land ?fl (Z.lnot (vflags ?v0))) I915_VMA_BIND_MASK <> 0,
         Hwrap : Z.land (vflags ?v0 + 1) I915_VMA_PIN_MASK <> 0 |- _ =>
           assert (HB1 : Z.land (vflags v1) I915_VMA_BIND_MASK <> 0)
             by (rewrite Hbf; apply land_bind_nonzero;
                 rewrite (request_same_bind fl (vflags w) (vflags v0));
                 [exact Hreq | apply same_but_cf; [exact (proj1 Hw) | reflexivity]]);
           assert (Hlow : Z.land (vflags v1) I915_VMA_PIN_MASK <> I915_VMA_PIN_MASK)
             by (rewrite Hbf, land_lor_other by (apply bind_request_outside; reflexivity);
                 rewrite (same_but_cf (vflags w) (vflags v0)) by (exact (proj1 Hw) || reflexivity);
                 apply pin_wrap_check; exact Hwrap)
       end.
  all: try (exfalso; match goal with
       | Hnb : i915_vma_is_bound _ I915_VMA_BIND_MASK = false |- _ =>
           unfold i915_vma_is_bound in Hnb;
           cbn [vflags __i915_vma_pin set_pages_count set_vflags] in Hnb;
           apply negb_false_iff, Z.eqb_eq in Hnb;
           first [ rewrite pin_no_carry_high in Hnb by (assumption || reflexivity) | idtac ];
           contradiction
       end).
  all: right.
  all: match goal with Hbf : vflags ?v1 = Z.lor (vflags ?w) _ |- _ =>
         split; [assumption | split; [apply pin_wrap_check; assumption |
           split; [assumption | exists w; split; [| split; [| split; [| split]]]]]]
       end.
  all: try (left; split; [assumption | eexists; split; [reflexivity |
              first [ match goal with E : vm_is_ggtt _ = _ |- _ => rewrite E end | idtac ];
              reflexivity]]).
  all: try (right; cbn [vflags vnode set_pages_count];
            repeat match goal with |- _ /\ _ => split end; first [assumption | reflexivity]).
  all: try (match goal with Hbn : vnode ?v1 = vnode ?w |- vnode ?v1 = vnode ?w => exact Hbn end).
  all: try (match goal with Hw : _ /\ _ |- Z.land (vflags _) (Z.lnot _) = _ => exact (proj1 Hw) end).
  all: try (match goal with Hbp : vpages_count _ = vpages_count _, Hw : _ /\ _ |- _ =>
              destruct Hw as [_ Hw2]; lia end).
Qed.

Lemma bind_req_pin (f : Z) : Z.land (Z.land f I915_VMA_BIND_MASK) I915_VMA_PIN_MASK = 0.
Proof. rewrite <- Z.land_assoc; change (Z.land I915_VMA_BIND_MASK I915_VMA_PIN_MASK) with 0;
  apply Z.land_0_r. Qed.

Lemma lor_request_low (x y f : Z) :
  Z.land x (Z.lnot I915_VMA_CAN_FENCE) = Z.land y (Z.lnot I915_VMA_CAN_FENCE) ->
  Z.land (Z.lor x (Z.land (Z.land f I915_VMA_BIND_MASK) (Z.lnot (Z.land x I915_VMA_BIND_MASK))))
    I915_VMA_PIN_MASK = Z.land y I915_VMA_PIN_MASK.
Proof.
  intros H. rewrite land_lor_other by (apply bind_request_outside; reflexivity).
  apply same_but_cf; [exact H | reflexivity].
Qed.

(** On success, [i915_vma_pin_ww] leaves every requested bind bit set and
    raises the pin count by exactly one (it never wraps it), or leaves it
    unchanged with [PIN_VALIDATE]. *)
Theorem i915_vma_pin_ww_success_bits (pe : pin_env) (vm : address_space) (v : vma)
    (size alignment flags : Z) (vm' : address_space) (v' : vma)
    (H : i915_vma_pin_ww pe vm v size alignment flags = (0, vm', v')) :
  Z.land (vflags v') (Z.land flags I915_VMA_BIND_MASK) = Z.land flags I915_VMA_BIND_MASK /\
  Z.land (vflags v') I915_VMA_PIN_MASK =
    (if Z.land flags PIN_VALIDATE =? 0 then Z.land (vflags v) I915_VMA_PIN_MASK + 1
     else Z.land (vflags v) I915_VMA_PIN_MASK).
Proof.
  destruct (pin_ww_success_shape _ _ _ _ _ _ _ _ H) as
    [(_ & _ & _ & Hb & Hf & Hval) | (_ & Hlow & _ & w & _ & _ & Hcf & _ & Hf)];
    rewrite Hf; destruct (Z.eqb_spec (Z.land flags PIN_VALIDATE) 0) as [Hv|Hv].
  - destruct (Hval Hv) as [_ Hl]. split.
    + rewrite pin_no_carry_high by (exact Hl || apply bind_req_pin). exact Hb.
    + apply pin_no_carry_low; exact Hl.
  - split; [exact Hb | reflexivity].
  - assert (Hl : Z.land (Z.lor (vflags w) (Z.land (Z.land flags I915_VMA_BIND_MASK)
                   (Z.lnot (Z.land (vflags w) I915_VMA_BIND_MASK)))) I915_VMA_PIN_MASK
                 <> I915_VMA_PIN_MASK) by (rewrite (lor_request_low _ (vflags v)) by exact Hcf; exact Hlow).
    split.
    + rewrite pin_no_carry_high by (exact Hl || apply bind_req_pin). apply land_bind_request.
    + rewrite pin_no_carry_low by exact Hl. rewrite (lor_request_low _ (vflags v)) by exact Hcf; reflexivity.
  - split; [apply land_bind_request | apply (lor_request_low _ (vflags v)); exact Hcf].
Qed.

Lemma i915_vma_pin_ww_success_bits_witness :
  let r := i915_vma_pin_ww pin_env_ok ggtt_col (vma1 0 None 0) 0 0 PIN_GLOBAL in
  fst (fst r) = 0 /\
  Z.land (vflags (snd r)) (Z.land PIN_GLOBAL I915_VMA_BIND_MASK) = Z.land PIN_GLOBAL I915_VMA_BIND_MASK /\
  Z.land (vflags (snd r)) I915_VMA_PIN_MASK = 1.
Proof.
  intros r.
  assert (E : fst (fst r) = 0) by (vm_compute; reflexivity).
  destruct r as [[e vm'] v'] eqn:Hr. cbn [fst snd] in *. subst e.
  destruct (i915_vma_pin_ww_success_bits _ _ _ _ _ _ _ _ Hr) as [H1 H2].
  split; [reflexivity | split; [exact H1 | rewrite H2; reflexivity]].
Defined.

Lemma pinned_flags_other (x f m : Z) (c : bool) :
  Z.land x I915_VMA_PIN_MASK <> I915_VMA_PIN_MASK ->
  Z.land I915_VMA_BIND_MASK m = 0 -> Z.land m I915_VMA_PIN_MASK = 0 ->
  let y := Z.lor x (Z.land (Z.land f I915_VMA_BIND_MASK) (Z.lnot (Z.land x I915_VMA_BIND_MASK))) in
  Z.land (if c then y + 1 else y) m = Z.land x m.
Proof.
  intros Hl Hb Hm y.
  assert (Hy : Z.land y m = Z.land x m)
    by (apply land_lor_other, bind_request_outside; exact Hb).
  destruct c; [|exact Hy].
  rewrite pin_no_carry_high; [exact Hy | | exact Hm].
  unfold y; rewrite land_lor_other by (apply bind_request_outside; reflexivity); exact Hl.
Qed.

Lemma set_map_and_fenceable_can_fence (vm : address_space) (u : vma) (n : drm_mm_node) :
  vnode u = Some n -> vfence_size u <= n_size n ->
  IS_ALIGNED (n_start n) (vfence_alignment u) = true ->
  n_end n <= vm_mappable_end vm ->
  Z.land (vflags (__i915_vma_set_map_and_fenceable vm u)) I915_VMA_CAN_FENCE <> 0.
Proof.
  intros Hn Hs Ha He. unfold __i915_vma_set_map_and_fenceable. rewrite Hn, Ha.
  unfold n_end in He.
  replace (n_size n >=? vfence_size u) with true by (symmetry; apply Z.geb_le; lia).
  replace (n_start n + vfence_size u <=? vm_mappable_end vm) with true
    by (symmetry; apply Z.leb_le; lia).
  cbn [andb vflags set_vflags]. rewrite land_lor_self. discriminate.
Qed.

(** A successful [i915_vma_pin_ww] of a VMA without a node leaves it placed
    as [i915_vma_misplaced] requires: the node it inserts is large and
    aligned enough, honours the bias and fixed offset, the VMA carries no
    error and, for [PIN_MAPPABLE] in the GGTT, it is map-and-fenceable. *)
Theorem i915_vma_pin_ww_not_misplaced (pe : pin_env) (vm : address_space) (v : vma)
    (size alignment flags : Z) (vm' : address_space) (v' : vma)
    (Hn : vnode v = None)
    (Hal : alignment = 0 \/ is_power_of_2 alignment = true)
    (Hd : is_power_of_2 (vdisplay_alignment v) = true)
    (Hm : Z.land flags PIN_MAPPABLE <> 0 ->
          vm_is_ggtt vm = true /\ is_power_of_2 (vfence_alignment v) = true)
    (H : i915_vma_pin_ww pe vm v size alignment flags = (0, vm', v')) :
  i915_vma_misplaced v' size alignment flags = false.
Proof.
  unfold i915_vma_misplaced.
  destruct (pin_ww_success_shape _ _ _ _ _ _ _ _ H) as
    [(_ & Hn' & _) | (Herr & Hlow & _ & w & Hcase & Hn' & Hcf & _ & Hf)].
  { rewrite Hn', Hn; reflexivity. }
  destruct Hcase as [(_ & u & Hi & Hw) | (_ & _ & _ & Hwn)].
  2: { rewrite Hn', Hwn, Hn; reflexivity. }
  destruct (vma_insert_node_props _ (set_pages_count v (vpages_count v + 1)) _ _ _ _ _ Hal Hd (fun Hm' => proj2 (Hm Hm')) Hi)
    as (node & Hu & Hsz & Hfs & _ & Hme & _ & Hbias & Hfix & Hal1 & _ & Hfa).
  destruct (vma_insert_success _ _ _ _ _ _ _ Hi) as (k & node' & Hvm' & _).
  assert (Hwn : vnode w = Some node).
  { rewrite Hw; destruct (vm_is_ggtt vm');
      [destruct (map_and_fenceable_obs vm' u) as (_ & Hx & _); rewrite Hx|]; rewrite Hu; reflexivity. }
  rewrite Hn', Hwn.
  assert (Hlw : Z.land (vflags w) I915_VMA_PIN_MASK <> I915_VMA_PIN_MASK)
    by (rewrite (same_but_cf _ (vflags v)) by (exact Hcf || reflexivity); exact Hlow).
  assert (Hfl : forall m, Z.land I915_VMA_BIND_MASK m = 0 -> Z.land m I915_VMA_PIN_MASK = 0 ->
                  Z.land (vflags v') m = Z.land (vflags w) m).
  { intros m Hbm Hpm. rewrite Hf.
    exact (pinned_flags_other (vflags w) flags m (Z.land flags PIN_VALIDATE =? 0) Hlw Hbm Hpm). }
  rewrite Hfl by reflexivity.
  rewrite (same_but_cf _ (vflags v)) by (exact Hcf || reflexivity). rewrite Herr.
  cbn [negb Z.eqb].
  replace (n_size node <? size) with false by (symmetry; apply Z.ltb_ge; lia).
  assert (Hmf : Z.land flags PIN_MAPPABLE <> 0 -> i915_vma_is_map_and_fenceable v' = true).
  { intros Hmp. unfold i915_vma_is_map_and_fenceable. rewrite Hfl by reflexivity.
    destruct (Hm Hmp) as [Hg _].
    assert (Hg' : vm_is_ggtt vm' = true) by (rewrite Hvm'; exact Hg).
    rewrite Hw, Hg'.
    destruct (Z.eqb_spec (Z.land (vflags (__i915_vma_set_map_and_fenceable vm' u))
                I915_VMA_CAN_FENCE) 0) as [E|E]; [|reflexivity].
    exfalso; revert E; apply (set_map_and_fenceable_can_fence vm' u node).
    - rewrite Hu; reflexivity.
    - rewrite Hu; exact (Hfs Hmp).
    - rewrite Hu; exact (Hfa Hmp).
    - rewrite Hvm'; exact (Hme Hmp). }
  destruct (Z.eqb_spec alignment 0) as [Ha|Ha];
    [|rewrite (Hal1 Ha)]; cbn [negb andb].
  all: destruct (Z.eqb_spec (Z.land flags PIN_MAPPABLE) 0) as [Hmp|Hmp];
    [|rewrite (Hmf Hmp)]; cbn [negb andb].
  all: destruct (Z.eqb_spec (Z.land flags PIN_OFFSET_BIAS) 0) as [Hb0|Hb0]; cbn [negb andb];
    [|replace (n_start node <? Z.land flags PIN_OFFSET_MASK) with false
        by (symmetry; apply Z.ltb_ge; exact (Hbias Hb0))];
    destruct (Z.eqb_spec (Z.land flags PIN_OFFSET_FIXED) 0) as [Hf0|Hf0]; cbn [negb andb];
    [reflexivity | rewrite (Hfix Hf0), Z.eqb_refl; reflexivity
    |reflexivity | rewrite (Hfix Hf0), Z.eqb_refl; reflexivity].
Qed.

Lemma i915_vma_pin_ww_not_misplaced_witness :
  let r := i915_vma_pin_ww pin_env_ok ggtt_col (vma1 0 None 0) 0 4096 (Z.lor PIN_GLOBAL PIN_MAPPABLE) in
  fst (fst r) = 0 /\ i915_vma_misplaced (snd r) 0 4096 (Z.lor PIN_GLOBAL PIN_MAPPABLE) = false.
Proof.
  intros r.
  assert (E : fst (fst r) = 0) by (vm_compute; reflexivity).
  destruct r as [[e vm'] v'] eqn:Hr. cbn [fst snd] in *. subst e.
  split; [reflexivity|].
  apply (i915_vma_pin_ww_not_misplaced pin_env_ok ggtt_col (vma1 0 None 0) 0 4096
           (Z.lor PIN_GLOBAL PIN_MAPPABLE) vm' v' eq_refl
           (or_intror eq_refl) eq_refl (fun _ => conj eq_refl eq_refl) Hr).
Defined.

(** A VMA marked [I915_VMA_ERROR] is never pinned: [i915_vma_pin_ww] only
    succeeds on it with [PIN_VALIDATE], through [try_qad_pin], and then
    leaves the VMA and the address space untouched. *)
Theorem i915_vma_pin_ww_error_vma (pe : pin_env) (vm : address_space) (v : vma)
    (size alignment flags : Z) (vm' : address_space) (v' : vma)
    (Herr : Z.land (vflags v) I915_VMA_ERROR <> 0)
    (H : i915_vma_pin_ww pe vm v size alignment flags = (0, vm', v')) :
  Z.land flags PIN_VALIDATE <> 0 /\ vm' = vm /\ v' = v.
Proof.
  unfold i915_vma_pin_ww in H.
  destruct (try_qad_pin v flags) as [w|] eqn:Hq.
  { injection H as <- <-. unfold try_qad_pin in Hq.
    destruct (Z.eqb_spec (Z.land flags PIN_VALIDATE) 0) as [Hv|Hv]; cbn [negb] in Hq.
    - exfalso.
      destruct (Z.eqb_spec (Z.land (vflags v) (Z.lor I915_VMA_OVERFLOW I915_VMA_ERROR)) 0)
        as [Ho|Ho]; cbn [negb] in Hq;
        [|destruct (_ =? _); discriminate].
      rewrite Z.land_lor_distr_r in Ho. apply Z.lor_eq_0_iff in Ho. tauto.
    - destruct (_ =? _); [injection Hq as <-|discriminate]. auto. }
  exfalso.
  destruct (i915_vma_get_pages pe v) as [e1 v1] eqn:Hg. apply get_pages_spec in Hg as [Hg1 Hg2].
  cbv beta iota zeta in H.
  destruct (Z.eqb_spec e1 0) as [He1|He1].
  2: { cbv delta [negb] iota in H; injection H; intros; contradiction. }
  specialize (Hg2 He1); subst e1 v1.
  step_H H.
  all: repeat match goal with
       | E : (if ?c then _ else _) = _ |- _ => destruct c eqn:?; try discriminate E
       | E : (_ =? _) = true |- _ => apply Z.eqb_eq in E
       | E : (_ =? _) = false |- _ => apply Z.eqb_neq in E end.
  all: try (injection H; intros; unfold ENOMEM, EAGAIN, ENOENT in *; lia).
  all: cbn [vflags set_pages_count] in *; try contradiction; try congruence.
Qed.

Lemma i915_vma_pin_ww_error_vma_witness :
  let r := i915_vma_pin_ww pin_env_ok ggtt_col (vma1 I915_VMA_ERROR None 0) 0 0 PIN_VALIDATE in
  fst (fst r) = 0 /\ snd (fst r) = ggtt_col /\ snd r = vma1 I915_VMA_ERROR None 0.
Proof.
  intros r.
  assert (E : fst (fst r) = 0) by (vm_compute; reflexivity).
  destruct r as [[e vm'] v'] eqn:Hr. cbn [fst snd] in *. subst e.
  destruct (i915_vma_pin_ww_error_vma pin_env_ok ggtt_col (vma1 I915_VMA_ERROR None 0) 0 0
              PIN_VALIDATE vm' v' ltac:(vm_compute; discriminate) Hr) as (_ & H1 & H2).
  split; [reflexivity | split; assumption].
Defined.
Lemma lor_shiftl_small (a c n : Z) : 0 <= n -> 0 <= a < 2 ^ n -> 0 <= c ->
  Z.lor a (Z.shiftl c n) = a + c * 2 ^ n.
Proof.
  intros Hn Ha Hc.
  assert (Hl : Z.land a (Z.shiftl c n) = 0).
  { apply Z.bits_inj'; intros i Hi. rewrite Z.land_spec, Z.bits_0.
    destruct (Z.lt_ge_cases i n).
    - rewrite Z.shiftl_spec_low by lia. apply andb_false_r.
    - destruct (Z.eq_dec a 0) as [->|Ha0]; [rewrite Z.bits_0; reflexivity|].
      rewrite Z.bits_above_log2; [reflexivity | lia |].
      assert (Z.log2 a < n) by (apply Z.log2_lt_pow2; lia); lia. }
  rewrite <- Z.lxor_lor by exact Hl.
  rewrite <- Z.add_nocarry_lxor by exact Hl.
  rewrite Z.shiftl_mul_pow2 by lia. reflexivity.
Qed.

Lemma evict_spec (v : vma) :
  vnode (__i915_vma_evict v) = vnode v /\ vresource (__i915_vma_evict v) = None /\
  vma_id (__i915_vma_evict v) = vma_id v /\
  vflags (__i915_vma_evict v) =
    Z.land (vflags v) (Z.lnot (Z.lor I915_VMA_CAN_FENCE
      (Z.lor I915_VMA_BIND_MASK (Z.lor I915_VMA_ERROR I915_VMA_GGTT_WRITE)))).
Proof.
  unfold __i915_vma_evict, i915_vma_is_bound.
  destruct (Z.eqb_spec (Z.land (vflags v) I915_VMA_CAN_FENCE) 0) as [E|E];
    cbn [negb vnode vresource vma_id vflags set_vflags set_resource set_pages_count];
    (split; [reflexivity | split; [reflexivity | split; [reflexivity |]]]);
    apply Z.bits_inj'; intros i Hi;
    rewrite ?Z.land_spec, ?Z.lnot_spec, ?Z.lor_spec by exact Hi.
  - assert (Hb := f_equal (fun z => Z.testbit z i) E); cbn beta in Hb.
    rewrite Z.land_spec, Z.bits_0 in Hb.
    destruct (Z.testbit (vflags v) i), (Z.testbit I915_VMA_CAN_FENCE i); simpl in *;
      congruence || reflexivity.
  - destruct (Z.testbit (vflags v) i), (Z.testbit I915_VMA_CAN_FENCE i); reflexivity.
Qed.

(** [__i915_vma_evict] drops exactly the references its bindings hold on
    the pages: with [b] bindings (each counted as [I915_VMA_PAGES_ACTIVE])
    and [p] other references, [p] references are left. *)
Theorem __i915_vma_evict_pages_count (v : vma) (b p : Z)
    (Hb : 0 <= b) (Hp : 0 <= p) (Hbp : b + p < 2 ^ I915_VMA_PAGES_BIAS)
    (Hc : vpages_count v = b * I915_VMA_PAGES_ACTIVE + p) :
  vpages_count (__i915_vma_evict v) = p.
Proof.
  assert (Hcf : vpages_count (if i915_vma_is_bound v I915_VMA_CAN_FENCE
                 then set_vflags v (Z.land (vflags v) (Z.lnot I915_VMA_CAN_FENCE)) else v)
                = vpages_count v) by (destruct (i915_vma_is_bound _ _); reflexivity).
  unfold __i915_vma_evict. cbn [vpages_count set_pages_count set_vflags set_resource].
  rewrite Hcf, Hc. change I915_VMA_PAGES_ACTIVE with (2 ^ 24 + 1) in *.
  change I915_VMA_PAGES_BIAS with 24 in *.
  assert (Hs : Z.shiftr (b * (2 ^ 24 + 1) + p) 24 = b).
  { rewrite Z.shiftr_div_pow2 by lia. symmetry.
    apply (Z.div_unique _ _ _ (b + p)); [lia | ring]. }
  rewrite Hs, lor_shiftl_small by lia. ring.
Qed.

Lemma __i915_vma_evict_pages_count_witness :
  vpages_count (__i915_vma_evict (vma1 I915_VMA_GLOBAL_BIND (Some node1)
                                   (2 * I915_VMA_PAGES_ACTIVE + 3))) = 3.
Proof.
  apply (__i915_vma_evict_pages_count _ 2 3); [lia | lia | vm_compute; reflexivity | reflexivity].
Defined.

(** A successful [i915_vma_unbind] of a VMA with a node: the VMA was not
    pinned, its node is removed from the address space, it is left without
    node or resource, and the bind, error, GGTT-write and can-fence bits
    are cleared while all its other flags are kept. *)
Theorem i915_vma_unbind_success (ue : unbind_env) (vm : address_space) (v : vma)
    (vm' : address_space) (v' : vma)
    (Ha : drm_mm_node_allocated v = true)
    (H : i915_vma_unbind ue vm v = (0, vm', v')) :
  Z.land (vflags v) I915_VMA_PIN_MASK = 0 /\
  vm' = drm_mm_remove_node vm (vma_id v) /\ vnode v' = None /\ vresource v' = None /\
  vflags v' = Z.land (vflags v) (Z.lnot (Z.lor I915_VMA_CAN_FENCE
                (Z.lor I915_VMA_BIND_MASK (Z.lor I915_VMA_ERROR I915_VMA_GGTT_WRITE)))).
Proof.
  unfold i915_vma_unbind, __i915_vma_unbind, i915_vma_is_pinned, i915_vma_remove in H.
  rewrite Ha in H. cbn [negb] in H.
  destruct (Z.eqb_spec (ue_sync_ret ue) 0); cbn [negb] in H;
    [|injection H; intros; contradiction].
  destruct (Z.eqb_spec (Z.land (vflags v) I915_VMA_PIN_MASK) 0) as [Hp|Hp]; cbn [negb] in H;
    [|injection H; intros; unfold EAGAIN in *; lia].
  destruct (Z.eqb_spec (ue_mutex_ret ue) 0); cbn [negb] in H;
    [|injection H; intros; contradiction].
  destruct (Z.eqb_spec (ue_sync_locked_ret ue) 0); cbn [negb] in H;
    [|injection H; intros; contradiction].
  injection H as <- <-. destruct (evict_spec v) as (_ & Hr & _ & Hf).
  split; [exact Hp|]; split;
    [f_equal; destruct (i915_vma_is_bound v I915_VMA_CAN_FENCE); reflexivity|].
  cbn [vnode vresource vflags set_vnode]. split; [reflexivity | split; [exact Hr | exact Hf]].
Qed.

Lemma i915_vma_unbind_success_witness :
  let v := vma1 (Z.lor I915_VMA_GLOBAL_BIND I915_VMA_CAN_FENCE) (Some node1) (I915_VMA_PAGES_ACTIVE + 1) in
  i915_vma_unbind (unbind_env_ok 0) ggtt_col_bound v =
    (0, ggtt_col, set_vnode (__i915_vma_evict v) None) /\
  vflags (snd (i915_vma_unbind (unbind_env_ok 0) ggtt_col_bound v)) = 0.
Proof.
  intros v.
  assert (E : i915_vma_unbind (unbind_env_ok 0) ggtt_col_bound v =
              (0, ggtt_col, set_vnode (__i915_vma_evict v) None)) by (vm_compute; reflexivity).
  split; [exact E|].
  destruct (i915_vma_unbind_success (unbind_env_ok 0) ggtt_col_bound v _ _ eq_refl E)
    as (_ & _ & _ & _ & Hf).
  rewrite E; cbn [snd]; rewrite Hf; vm_compute; reflexivity.
Defined.

(** The same for [i915_vma_unbind_async]: on success with a node, the VMA
    was not pinned, its node is removed, and it is left without node or
    resource, with only the bind, error, GGTT-write and can-fence bits
    cleared. *)
Theorem i915_vma_unbind_async_success (ue : unbind_env) (trylock_vm : bool)
    (vm : address_space) (v : vma) (vm' : address_space) (v' : vma)
    (Ha : drm_mm_node_allocated v = true)
    (H : i915_vma_unbind_async ue trylock_vm vm v = (0, vm', v')) :
  Z.land (vflags v) I915_VMA_PIN_MASK = 0 /\
  vm' = drm_mm_remove_node vm (vma_id v) /\ vnode v' = None /\ vresource v' = None /\
  vflags v' = Z.land (vflags v) (Z.lnot (Z.lor I915_VMA_CAN_FENCE
                (Z.lor I915_VMA_BIND_MASK (Z.lor I915_VMA_ERROR I915_VMA_GGTT_WRITE)))).
Proof.
  unfold i915_vma_unbind_async, __i915_vma_unbind_async, i915_vma_is_pinned,
    i915_vma_remove in H.
  rewrite Ha in H. cbn [negb] in H.
  destruct (Z.eqb_spec (Z.land (vflags v) I915_VMA_PIN_MASK) 0) as [Hp|Hp]; cbn [negb orb] in H;
    [|injection H; intros; unfold EAGAIN in *; lia].
  destruct trylock_vm, (ue_trylock_ok ue), (Z.eqb_spec (ue_mutex_ret ue) 0);
    cbn [negb andb] in H.
  all: repeat match type of H with
         | context [if ?c then _ else _] => destruct c; cbn [negb andb orb] in H
         end.
  all: try (injection H; intros; unfold EAGAIN, EBUSY in *; lia).
  all: try (injection H; intros; subst; match goal with E : (_ =? 0) = false |- _ =>
              apply Z.eqb_neq in E; contradiction end).
  all: injection H as <- <-; destruct (evict_spec v) as (_ & Hr & _ & Hf);
    split; [exact Hp|]; split;
    [f_equal; destruct (i915_vma_is_bound v I915_VMA_CAN_FENCE); reflexivity|];
    cbn [vnode vresource vflags set_vnode]; split; [reflexivity | split; [exact Hr | exact Hf]].
Qed.

Lemma i915_vma_unbind_async_success_witness :
  let v := vma1 (Z.lor I915_VMA_GLOBAL_BIND I915_VMA_CAN_FENCE) (Some node1) (I915_VMA_PAGES_ACTIVE + 1) in
  i915_vma_unbind_async (unbind_env_ok 0) true ggtt_col_bound v =
    (0, ggtt_col, set_vnode (__i915_vma_evict v) None) /\
  vflags (snd (i915_vma_unbind_async (unbind_env_ok 0) true ggtt_col_bound v)) = 0.
Proof.
  intros v.
  assert (E : i915_vma_unbind_async (unbind_env_ok 0) true ggtt_col_bound v =
              (0, ggtt_col, set_vnode (__i915_vma_evict v) None)) by (vm_compute; reflexivity).
  split; [exact E|].
  destruct (i915_vma_unbind_async_success (unbind_env_ok 0) true ggtt_col_bound v _ _ eq_refl E)
    as (_ & _ & _ & _ & Hf).
  rewrite E; cbn [snd]; rewrite Hf; vm_compute; reflexivity.
Defined.

(** A successful [i915_vma_insert] places the VMA on a node that meets all
    its constraints: at least [size] and the VMA size (and the fence size
    for [PIN_MAPPABLE]) long, inside the address space, below the mappable
    end for [PIN_MAPPABLE] and below 4 GiB minus a page for [PIN_ZONE_4G],
    at or above the bias, at the fixed offset, and aligned to [alignment],
    the display alignment and (for [PIN_MAPPABLE]) the fence alignment. *)
Theorem i915_vma_insert_placement (vm : address_space) (v : vma) (size alignment flags : Z)
    (vm' : address_space) (v' : vma)
    (Hal : alignment = 0 \/ is_power_of_2 alignment = true)
    (Hd : is_power_of_2 (vdisplay_alignment v) = true)
    (Hf : Z.land flags PIN_MAPPABLE <> 0 -> is_power_of_2 (vfence_alignment v) = true)
    (H : i915_vma_insert vm v size alignment flags = (0, vm', v')) :
  exists node, v' = set_vnode v (Some node) /\
    Z.max size (vsize v) <= n_size node /\
    (Z.land flags PIN_MAPPABLE <> 0 -> vfence_size v <= n_size node) /\
    n_end node <= vm_total vm /\
    (Z.land flags PIN_MAPPABLE <> 0 -> n_end node <= vm_mappable_end vm) /\
    (Z.land flags PIN_ZONE_4G <> 0 -> n_end node <= 2 ^ 32 - I915_GTT_PAGE_SIZE) /\
    (Z.land flags PIN_OFFSET_BIAS <> 0 -> Z.land flags PIN_OFFSET_MASK <= n_start node) /\
    (Z.land flags PIN_OFFSET_FIXED <> 0 -> n_start node = Z.land flags PIN_OFFSET_MASK) /\
    (alignment <> 0 -> IS_ALIGNED (n_start node) alignment = true) /\
    IS_ALIGNED (n_start node) (vdisplay_alignment v) = true /\
    (Z.land flags PIN_MAPPABLE <> 0 -> IS_ALIGNED (n_start node) (vfence_alignment v) = true).
Proof. exact (vma_insert_node_props vm v size alignment flags vm' v' Hal Hd Hf H). Qed.

Lemma i915_vma_insert_placement_witness :
  let r := i915_vma_insert ggtt_col (vma1 0 None 1) 0 65536 (Z.lor PIN_GLOBAL PIN_MAPPABLE) in
  fst (fst r) = 0 /\
  exists node, snd r = set_vnode (vma1 0 None 1) (Some node) /\
    IS_ALIGNED (n_start node) 65536 = true /\ n_end node <= vm_mappable_end ggtt_col.
Proof.
  intros r.
  assert (E : fst (fst r) = 0) by (vm_compute; reflexivity).
  destruct r as [[e vm'] v'] eqn:Hr. cbn [fst snd] in *. subst e.
  destruct (i915_vma_insert_placement ggtt_col (vma1 0 None 1) 0 65536
              (Z.lor PIN_GLOBAL PIN_MAPPABLE) vm' v' (or_intror eq_refl) eq_refl
              (fun _ => eq_refl) Hr)
    as (node & Hv & _ & _ & _ & Hme & _ & _ & _ & Hal & _).
  split; [reflexivity|]. exists node.
  split; [exact Hv | split; [apply Hal; discriminate | apply Hme; vm_compute; discriminate]].
Defined.
(** A successful [i915_vma_bind] leaves the VMA bound for the union of the
    bind bits it had and the ones requested, changes no other flag and no
    node, and attaches the passed resource only when there is something to
    bind and the VMA has no resource yet. *)
Theorem i915_vma_bind_success (pe : pin_env) (vm : address_space) (v w : vma) (flags : Z)
    (work : bool) (vma_res : option nat)
    (H : i915_vma_bind pe vm v flags work vma_res = (0, w)) :
  Z.land (vflags w) I915_VMA_BIND_MASK =
    Z.lor (Z.land (vflags v) I915_VMA_BIND_MASK) (Z.land flags I915_VMA_BIND_MASK) /\
  Z.land (vflags w) (Z.lnot I915_VMA_BIND_MASK) =
    Z.land (vflags v) (Z.lnot I915_VMA_BIND_MASK) /\
  vnode w = vnode v /\
  vresource w =
    (if Z.land (Z.land flags I915_VMA_BIND_MASK)
          (Z.lnot (Z.land (vflags v) I915_VMA_BIND_MASK)) =? 0
     then vresource v
     else match vresource v with Some r => Some r | None => vma_res end).
Proof.
  destruct (bind_success _ _ _ _ _ _ _ H) as (Hf & Hn & _).
  rewrite Hf. split; [|split; [|split; [exact Hn|]]].
  - apply Z.bits_inj'; intros i Hi.
    rewrite Z.land_spec, !Z.lor_spec, !Z.land_spec, Z.lnot_spec, Z.land_spec by exact Hi.
    destruct (Z.testbit (vflags v) i), (Z.testbit flags i), (Z.testbit I915_VMA_BIND_MASK i);
      reflexivity.
  - apply Z.bits_inj'; intros i Hi.
    rewrite !Z.land_spec, Z.lor_spec, !Z.land_spec, !Z.lnot_spec, Z.land_spec by exact Hi.
    destruct (Z.testbit (vflags v) i), (Z.testbit flags i), (Z.testbit I915_VMA_BIND_MASK i);
      reflexivity.
  - revert H. unfold i915_vma_bind.
    destruct (Z.land (Z.land flags I915_VMA_BIND_MASK)
                (Z.lnot (Z.land (vflags v) I915_VMA_BIND_MASK)) =? 0);
      [intros H; injection H as <-; reflexivity|].
    destruct (pe_bind_dep_ret pe =? 0) eqn:E1; cbn [negb];
      [|intros H; injection H as E2 _; apply Z.eqb_neq in E1; congruence].
    destruct (vresource v) as [r|] eqn:Er; [|destruct vma_res as [r|]];
      destruct (work && _); [| destruct (pe_wait_moving_ret pe =? 0) eqn:E3 | |
                             destruct (pe_wait_moving_ret pe =? 0) eqn:E3 | |
                             destruct (pe_wait_moving_ret pe =? 0) eqn:E3];
      cbn [negb]; intros H; injection H; intros; subst; cbn; rewrite ?Er; try reflexivity;
      apply Z.eqb_neq in E3; congruence.
Qed.

Lemma i915_vma_bind_success_witness :
  let v := vma1 0 (Some node1) 1 in
  let r := i915_vma_bind pin_env_ok ggtt_col_bound v PIN_GLOBAL false (Some 100%nat) in
  fst r = 0 /\ vresource (snd r) = Some 100%nat /\
  Z.land (vflags (snd r)) I915_VMA_BIND_MASK = I915_VMA_GLOBAL_BIND.
Proof.
  intros v r.
  assert (E : fst r = 0) by (vm_compute; reflexivity).
  destruct r as [e w] eqn:Hr. cbn [fst snd] in *. subst e.
  destruct (i915_vma_bind_success _ _ _ _ _ _ _ Hr) as (H1 & _ & _ & H4).
  split; [reflexivity | split; [rewrite H4; reflexivity | rewrite H1; reflexivity]].
Defined.
End VmaExtraFacts.

(* ------------------------------------------------------------------------- *)
(** ** Properties of [rotate_pages] *)

Module ViewPagesFacts.
Import ViewPages.

Lemma rotate_rows_length (get_dma : Z -> Z) (idx stride : Z) (rows : nat) :
  length (rotate_rows get_dma idx stride rows) = rows.
Proof.
  revert idx; induction rows as [|rows IH]; intros idx; simpl; [reflexivity|].
  rewrite IH; reflexivity.
Qed.

Lemma rotate_rows_nth (get_dma : Z -> Z) (idx stride : Z) (rows r : nat) :
  (r < rows)%nat -> 0 <= stride -> idx < 2 ^ 32 -> 0 <= idx - stride * Z.of_nat r ->
  nth_error (rotate_rows get_dma idx stride rows) r =
  Some {| sg_dma_address := get_dma (idx - stride * Z.of_nat r);
          sg_dma_len := I915_GTT_PAGE_SIZE |}.
Proof.
  revert idx r; induction rows as [|rows IH]; intros idx r Hr Hs Hi Hn; [lia|].
  destruct r as [|r]; simpl.
  - rewrite Z.mul_0_r, Z.sub_0_r; reflexivity.
  - assert (Hu : u32 (idx - stride) = idx - stride)
      by (unfold u32; apply Z.mod_small; nia).
    rewrite Hu, IH by nia. do 3 f_equal. lia.
Qed.

Definition col_len (height dst_stride : Z) : nat :=
  (Z.to_nat height +
   (if Z.eqb (u32 (u32 (dst_stride - height) * I915_GTT_PAGE_SIZE)) 0 then 0 else 1))%nat.

Lemma rotate_columns_length (get_dma : Z -> Z) (offset height src_stride dst_stride : Z)
    (column : Z) (cols : nat) :
  length (rotate_columns get_dma offset height src_stride dst_stride column cols) =
  (cols * col_len height dst_stride)%nat.
Proof.
  revert column; induction cols as [|cols IH]; intros column; [reflexivity|].
  cbn [rotate_columns]. rewrite !length_app, IH, rotate_rows_length.
  unfold col_len. destruct (_ =? 0); simpl; lia.
Qed.

Lemma rotate_columns_nth (get_dma : Z -> Z) (offset height src_stride dst_stride : Z)
    (column : Z) (cols c i : nat) :
  (c < cols)%nat -> (i < col_len height dst_stride)%nat ->
  nth_error (rotate_columns get_dma offset height src_stride dst_stride column cols)
    (c * col_len height dst_stride + i) =
  nth_error (rotate_columns get_dma offset height src_stride dst_stride
               (column + Z.of_nat c) 1) i.
Proof.
  revert column c; induction cols as [|cols IH]; intros column c Hc Hi; [lia|].
  cbn [rotate_columns]. rewrite app_assoc.
  match goal with |- nth_error ((?a ++ ?b) ++ _) _ = _ => set (blk := a ++ b) end.
  assert (Hb : length blk = col_len height dst_stride).
  { subst blk. rewrite length_app, rotate_rows_length. unfold col_len.
    destruct (_ =? 0); reflexivity. }
  destruct c as [|c].
  - rewrite Nat.mul_0_l, Nat.add_0_l. change (Z.of_nat 0) with 0.
    rewrite Z.add_0_r, nth_error_app1 by lia. subst blk.
    cbn [rotate_columns]. rewrite ?app_nil_r, ?app_assoc. reflexivity.
  - rewrite nth_error_app2 by (rewrite Hb; nia).
    replace (S c * col_len height dst_stride + i - length blk)%nat
      with (c * col_len height dst_stride + i)%nat by (rewrite Hb; nia).
    rewrite IH by lia.
    replace (column + Z.of_nat (S c)) with (column + 1 + Z.of_nat c) by lia. reflexivity.
Qed.

(** [rotate_pages] writes one block per column of [height] page entries
    followed by one padding entry when [left] is not 0, so it adds
    [width * (height + [1 if padding])] entries to [st->nents]. *)
Theorem rotate_pages_nents (get_dma : Z -> Z) (offset width height src_stride dst_stride : Z) :
  length (rotate_pages get_dma offset width height src_stride dst_stride) =
  (Z.to_nat width *
   (Z.to_nat height +
    (if Z.eqb (u32 (u32 (dst_stride - height) * I915_GTT_PAGE_SIZE)) 0 then 0 else 1)))%nat.
Proof. apply rotate_columns_length. Qed.

(** The layout [rotate_pages] gives a rotated plane: without wrap-around of
    the source index, entry [r] of column [c] maps the object page
    [offset + c + src_stride * (height - 1 - r)] (the column is read bottom
    up), one GTT page long; with [dst_stride > height] the column ends with
    a padding entry of [dst_stride - height] pages at DMA address 0. *)
Theorem rotate_pages_layout (get_dma : Z -> Z) (offset width height src_stride dst_stride : Z)
    (c r : Z)
    (Hoff : 0 <= offset) (Hs : 0 <= src_stride) (Hh : height < 2 ^ 32)
    (Hc : 0 <= c < width) (Hr : 0 <= r < height)
    (Hnw : offset + c + src_stride * (height - 1) < 2 ^ 32) :
  let per := col_len height dst_stride in
  nth_error (rotate_pages get_dma offset width height src_stride dst_stride)
    (Z.to_nat c * per + Z.to_nat r) =
  Some {| sg_dma_address := get_dma (offset + c + src_stride * (height - 1 - r));
          sg_dma_len := I915_GTT_PAGE_SIZE |} /\
  (height < dst_stride -> (dst_stride - height) * I915_GTT_PAGE_SIZE < 2 ^ 32 ->
   nth_error (rotate_pages get_dma offset width height src_stride dst_stride)
     (Z.to_nat c * per + Z.to_nat height) =
   Some {| sg_dma_address := 0; sg_dma_len := (dst_stride - height) * I915_GTT_PAGE_SIZE |}).
Proof.
  intros per. unfold rotate_pages.
  assert (Hper : (Z.to_nat height <= per)%nat) by (unfold per, col_len; lia).
  split; [|intros Hd Hl].
  - rewrite rotate_columns_nth by lia.
    cbn [rotate_columns]. rewrite nth_error_app1
      by (rewrite rotate_rows_length; lia).
    assert (E1 : u32 (height - 1) = height - 1) by (unfold u32; apply Z.mod_small; lia).
    assert (E2 : u32 (src_stride * (height - 1)) = src_stride * (height - 1))
      by (unfold u32; apply Z.mod_small; nia).
    assert (E3 : u32 (src_stride * (height - 1) + (0 + Z.of_nat (Z.to_nat c)) + offset) =
                 offset + c + src_stride * (height - 1))
      by (unfold u32; rewrite Z2Nat.id by lia; rewrite Z.mod_small by nia; lia).
    rewrite E1, E2, E3, rotate_rows_nth by nia.
    do 3 f_equal. rewrite Z2Nat.id by lia. ring.
  - assert (E : u32 (u32 (dst_stride - height) * I915_GTT_PAGE_SIZE) =
                (dst_stride - height) * I915_GTT_PAGE_SIZE).
    { unfold u32, I915_GTT_PAGE_SIZE in *.
      rewrite (Z.mod_small (dst_stride - height)) by lia. apply Z.mod_small; lia. }
    assert (Hn : (dst_stride - height) * I915_GTT_PAGE_SIZE <> 0)
      by (unfold I915_GTT_PAGE_SIZE; lia).
    assert (Hper' : per = S (Z.to_nat height))
      by (unfold per, col_len; rewrite E; destruct (Z.eqb_spec ((dst_stride - height) *
            I915_GTT_PAGE_SIZE) 0); [contradiction | lia]).
    rewrite rotate_columns_nth by lia.
    cbn [rotate_columns]. rewrite E.
    destruct (Z.eqb_spec ((dst_stride - height) * I915_GTT_PAGE_SIZE) 0); [contradiction|].
    rewrite nth_error_app2 by (rewrite rotate_rows_length; lia).
    rewrite rotate_rows_length, Nat.sub_diag. reflexivity.
Qed.

Lemma rotate_pages_layout_witness :
  let get_dma := fun i => 4096 * i in
  nth_error (rotate_pages get_dma 0 2 3 2 4) (1 * col_len 3 4 + 0) =
    Some {| sg_dma_address := 4096 * 5; sg_dma_len := 4096 |} /\
  nth_error (rotate_pages get_dma 0 2 3 2 4) (1 * col_len 3 4 + 3) =
    Some {| sg_dma_address := 0; sg_dma_len := 4096 |}.
Proof.
  intros get_dma.
  destruct (rotate_pages_layout get_dma 0 2 3 2 4 1 0 ltac:(lia) ltac:(lia) ltac:(lia)
              ltac:(lia) ltac:(lia) ltac:(lia)) as [H1 H2].
  split.
  - exact H1.
  - exact (H2 ltac:(lia) ltac:(unfold I915_GTT_PAGE_SIZE; lia)).
Defined.

End ViewPagesFacts.
